(** * Trade-safety core of the trading bot: risk engine, order evaluator,
      position ledger and PnL analytics

    A shallow embedding of
      - [app/risk/risk_engine.py]      (module [RiskEngine]),
      - [app/exchange/kraken_orders.py] (module [KrakenOrders]),
      - [app/util/pnl_analytics.py]    (module [PnlAnalytics]),
      - [app/util/ledger.py] and the status writer of [app/main.py]
        (module [Ledger]),
      - the latches of [app/main.py]   (module [Main]),
      - [app/strategy/ma_crossover.py] (module [MaCrossover]),
      - the strategy pass of [app/main.py] (module [MainLoop]),
    then the quantities the specification speaks of (module [Checks]),
    sample inputs (module [Samples]) and the properties themselves.

    Conventions of the embedding.
      - A Python [float] is a binary64 number, held as the rational ([Q])
        it stands for, so comparisons are exact.  In the order evaluator
        and the moving averages every [+], [-], [*] and [/] rounds its
        result to the nearest binary64 number, ties to even
        ([Py.round64]), and [float(text)] reads the literals Python reads
        and rounds them likewise ([Py.float_parse]).  A field that holds
        a float is meant to hold a binary64 number: the decimal 0.3 of a
        configuration is [Py.float 0.3].  The PnL analytics add and
        multiply amounts with the exact operations of [Q]; there only the
        final rounding to six decimals goes through [float].  Infinities
        and NaN arise from [float(text)] alone, where [Py.float_parse]
        keeps them; arithmetic does not overflow.  Float division raises
        [ZeroDivisionError] on a zero divisor, which [Py.truediv] keeps.
      - A Python [int] is a [Z]; a [str] is a [string]; [None] is [None].
      - A [dict] is an association list in insertion order ([Py.dict]).
      - The wall clock and the file system are not owned by the program:
        every operation receives the [World] it runs in. *)

From Stdlib Require Import ZArith QArith Qabs Qminmax Qround Qpower.
From Stdlib Require Import Lia Lqa Bool List String Ascii.
From Stdlib Require Import DecimalString DecimalPos.
Import ListNotations.

Local Open Scope string_scope.
Local Open Scope Z_scope.
Local Open Scope Q_scope.

(* ================================================================= *)
(** * Python primitives used by the sources *)

Module Py.

(** ** Exceptions *)

Inductive result (A : Type) : Type :=
| Ok (a : A)
| Raise (exn : string).
Arguments Ok {A} a.
Arguments Raise {A} exn.

Definition bind {A B} (m : result A) (k : A -> result B) : result B :=
  match m with
  | Ok a => k a
  | Raise e => Raise e
  end.

(** ** Floats *)

(** A [float] is a binary64 number, held as the rational it stands for.
    Comparisons are exact.  The results of [+], [-], [*] and [/] are
    rounded to the nearest binary64 number, ties to even, as IEEE 754
    prescribes. *)

Definition leb (a b : Q) : bool := Qle_bool a b.
Definition geb (a b : Q) : bool := Qle_bool b a.
Definition gtb (a b : Q) : bool := negb (Qle_bool a b).
Definition ltb (a b : Q) : bool := negb (Qle_bool b a).

(** [min(a, b)] and [max(a, b)]: the first argument is kept unless the
    second is strictly smaller (resp. larger). *)
Definition min (a b : Q) : Q := if ltb b a then b else a.
Definition max (a b : Q) : Q := if gtb b a then b else a.

(** Nearest integer, ties to even. *)
Definition round_half_even (q : Q) : Z :=
  let n := Qnum q in
  let d := Zpos (Qden q) in
  let fl := (n / d)%Z in
  match (2 * (n mod d) ?= d)%Z with
  | Lt => fl
  | Gt => (fl + 1)%Z
  | Eq => if Z.even fl then fl else (fl + 1)%Z
  end.

(** [2^e]. *)
Definition pow2 (e : Z) : Q := 2 ^ e.

(** [floor (log2 a)] for a positive [a]. *)
Definition ilog2 (a : Q) : Z :=
  if Qle_bool 1 a then Z.log2 (Qfloor a)
  else (- Z.log2_up (Qceiling (/ a)))%Z.

(** The binary64 number nearest to [q], ties to even: 53 significant bits,
    and [2^-1074] as the smallest step. *)
Definition round64 (q : Q) : Q :=
  if Qeq_bool q 0 then 0
  else
    let a := Qabs q in
    let e := Z.max (ilog2 a - 52) (-1074) in
    let m := round_half_even (a / pow2 e) in
    let v := inject_Z m * pow2 e in
    if Qle_bool 0 q then v else - v.

(** The float that a decimal literal of the source denotes, and
    [float(x)] of a number [x]. *)
Definition float (q : Q) : Q := round64 q.

(** [a + b], [a - b] and [a * b] on floats. *)
Definition fadd (a b : Q) : Q := round64 (a + b).
Definition fsub (a b : Q) : Q := round64 (a - b).
Definition fmul (a b : Q) : Q := round64 (a * b).

(** [a / b] on floats, for a divisor that is not zero. *)
Definition fdiv (a b : Q) : Q := round64 (a / b).

(** [a / b] on floats. *)
Definition truediv (a b : Q) : result Q :=
  if Qeq_bool b 0 then Raise "ZeroDivisionError" else Ok (fdiv a b).

(** ** Strings *)

(** [str(n)] for an [int]. *)
Definition str_of_int (n : Z) : string :=
  NilZero.string_of_int (Z.to_int n).

(** The last [n] decimal digits of [m], most significant first. *)
Fixpoint fixed_digits (n : nat) (m : Z) : string :=
  match n with
  | O => ""
  | S k =>
      (fixed_digits k (m / 10)
       ++ String (ascii_of_nat (48 + Z.to_nat (m mod 10))) "")%string
  end.

(** [q] scaled by [10^d] and rounded: the digits [format] prints. *)
Definition scaled (d : nat) (q : Q) : Z :=
  round_half_even (Qabs q * inject_Z (10 ^ Z.of_nat d)).

(** ["{:.<d>f}".format(q)]. *)
Definition format_f (d : nat) (q : Q) : string :=
  let m := scaled d q in
  let p := (10 ^ Z.of_nat d)%Z in
  let sign := if ltb q 0 then "-" else "" in
  let ip := str_of_int (m / p) in
  match d with
  | O => (sign ++ ip)%string
  | S _ => (sign ++ ip ++ "." ++ fixed_digits d (m mod p))%string
  end.

(** ** [float(s)] for a [str] *)

Definition digit_of_ascii (c : ascii) : option Z :=
  let n := Z.of_nat (nat_of_ascii c) in
  if ((48 <=? n) && (n <=? 57))%Z%bool then Some (n - 48)%Z else None.

(** Value of a (possibly empty) run of decimal digits, most significant
    first, continuing from [acc]. *)
Fixpoint digits_value (acc : Z) (s : string) : option Z :=
  match s with
  | EmptyString => Some acc
  | String c r =>
      match digit_of_ascii c with
      | Some v => digits_value (10 * acc + v)%Z r
      | None => None
      end
  end.

(** Split at the first ['.']: integer digits and, when a point is
    present, the fractional digits. *)
Fixpoint split_point (s : string) : string * option string :=
  match s with
  | EmptyString => ("", None)
  | String c r =>
      if Ascii.eqb c "." then ("", Some r)
      else let '(a, b) := split_point r in (String c a, b)
  end.

(** The value of [digits], [digits.], [.digits] or [digits.digits]. *)
Definition unsigned_float (s : string) : option Q :=
  let '(ip, fp) := split_point s in
  let fp := match fp with Some f => f | None => "" end in
  if ((String.length ip =? 0)%nat && (String.length fp =? 0)%nat)%bool
  then None
  else
    match digits_value 0 (ip ++ fp)%string with
    | Some v => Some (inject_Z v / inject_Z (10 ^ Z.of_nat (String.length fp)))
    | None => None
    end.

(** The value of a plain decimal literal [[+-]digits[.digits]], the form
    [format] prints. *)
Definition plain_decimal (s : string) : option Q :=
  match s with
  | String c r =>
      if Ascii.eqb c "-" then option_map Qopp (unsigned_float r)
      else if Ascii.eqb c "+" then unsigned_float r
      else unsigned_float s
  | EmptyString => None
  end.

(** The blanks [float] skips around a literal. *)
Definition is_blank (c : ascii) : bool :=
  let n := nat_of_ascii c in
  ((9 <=? n) && (n <=? 13) || (n =? 32))%nat.

Fixpoint skip_blanks (s : string) : string :=
  match s with
  | EmptyString => EmptyString
  | String c r => if is_blank c then skip_blanks r else s
  end.

Fixpoint drop_trailing_blanks (s : string) : string :=
  match s with
  | EmptyString => EmptyString
  | String c r =>
      match drop_trailing_blanks r with
      | EmptyString => if is_blank c then EmptyString else String c EmptyString
      | r' => String c r'
      end
  end.

Definition is_digit (c : ascii) : bool :=
  match digit_of_ascii c with
  | Some _ => true
  | None => false
  end.

(** Underscores are allowed between two digits only; they are dropped. *)
Fixpoint drop_underscores (after_digit : bool) (s : string) : option string :=
  match s with
  | EmptyString => Some EmptyString
  | String c r =>
      if Ascii.eqb c "_" then
        match r with
        | String c' _ =>
            if after_digit && is_digit c' then drop_underscores false r
            else None
        | EmptyString => None
        end
      else option_map (String c) (drop_underscores (is_digit c) r)
  end.

(** Split at the first ['e'] or ['E']. *)
Fixpoint split_exponent (s : string) : string * option string :=
  match s with
  | EmptyString => ("", None)
  | String c r =>
      if Ascii.eqb c "e" || Ascii.eqb c "E" then ("", Some r)
      else let '(a, b) := split_exponent r in (String c a, b)
  end.

(** A decimal exponent: an optional sign and at least one digit. *)
Definition read_exponent (s : string) : option Z :=
  let digits (t : string) :=
    match t with
    | EmptyString => None
    | _ => digits_value 0 t
    end in
  match s with
  | String c r =>
      if Ascii.eqb c "-" then option_map Z.opp (digits r)
      else if Ascii.eqb c "+" then digits r
      else digits s
  | EmptyString => None
  end.

(** [10^k]. *)
Definition pow10 (k : Z) : Q :=
  match k with
  | Z0 => 1
  | Zpos p => inject_Z (10 ^ Zpos p)
  | Zneg p => 1 # (10 ^ p)
  end.

Definition lower_char (c : ascii) : ascii :=
  let n := nat_of_ascii c in
  if ((65 <=? n) && (n <=? 90))%nat then ascii_of_nat (n + 32) else c.

Fixpoint lower (s : string) : string :=
  match s with
  | EmptyString => EmptyString
  | String c r => String (lower_char c) (lower r)
  end.

(** What a text denotes for [float]: a decimal number, with its exact
    value, an infinity or a NaN. *)
Inductive literal : Type :=
| Number (q : Q)
| Infinity (negative : bool)
| NotANumber.

(** The general form: blanks around, an optional sign, then [inf],
    [infinity] or [nan] in any case, or digits with an optional point and
    an optional exponent; the digits may be grouped by single
    underscores. *)
Definition general_literal (s : string) : option literal :=
  match drop_underscores false (drop_trailing_blanks (skip_blanks s)) with
  | None => None
  | Some u =>
      let '(neg, body) :=
        match u with
        | String c r =>
            if Ascii.eqb c "-" then (true, r)
            else if Ascii.eqb c "+" then (false, r)
            else (false, u)
        | EmptyString => (false, u)
        end in
      let w := lower body in
      if String.eqb w "inf" || String.eqb w "infinity"
      then Some (Infinity neg)
      else if String.eqb w "nan" then Some NotANumber
      else
        let '(mt, et) := split_exponent body in
        match unsigned_float mt with
        | None => None
        | Some m =>
            let v :=
              match et with
              | None => Some m
              | Some x => option_map (fun k => m * pow10 k) (read_exponent x)
              end in
            option_map (fun q => Number (if neg then - q else q)) v
        end
  end.

(** A plain decimal literal is read as such, any other text in the
    general form; [None] stands for [ValueError]. *)
Definition read_literal (s : string) : option literal :=
  match plain_decimal s with
  | Some q => Some (Number q)
  | None => general_literal s
  end.

(** [float(s)] when [s] denotes a number: the binary64 number nearest to
    the decimal value.  [None] stands for [ValueError]; it also stands
    for the texts [inf] and [nan], which no caller of this function
    reads. *)
Definition float_of_str (s : string) : option Q :=
  match read_literal s with
  | Some (Number q) => Some (round64 q)
  | _ => None
  end.

(** [float(s)] with the infinities and NaN: a decimal value that rounds
    to [2^1024] or beyond is an infinity. *)
Inductive parsed : Type :=
| Finite (q : Q)
| Inf (negative : bool)
| NaN.

Definition float_parse (s : string) : option parsed :=
  match read_literal s with
  | Some (Number q) =>
      let r := round64 q in
      if Qle_bool (pow2 1024) (Qabs r) then Some (Inf (negb (Qle_bool 0 q)))
      else Some (Finite r)
  | Some (Infinity n) => Some (Inf n)
  | Some NotANumber => Some NaN
  | None => None
  end.

(** [a < b] on parsed floats. *)
Definition parsed_ltb (a b : parsed) : bool :=
  match a, b with
  | NaN, _ => false
  | _, NaN => false
  | Finite x, Finite y => ltb x y
  | Finite _, Inf n => negb n
  | Inf n, Finite _ => n
  | Inf n1, Inf n2 => n1 && negb n2
  end.

(** [needle in hay]. *)
Fixpoint contains (needle hay : string) : bool :=
  match hay with
  | EmptyString => prefix needle ""
  | String _ r => prefix needle hay || contains needle r
  end.

(** ** Dictionaries (insertion ordered) *)

Definition dict (V : Type) : Type := list (string * V).

Fixpoint get {V} (d : dict V) (k : string) : option V :=
  match d with
  | [] => None
  | (k', v) :: r => if String.eqb k' k then Some v else get r k
  end.

(** [d.get(k, dflt)]. *)
Definition get_default {V} (d : dict V) (k : string) (dflt : V) : V :=
  match get d k with
  | Some v => v
  | None => dflt
  end.

(** [k in d]. *)
Definition mem {V} (d : dict V) (k : string) : bool :=
  match get d k with
  | Some _ => true
  | None => false
  end.

(** [d[k] = v]: an existing key keeps its place, a new key goes last. *)
Fixpoint set {V} (d : dict V) (k : string) (v : V) : dict V :=
  match d with
  | [] => [(k, v)]
  | (k', v') :: r =>
      if String.eqb k' k then (k', v) :: r else (k', v') :: set r k v
  end.

(** [d.pop(k, None)]. *)
Fixpoint pop {V} (d : dict V) (k : string) : dict V :=
  match d with
  | [] => []
  | (k', v') :: r =>
      if String.eqb k' k then r else (k', v') :: pop r k
  end.

(** Truth value of an [Optional[str]]. *)
Definition truthy_str (s : option string) : option string :=
  match s with
  | Some "" => None
  | Some k => Some k
  | None => None
  end.

End Py.

Notation "x <- m ;; k" := (Py.bind m (fun x => k))
  (at level 61, m at next level, right associativity).

(* ================================================================= *)
(** * The world outside the process *)

(** What the operating system answers at the time of a call: the UTC date
    ([time.strftime("%Y-%m-%d", time.gmtime())]), the epoch second
    ([int(time.time())]), which paths exist, and which paths can be
    written. *)
Record World : Type := {
  clock_day : string;
  clock_now : Z;
  path_exists : string -> bool;
  path_writable : string -> bool
}.

(** The world after a successful write to [p]. *)
Definition touch (w : World) (p : string) : World :=
  {| clock_day := clock_day w;
     clock_now := clock_now w;
     path_exists := fun x => if String.eqb x p then true else path_exists w x;
     path_writable := path_writable w |}.

(* ================================================================= *)
(** * [app/risk/risk_engine.py] *)

Module RiskEngine.

Record RiskDecision : Type := {
  allowed : bool;
  reason : string
}.

(** The entries of the configuration mapping that [__init__] reads;
    [None] is an absent key. *)
Record Cfg : Type := {
  cfg_pause_file : option string;
  cfg_kill_switch_file : option string;
  cfg_max_notional_usd_per_trade : option Q;
  cfg_max_trades_per_day : option Z;
  cfg_max_trades_per_day_per_pair : option Z;
  cfg_max_daily_loss_usd : option Q;
  cfg_max_drawdown_usd : option Q
}.

(** The attributes of a [RiskEngine] instance. *)
Record t : Type := {
  pause_file : string;
  kill_file : string;
  max_notional_usd_per_trade : Q;
  max_trades_per_day : Z;
  max_trades_per_day_per_pair : Z;
  max_daily_loss_usd : Q;
  max_drawdown_usd : Q;
  day_key : string;
  trades_today : Z;
  trades_today_by_pair : Py.dict Z;
  portfolio_realized : Q;
  portfolio_max_dd : Q;
  pause_reason : option string
}.

Definition or_default {A} (o : option A) (d : A) : A :=
  match o with
  | Some a => a
  | None => d
  end.

Definition _utc_day_key (w : World) : string := clock_day w.

Definition __init__ (w : World) (cfg : Cfg) : t :=
  let mtpd := or_default (cfg_max_trades_per_day cfg) 3%Z in
  {| pause_file := or_default (cfg_pause_file cfg) "/run/trading/PAUSE";
     kill_file :=
       or_default (cfg_kill_switch_file cfg) "/run/trading/KILL_SWITCH";
     max_notional_usd_per_trade :=
       or_default (cfg_max_notional_usd_per_trade cfg) 20;
     max_trades_per_day := mtpd;
     max_trades_per_day_per_pair :=
       or_default (cfg_max_trades_per_day_per_pair cfg) mtpd;
     max_daily_loss_usd := or_default (cfg_max_daily_loss_usd cfg) 0;
     max_drawdown_usd := or_default (cfg_max_drawdown_usd cfg) 0;
     day_key := _utc_day_key w;
     trades_today := 0%Z;
     trades_today_by_pair := [];
     portfolio_realized := 0;
     portfolio_max_dd := 0;
     pause_reason := None |}.

(** Attribute assignments. *)

Definition set_counters (e : t) (dk : string) (n : Z) (bp : Py.dict Z) : t :=
  {| pause_file := pause_file e;
     kill_file := kill_file e;
     max_notional_usd_per_trade := max_notional_usd_per_trade e;
     max_trades_per_day := max_trades_per_day e;
     max_trades_per_day_per_pair := max_trades_per_day_per_pair e;
     max_daily_loss_usd := max_daily_loss_usd e;
     max_drawdown_usd := max_drawdown_usd e;
     day_key := dk;
     trades_today := n;
     trades_today_by_pair := bp;
     portfolio_realized := portfolio_realized e;
     portfolio_max_dd := portfolio_max_dd e;
     pause_reason := pause_reason e |}.

Definition set_metrics (e : t) (r dd : Q) : t :=
  {| pause_file := pause_file e;
     kill_file := kill_file e;
     max_notional_usd_per_trade := max_notional_usd_per_trade e;
     max_trades_per_day := max_trades_per_day e;
     max_trades_per_day_per_pair := max_trades_per_day_per_pair e;
     max_daily_loss_usd := max_daily_loss_usd e;
     max_drawdown_usd := max_drawdown_usd e;
     day_key := day_key e;
     trades_today := trades_today e;
     trades_today_by_pair := trades_today_by_pair e;
     portfolio_realized := r;
     portfolio_max_dd := dd;
     pause_reason := pause_reason e |}.

Definition set_pause_reason (e : t) (r : option string) : t :=
  {| pause_file := pause_file e;
     kill_file := kill_file e;
     max_notional_usd_per_trade := max_notional_usd_per_trade e;
     max_trades_per_day := max_trades_per_day e;
     max_trades_per_day_per_pair := max_trades_per_day_per_pair e;
     max_daily_loss_usd := max_daily_loss_usd e;
     max_drawdown_usd := max_drawdown_usd e;
     day_key := day_key e;
     trades_today := trades_today e;
     trades_today_by_pair := trades_today_by_pair e;
     portfolio_realized := portfolio_realized e;
     portfolio_max_dd := portfolio_max_dd e;
     pause_reason := r |}.

Definition _roll_day_if_needed (w : World) (e : t) : t :=
  let dk := _utc_day_key w in
  if negb (String.eqb dk (day_key e))
  then set_counters e dk 0%Z []
  else e.

(** ** Control state *)

Definition kill_switch_active (w : World) (e : t) : bool :=
  path_exists w (kill_file e).

Definition paused (w : World) (e : t) : bool :=
  path_exists w (pause_file e)
  || match pause_reason e with Some _ => true | None => false end.

Definition get_pause_reason (w : World) (e : t) : string :=
  match Py.truthy_str (pause_reason e) with
  | Some r => r
  | None =>
      if path_exists w (pause_file e)
      then ("pause file present: " ++ pause_file e)%string
      else ""
  end.

(** The reason is kept in memory whether or not the pause file can be
    written. *)
Definition _touch_pause (w : World) (e : t) (r : string) : t * World :=
  (set_pause_reason e (Some r),
   if path_writable w (pause_file e) then touch w (pause_file e) else w).

(** ** Circuit breakers *)

Definition update_portfolio_metrics
    (w : World) (e : t) (realized_pnl_usd max_drawdown_usd_now : Q)
    : t * World :=
  let e := set_metrics e realized_pnl_usd max_drawdown_usd_now in
  if Py.gtb (max_daily_loss_usd e) 0
     && Py.leb (portfolio_realized e) (- max_daily_loss_usd e)
  then
    _touch_pause w e
      ("circuit breaker: realized pnl "
       ++ Py.format_f 6 (portfolio_realized e)
       ++ " <= -" ++ Py.format_f 6 (max_daily_loss_usd e))%string
  else if Py.gtb (max_drawdown_usd e) 0
          && Py.geb (portfolio_max_dd e) (max_drawdown_usd e)
  then
    _touch_pause w e
      ("circuit breaker: max drawdown "
       ++ Py.format_f 6 (portfolio_max_dd e)
       ++ " >= " ++ Py.format_f 6 (max_drawdown_usd e))%string
  else (e, w).

(** ** Core gating *)

Definition can_trade
    (w : World) (e : t) (notional_usd : Q) (mode : string)
    (pair : option string) : RiskDecision * t :=
  let e := _roll_day_if_needed w e in
  if kill_switch_active w e then
    ({| allowed := false; reason := "kill switch active" |}, e)
  else if paused w e then
    ({| allowed := false;
        reason := ("paused: " ++ get_pause_reason w e)%string |}, e)
  else if Py.gtb notional_usd (max_notional_usd_per_trade e) then
    ({| allowed := false;
        reason :=
          ("max_notional_usd_per_trade exceeded ("
           ++ Py.format_f 2 notional_usd ++ " > "
           ++ Py.format_f 2 (max_notional_usd_per_trade e) ++ ")")%string |},
     e)
  else if (max_trades_per_day e <=? trades_today e)%Z then
    ({| allowed := false;
        reason :=
          ("max trades/day reached ("
           ++ Py.str_of_int (trades_today e) ++ "/"
           ++ Py.str_of_int (max_trades_per_day e) ++ ")")%string |}, e)
  else
    match Py.truthy_str pair with
    | Some p =>
        let pt := Py.get_default (trades_today_by_pair e) p 0%Z in
        if (max_trades_per_day_per_pair e <=? pt)%Z then
          ({| allowed := false;
              reason :=
                ("max trades/day per pair reached ("
                 ++ p ++ ": " ++ Py.str_of_int pt ++ "/"
                 ++ Py.str_of_int (max_trades_per_day_per_pair e)
                 ++ ")")%string |}, e)
        else ({| allowed := true; reason := "ok" |}, e)
    | None => ({| allowed := true; reason := "ok" |}, e)
    end.

Definition record_trade (w : World) (e : t) (pair : option string) : t :=
  let e := _roll_day_if_needed w e in
  let n := (trades_today e + 1)%Z in
  match Py.truthy_str pair with
  | Some p =>
      set_counters e (day_key e) n
        (Py.set (trades_today_by_pair e) p
           (Py.get_default (trades_today_by_pair e) p 0%Z + 1)%Z)
  | None => set_counters e (day_key e) n (trades_today_by_pair e)
  end.

(** ** Histories of calls

    A call made on the engine together with the world at that time. *)
Inductive call : Type :=
| CanTrade (notional_usd : Q) (mode : string) (pair : option string)
| RecordTrade (pair : option string)
| UpdatePortfolioMetrics (realized_pnl_usd max_drawdown_usd_now : Q).

Definition step (e : t) (wc : World * call) : t :=
  let '(w, c) := wc in
  match c with
  | CanTrade n m p => snd (can_trade w e n m p)
  | RecordTrade p => record_trade w e p
  | UpdatePortfolioMetrics r dd => fst (update_portfolio_metrics w e r dd)
  end.

Definition run (e : t) (h : list (World * call)) : t := fold_left step h e.

Definition is_record (wc : World * call) : bool :=
  match snd wc with
  | RecordTrade _ => true
  | _ => false
  end.

(** Number of [record_trade] calls in a history. *)
Definition recorded (h : list (World * call)) : Z :=
  Z.of_nat (List.length (filter is_record h)).

(** The breaker conditions of [update_portfolio_metrics]. *)
Definition loss_breaker_hit (e : t) (realized : Q) : Prop :=
  0 < max_daily_loss_usd e /\ realized <= - max_daily_loss_usd e.

Definition drawdown_breaker_hit (e : t) (dd : Q) : Prop :=
  0 < max_drawdown_usd e /\ max_drawdown_usd e <= dd.

(** A sticky reason set by a breaker. *)
Definition breaker_pause (e : t) : Prop :=
  exists r, pause_reason e = Some r /\ prefix "circuit breaker" r = true.

End RiskEngine.


(* ================================================================= *)
(** * [app/exchange/kraken_orders.py] *)

Module KrakenOrders.

Record OrderDecision : Type := {
  pair : string;
  side : string;
  ordertype : string;
  volume : string;
  price : option string;
  mode : string;
  notional_usd : Q;
  reason : string
}.

(** The [metrics] mapping returned next to the decision. *)
Record Metrics : Type := {
  m_bid : Q;
  m_ask : Q;
  m_last : Q;
  m_mid : Q;
  m_spread_pct : Q;
  m_slippage_pct : Q
}.

(** The configuration entries [build_order] reads: [cfg["trading"]] and
    [cfg["safety"]].  Only [order_type] has a default in the source. *)
Record Cfg : Type := {
  trading_mode : string;
  trading_order_type : option string;
  trading_quote_notional_usd : Q;
  safety_max_spread_pct : Q;
  safety_max_slippage_pct : Q;
  safety_limit_offset_pct : Q
}.

(** The entries of an [AssetPairs] answer that are read. *)
Record PairInfo : Type := {
  lot_decimals : option nat;
  cost_decimals : option nat;
  ordermin : option string
}.

(** Best bid, best ask and last trade of a [Ticker] answer, after
    [float(ticker["b"][0])] and so on. *)
Record Ticker : Type := {
  tk_b : Q;
  tk_a : Q;
  tk_c : Q
}.

Record Payload : Type := {
  pl_pair : string;
  pl_type : string;
  pl_ordertype : string;
  pl_volume : string;
  pl_price : option string
}.

(** The exchange client [k].  [Raise] is an exception of the call or an
    error answer that the wrappers turn into [RuntimeError]; for
    [AddOrder], [Ok (Some e)] is an answer whose ["error"] is [e]. *)
Record KrakenClient : Type := {
  asset_pairs : string -> Py.result PairInfo;
  ticker : string -> Py.result Ticker;
  add_order : Payload -> Py.result (option string)
}.

Definition _live_latch_enabled (w : World) : bool :=
  path_exists w "/run/trading/ENABLE_LIVE_TRADING".

Definition resolve_pair_info (k : KrakenClient) (p : string)
    : Py.result PairInfo :=
  asset_pairs k p.

Definition get_ticker (k : KrakenClient) (p : string) : Py.result Ticker :=
  ticker k p.

Definition _pct (x : Q) : Q := Py.fmul x 100.

Definition _format_dec (val : Q) (decimals : nat) : string :=
  Py.format_f decimals val.

Definition _format_volume (vol : Q) (lot : nat) : string :=
  Py.format_f lot vol.

Definition _calc_spread_pct (bid ask : Q) : Py.result Q :=
  mid <- Py.truediv (Py.fadd bid ask) 2 ;;
  if Py.leb mid 0 then Py.Ok 999
  else
    r <- Py.truediv (Py.fsub ask bid) mid ;;
    Py.Ok (_pct r).

Definition _slippage_pct (ref current : Q) : Py.result Q :=
  if Py.leb ref 0 then Py.Ok 999
  else
    r <- Py.truediv (Qabs (Py.fsub current ref)) ref ;;
    Py.Ok (_pct r).

Definition blocked
    (pair_key sd ot vol md : string) (notional : Q) (why : string)
    : OrderDecision :=
  {| pair := pair_key; side := sd; ordertype := ot; volume := vol;
     price := None; mode := md; notional_usd := notional; reason := why |}.

(** [not base_volume_override or base_volume_override <= 0]. *)
Definition no_position_volume (o : option Q) : bool :=
  match o with
  | None => true
  | Some v => Qeq_bool v 0 || Py.leb v 0
  end.

(** The [ordermin] test, [float(vol_str) < float(ordermin)]; a failing
    [float(...)] is swallowed by the [try ... except Exception: pass]
    around it. *)
Definition below_ordermin (vol_str : string) (om : option string) : bool :=
  match om with
  | None => false
  | Some o =>
      match Py.float_parse vol_str, Py.float_parse o with
      | Some v, Some m => Py.parsed_ltb v m
      | _, _ => false
      end
  end.

Definition build_order
    (k : KrakenClient) (cfg : Cfg) (pair_key sd : string)
    (base_volume_override : option Q)
    : Py.result (OrderDecision * Metrics) :=
  let md := trading_mode cfg in
  let ot := RiskEngine.or_default (trading_order_type cfg) "limit" in
  let quote := trading_quote_notional_usd cfg in
  let max_spread := safety_max_spread_pct cfg in
  let max_slip := safety_max_slippage_pct cfg in
  let limit_off := safety_limit_offset_pct cfg in
  pair_info <- resolve_pair_info k pair_key ;;
  tk <- get_ticker k pair_key ;;
  let bid := tk_b tk in
  let ask := tk_a tk in
  let last := tk_c tk in
  spread <- _calc_spread_pct bid ask ;;
  mid <- Py.truediv (Py.fadd bid ask) 2 ;;
  slip <- _slippage_pct mid last ;;
  let metrics :=
    {| m_bid := bid; m_ask := ask; m_last := last; m_mid := mid;
       m_spread_pct := spread; m_slippage_pct := slip |} in
  if Py.gtb spread max_spread then
    Py.Ok (blocked pair_key sd ot "0" md quote
             ("blocked: spread " ++ Py.format_f 6 spread ++ "% > max "
              ++ Py.format_f 6 max_spread ++ "%")%string,
           metrics)
  else if Py.gtb slip max_slip then
    Py.Ok (blocked pair_key sd ot "0" md quote
             ("blocked: slippage " ++ Py.format_f 6 slip ++ "% > max "
              ++ Py.format_f 6 max_slip ++ "%")%string,
           metrics)
  else
    let lot := RiskEngine.or_default (lot_decimals pair_info) 8%nat in
    let cost := RiskEngine.or_default (cost_decimals pair_info) 2%nat in
    sized <-
      (if String.eqb sd "buy" then
         if Py.leb last 0 then
           Py.Ok (inl (blocked pair_key sd ot "0" md quote
                         "blocked: invalid last"))
         else
           vol <- Py.truediv quote last ;;
           Py.Ok (inr (_format_volume vol lot, quote))
       else
         if no_position_volume base_volume_override then
           Py.Ok (inl (blocked pair_key sd ot "0" md 0
                         "blocked: no position volume"))
         else
           let v := RiskEngine.or_default base_volume_override 0 in
           Py.Ok (inr (_format_volume v lot, Py.fmul v last))) ;;
    match sized with
    | inl od => Py.Ok (od, metrics)
    | inr (vol_str, notional) =>
        if below_ordermin vol_str (ordermin pair_info) then
          Py.Ok (blocked pair_key sd ot vol_str md notional
                   ("blocked: below ordermin ("
                    ++ RiskEngine.or_default (ordermin pair_info) ""
                    ++ ")")%string,
                 metrics)
        else
          price_str <-
            (if String.eqb ot "limit" then
               off <- Py.truediv limit_off 100 ;;
               let px :=
                 if String.eqb sd "buy" then Py.fmul ask (Py.fadd 1 off)
                 else Py.fmul bid (Py.fsub 1 off) in
               Py.Ok (Some (_format_dec px cost))
             else Py.Ok None) ;;
          Py.Ok ({| pair := pair_key; side := sd; ordertype := ot;
                    volume := vol_str; price := price_str; mode := md;
                    notional_usd := notional; reason := "ok" |},
                 metrics)
    end.

Definition set_reason (od : OrderDecision) (why : string) : OrderDecision :=
  {| pair := pair od; side := side od; ordertype := ordertype od;
     volume := volume od; price := price od; mode := mode od;
     notional_usd := notional_usd od; reason := why |}.

(** [place_or_preview].  [w] is the world when the gate is evaluated, [w']
    the world when the exchange has answered.  The risk engine is mutated
    in place, so its state is returned also when an exception escapes. *)
Definition place_or_preview
    (w w' : World) (k : KrakenClient) (cfg : Cfg) (risk : RiskEngine.t)
    (pair_key sd : string) (base_volume_override : option Q)
    : Py.result (OrderDecision * Metrics) * RiskEngine.t :=
  match build_order k cfg pair_key sd base_volume_override with
  | Py.Raise e => (Py.Raise e, risk)
  | Py.Ok (od, metrics) =>
      if negb (String.eqb (reason od) "ok") then (Py.Ok (od, metrics), risk)
      else
        let '(rd, risk) :=
          RiskEngine.can_trade w risk (notional_usd od) (mode od)
            (Some pair_key) in
        if negb (RiskEngine.allowed rd) then
          (Py.Ok (set_reason od
                    ("blocked by risk: " ++ RiskEngine.reason rd)%string,
                  metrics), risk)
        else if negb (String.eqb (mode od) "live") then
          (Py.Ok (set_reason od "dry-run", metrics), risk)
        else if negb (_live_latch_enabled w) then
          (Py.Ok (set_reason od
                    "blocked: live latch not enabled (/run/trading/ENABLE_LIVE_TRADING)",
                  metrics), risk)
        else
          let payload :=
            {| pl_pair := pair od; pl_type := side od;
               pl_ordertype := ordertype od; pl_volume := volume od;
               pl_price :=
                 if String.eqb (ordertype od) "limit" then price od
                 else None |} in
          match add_order k payload with
          | Py.Raise e => (Py.Raise e, risk)
          | Py.Ok (Some err) =>
              (Py.Ok (set_reason od ("AddOrder error: " ++ err)%string,
                      metrics), risk)
          | Py.Ok None =>
              let risk := RiskEngine.record_trade w' risk (Some pair_key) in
              (Py.Ok (set_reason od "LIVE order placed", metrics), risk)
          end
  end.

(** The thresholds the order preview of [app/web/server.py] falls back
    to when the configuration names none. *)
Definition default_max_spread_pct : Q := Py.float 0.30.
Definition default_max_slippage_pct : Q := Py.float 0.50.
Definition default_limit_offset_pct : Q := Py.float 0.02.

End KrakenOrders.


(* ================================================================= *)
(** * [app/util/pnl_analytics.py] *)

Module PnlAnalytics.

(** A row of the trade history, as [_read_trades] builds it. *)
Record Trade : Type := {
  ts : Z;
  pair : string;
  side : string;
  volume : Q;
  price : Q;
  notional_usd : Q;
  mode : string
}.

(** An entry of [per_pair]. *)
Record PairStats : Type := {
  pp_realized_pnl_usd : Q;
  pp_unrealized_pnl_usd : Q;
  pp_net_pnl_usd : Q;
  pp_wins : Z;
  pp_losses : Z;
  pp_trades_closed : Z;
  pp_win_rate : Q;
  pp_open_position : bool;
  pp_open_volume : Q;
  pp_entry_price : Q;
  pp_mark_price : Q;
  pp_last_event_ts : Z
}.

(** The [portfolio] mapping. *)
Record Portfolio : Type := {
  realized_pnl_usd : Q;
  unrealized_pnl_usd : Q;
  net_pnl_usd : Q;
  wins : Z;
  losses : Z;
  trades_closed : Z;
  win_rate : Q;
  max_drawdown_usd : Q
}.

(** An entry of [open_pos]. *)
Record OpenPos : Type := {
  vol : Q;
  entry_px : Q;
  entry_ts : Q;
  cost_usd : Q
}.

(** The local variables of [compute_pnl] that the trade loop updates. *)
Record Loop : Type := {
  per_pair : Py.dict PairStats;
  portfolio : Portfolio;
  open_pos : Py.dict OpenPos;
  equity_points : list (Z * Q);
  realized_equity : Q;
  peak_equity : Q;
  max_dd : Q
}.

(** The returned document. *)
Record Doc : Type := {
  doc_ts : Z;
  doc_portfolio : Portfolio;
  doc_pairs : Py.dict PairStats;
  doc_equity_curve_realized : list (Z * Q)
}.

(** [float(f"{x:.6f}")].  The text [format] prints always reads back (see
    [_pair_round_value] below), so the [ValueError] branch is dead. *)
Definition _pair_round (x : Q) : Q :=
  match Py.float_of_str (Py.format_f 6 x) with
  | Some v => v
  | None => x
  end.

Definition new_pair_stats (marks : Py.dict Q) (p : string) : PairStats :=
  {| pp_realized_pnl_usd := 0;
     pp_unrealized_pnl_usd := 0;
     pp_net_pnl_usd := 0;
     pp_wins := 0%Z;
     pp_losses := 0%Z;
     pp_trades_closed := 0%Z;
     pp_win_rate := 0;
     pp_open_position := false;
     pp_open_volume := 0;
     pp_entry_price := 0;
     pp_mark_price := Py.get_default marks p 0;
     pp_last_event_ts := 0%Z |}.

Definition new_portfolio : Portfolio :=
  {| realized_pnl_usd := 0;
     unrealized_pnl_usd := 0;
     net_pnl_usd := 0;
     wins := 0%Z;
     losses := 0%Z;
     trades_closed := 0%Z;
     win_rate := 0;
     max_drawdown_usd := 0 |}.

Definition flat_pos : OpenPos :=
  {| vol := 0; entry_px := 0; entry_ts := 0; cost_usd := 0 |}.

(** [d[k][field] = ...] on an entry that is present. *)
Fixpoint modify {V} (d : Py.dict V) (k : string) (f : V -> V) : Py.dict V :=
  match d with
  | [] => []
  | (k', v) :: r =>
      if String.eqb k' k then (k', f v) :: r else (k', v) :: modify r k f
  end.

(** Item assignments on an entry of [per_pair]. *)

Definition touch_event (t : Z) (s : PairStats) : PairStats :=
  {| pp_realized_pnl_usd := pp_realized_pnl_usd s;
     pp_unrealized_pnl_usd := pp_unrealized_pnl_usd s;
     pp_net_pnl_usd := pp_net_pnl_usd s;
     pp_wins := pp_wins s;
     pp_losses := pp_losses s;
     pp_trades_closed := pp_trades_closed s;
     pp_win_rate := pp_win_rate s;
     pp_open_position := pp_open_position s;
     pp_open_volume := pp_open_volume s;
     pp_entry_price := pp_entry_price s;
     pp_mark_price := pp_mark_price s;
     pp_last_event_ts := t |}.

Definition mark_open (v px : Q) (s : PairStats) : PairStats :=
  {| pp_realized_pnl_usd := pp_realized_pnl_usd s;
     pp_unrealized_pnl_usd := pp_unrealized_pnl_usd s;
     pp_net_pnl_usd := pp_net_pnl_usd s;
     pp_wins := pp_wins s;
     pp_losses := pp_losses s;
     pp_trades_closed := pp_trades_closed s;
     pp_win_rate := pp_win_rate s;
     pp_open_position := true;
     pp_open_volume := v;
     pp_entry_price := px;
     pp_mark_price := pp_mark_price s;
     pp_last_event_ts := pp_last_event_ts s |}.

Definition book_close (pnl : Q) (s : PairStats) : PairStats :=
  {| pp_realized_pnl_usd := pp_realized_pnl_usd s + pnl;
     pp_unrealized_pnl_usd := pp_unrealized_pnl_usd s;
     pp_net_pnl_usd := pp_net_pnl_usd s;
     pp_wins := if Py.geb pnl 0 then (pp_wins s + 1)%Z else pp_wins s;
     pp_losses := if Py.geb pnl 0 then pp_losses s else (pp_losses s + 1)%Z;
     pp_trades_closed := (pp_trades_closed s + 1)%Z;
     pp_win_rate := pp_win_rate s;
     pp_open_position := false;
     pp_open_volume := 0;
     pp_entry_price := 0;
     pp_mark_price := pp_mark_price s;
     pp_last_event_ts := pp_last_event_ts s |}.

Definition mark_unrealized (u v px mark : Q) (s : PairStats) : PairStats :=
  {| pp_realized_pnl_usd := pp_realized_pnl_usd s;
     pp_unrealized_pnl_usd := u;
     pp_net_pnl_usd := pp_net_pnl_usd s;
     pp_wins := pp_wins s;
     pp_losses := pp_losses s;
     pp_trades_closed := pp_trades_closed s;
     pp_win_rate := pp_win_rate s;
     pp_open_position := true;
     pp_open_volume := v;
     pp_entry_price := px;
     pp_mark_price := mark;
     pp_last_event_ts := pp_last_event_ts s |}.

(** Item assignments on [portfolio]. *)

Definition portfolio_close (pnl : Q) (p : Portfolio) : Portfolio :=
  {| realized_pnl_usd := realized_pnl_usd p + pnl;
     unrealized_pnl_usd := unrealized_pnl_usd p;
     net_pnl_usd := net_pnl_usd p;
     wins := if Py.geb pnl 0 then (wins p + 1)%Z else wins p;
     losses := if Py.geb pnl 0 then losses p else (losses p + 1)%Z;
     trades_closed := (trades_closed p + 1)%Z;
     win_rate := win_rate p;
     max_drawdown_usd := max_drawdown_usd p |}.

Definition portfolio_add_unrealized (u : Q) (p : Portfolio) : Portfolio :=
  {| realized_pnl_usd := realized_pnl_usd p;
     unrealized_pnl_usd := unrealized_pnl_usd p + u;
     net_pnl_usd := net_pnl_usd p;
     wins := wins p;
     losses := losses p;
     trades_closed := trades_closed p;
     win_rate := win_rate p;
     max_drawdown_usd := max_drawdown_usd p |}.

(** [(wins / tc) if tc > 0 else 0.0]. *)
Definition rate (w tc : Z) : Q :=
  if (0 <? tc)%Z then inject_Z w / inject_Z tc else 0.

(** The lot that a [sell] closes: [pair in open_pos and
    open_pos[pair].get("vol", 0.0) > 0]. *)
Definition open_lot (op : Py.dict OpenPos) (p : string) : option OpenPos :=
  match Py.get op p with
  | Some pos => if Py.gtb (vol pos) 0 then Some pos else None
  | None => None
  end.

(** [pair not in open_pos or open_pos[pair].get("vol", 0.0) <= 0]. *)
Definition may_open (op : Py.dict OpenPos) (p : string) : bool :=
  match Py.get op p with
  | Some pos => Py.leb (vol pos) 0
  | None => true
  end.

(** [min(entry_vol, vol) if vol > 0 else entry_vol]. *)
Definition close_volume (entry_vol v : Q) : Q :=
  if Py.gtb v 0 then Py.min entry_vol v else entry_vol.

(** One iteration of [for t in trades]. *)
Definition trade_step (marks : Py.dict Q) (st : Loop) (t : Trade) : Loop :=
  let p := pair t in
  let pp :=
    if negb (Py.mem (per_pair st) p)
    then Py.set (per_pair st) p (new_pair_stats marks p)
    else per_pair st in
  let pp := modify pp p (touch_event (ts t)) in
  if String.eqb (side t) "buy" then
    if may_open (open_pos st) p then
      {| per_pair := modify pp p (mark_open (volume t) (price t));
         portfolio := portfolio st;
         open_pos :=
           Py.set (open_pos st) p
             {| vol := volume t; entry_px := price t;
                entry_ts := inject_Z (ts t);
                cost_usd := volume t * price t |};
         equity_points := equity_points st;
         realized_equity := realized_equity st;
         peak_equity := peak_equity st;
         max_dd := max_dd st |}
    else
      {| per_pair := pp; portfolio := portfolio st;
         open_pos := open_pos st; equity_points := equity_points st;
         realized_equity := realized_equity st;
         peak_equity := peak_equity st; max_dd := max_dd st |}
  else if String.eqb (side t) "sell" then
    match open_lot (open_pos st) p with
    | Some pos =>
        let close_vol := close_volume (vol pos) (volume t) in
        let pnl := (price t - entry_px pos) * close_vol in
        let equity := realized_equity st + pnl in
        let peak := Py.max (peak_equity st) equity in
        {| per_pair := modify pp p (book_close pnl);
           portfolio := portfolio_close pnl (portfolio st);
           open_pos := Py.set (open_pos st) p flat_pos;
           equity_points := (equity_points st ++ [(ts t, equity)])%list;
           realized_equity := equity;
           peak_equity := peak;
           max_dd := Py.max (max_dd st) (peak - equity) |}
    | None =>
        {| per_pair := pp; portfolio := portfolio st;
           open_pos := open_pos st; equity_points := equity_points st;
           realized_equity := realized_equity st;
           peak_equity := peak_equity st; max_dd := max_dd st |}
    end
  else
    {| per_pair := pp; portfolio := portfolio st;
       open_pos := open_pos st; equity_points := equity_points st;
       realized_equity := realized_equity st;
       peak_equity := peak_equity st; max_dd := max_dd st |}.

Definition loop_init : Loop :=
  {| per_pair := []; portfolio := new_portfolio; open_pos := [];
     equity_points := []; realized_equity := 0; peak_equity := 0;
     max_dd := 0 |}.

Definition trade_loop (marks : Py.dict Q) (trades : list Trade) : Loop :=
  fold_left (trade_step marks) trades loop_init.

(** One iteration of [for pair, pos in open_pos.items()]. *)
Definition unrealized_step
    (marks : Py.dict Q) (acc : Py.dict PairStats * Portfolio)
    (item : string * OpenPos) : Py.dict PairStats * Portfolio :=
  let '(pp, pf) := acc in
  let '(p, pos) := item in
  let mark := Py.get_default marks p 0 in
  if Py.gtb (vol pos) 0 && Py.gtb (entry_px pos) 0 && Py.gtb mark 0 then
    let u := (mark - entry_px pos) * vol pos in
    (modify pp p (mark_unrealized u (vol pos) (entry_px pos) mark),
     portfolio_add_unrealized u pf)
  else (pp, pf).

(** One iteration of [for pair, st in per_pair.items()]. *)
Definition rollup (s : PairStats) : PairStats :=
  let net := pp_realized_pnl_usd s + pp_unrealized_pnl_usd s in
  {| pp_realized_pnl_usd := _pair_round (pp_realized_pnl_usd s);
     pp_unrealized_pnl_usd := _pair_round (pp_unrealized_pnl_usd s);
     pp_net_pnl_usd := _pair_round net;
     pp_wins := pp_wins s;
     pp_losses := pp_losses s;
     pp_trades_closed := pp_trades_closed s;
     pp_win_rate := _pair_round (rate (pp_wins s) (pp_trades_closed s));
     pp_open_position := pp_open_position s;
     pp_open_volume := _pair_round (pp_open_volume s);
     pp_entry_price := _pair_round (pp_entry_price s);
     pp_mark_price := _pair_round (pp_mark_price s);
     pp_last_event_ts := pp_last_event_ts s |}.

Definition portfolio_rollup (dd : Q) (p : Portfolio) : Portfolio :=
  let net := realized_pnl_usd p + unrealized_pnl_usd p in
  {| realized_pnl_usd := _pair_round (realized_pnl_usd p);
     unrealized_pnl_usd := _pair_round (unrealized_pnl_usd p);
     net_pnl_usd := _pair_round net;
     wins := wins p;
     losses := losses p;
     trades_closed := trades_closed p;
     win_rate := _pair_round (rate (wins p) (trades_closed p));
     max_drawdown_usd := _pair_round dd |}.

(** [xs[-n:]]. *)
Definition last_n {A} (n : nat) (xs : list A) : list A :=
  skipn (List.length xs - n) xs.

Definition compute_pnl
    (w : World) (trades : list Trade) (marks : Py.dict Q) : Doc :=
  let st := trade_loop marks trades in
  let '(pp, pf) :=
    fold_left (unrealized_step marks) (open_pos st)
      (per_pair st, portfolio st) in
  {| doc_ts := clock_now w;
     doc_portfolio := portfolio_rollup (max_dd st) pf;
     doc_pairs := map (fun kv => (fst kv, rollup (snd kv))) pp;
     doc_equity_curve_realized := last_n 200 (equity_points st) |}.

(** ** Observations on a run of the trade loop *)

(** The realized PnL of the close that [t] performs in state [st], when
    it performs one. *)
Definition close_pnl (st : Loop) (t : Trade) : option Q :=
  if String.eqb (side t) "sell" then
    match open_lot (open_pos st) (pair t) with
    | Some pos =>
        Some ((price t - entry_px pos) * close_volume (vol pos) (volume t))
    | None => None
    end
  else None.

(** The realized PnL of every close of a history, in order. *)
Fixpoint close_pnls (marks : Py.dict Q) (st : Loop) (trades : list Trade)
    : list Q :=
  match trades with
  | [] => []
  | t :: r =>
      match close_pnl st t with
      | Some pnl => pnl :: close_pnls marks (trade_step marks st t) r
      | None => close_pnls marks (trade_step marks st t) r
      end
  end.

End PnlAnalytics.


(* ================================================================= *)
(** * [app/util/ledger.py] and [write_bot_status] of [app/main.py] *)

Module Ledger.

(** An entry of [state["positions"]]. *)
Record Position : Type := {
  base_volume : Q;
  entry_price : Q
}.

(** The ledger document; [None] is an absent key. *)
Record State : Type := {
  positions : option (Py.dict Position);
  cooldowns : option (Py.dict Z);
  updated_at : option Z
}.

(** A JSON document on disk: the ledger, or a status snapshot. *)
Inductive Json : Type :=
| JLedger (s : State)
| JStatus (s : Py.dict string).

(** What a file holds: nothing yet (just created or truncated by
    [open(path, "w")]), or a complete document. *)
Inductive Content : Type :=
| Truncated
| Whole (d : Json).

(** The files; [None] is a missing path. *)
Definition Files : Type := string -> option Content.

(** The file-system calls a writer makes, in order. *)
Inductive FsOp : Type :=
| OpenW (p : string)
| Dump (p : string) (d : Json)
| Replace (src dst : string).

Definition put (fs : Files) (p : string) (c : option Content) : Files :=
  fun x => if String.eqb x p then c else fs x.

Definition apply_op (fs : Files) (op : FsOp) : Files :=
  match op with
  | OpenW p => put fs p (Some Truncated)
  | Dump p d => put fs p (Some (Whole d))
  | Replace src dst => put (put fs dst (fs src)) src None
  end.

(** Every state of the files that another process can observe while the
    calls [ops] are made: before the first, between two, after the last. *)
Fixpoint observable (fs : Files) (ops : list FsOp) : list Files :=
  match ops with
  | [] => [fs]
  | op :: r => fs :: observable (apply_op fs op) r
  end.

Definition STATE_PATH : string := "/data/state.json".
Definition BOT_STATUS_PATH : string := "/data/bot_status.json".

Definition empty_state : State :=
  {| positions := None; cooldowns := None; updated_at := None |}.

(** [_load_state]: [json.load] fails on a file that is not a complete
    ledger document. *)
Definition _load_state (fs : Files) : Py.result State :=
  match fs STATE_PATH with
  | None => Py.Ok empty_state
  | Some (Whole (JLedger s)) => Py.Ok s
  | Some _ => Py.Raise "JSONDecodeError"
  end.

(** [_save_state]: the canonical path is opened for writing, which
    truncates it, and the document is then dumped into it. *)
Definition _save_state (w : World) (s : State) : list FsOp :=
  let s := {| positions := positions s; cooldowns := cooldowns s;
              updated_at := Some (clock_now w) |} in
  [OpenW STATE_PATH; Dump STATE_PATH (JLedger s)].

Definition get_position (fs : Files) (p : string)
    : Py.result (bool * Q * Q) :=
  s <- _load_state fs ;;
  match Py.get (RiskEngine.or_default (positions s) []) p with
  | Some pos =>
      Py.Ok (negb (Qeq_bool (base_volume pos) 0)
               && Py.gtb (base_volume pos) 0,
             base_volume pos, entry_price pos)
  | None => Py.Ok (false, 0, 0)
  end.

Definition set_position (w : World) (fs : Files) (p : string) (v px : Q)
    : Py.result (list FsOp) :=
  s <- _load_state fs ;;
  let ps := RiskEngine.or_default (positions s) [] in
  let ps := Py.set ps p {| base_volume := v; entry_price := px |} in
  Py.Ok (_save_state w
           {| positions := Some ps; cooldowns := cooldowns s;
              updated_at := updated_at s |}).

Definition clear_position (w : World) (fs : Files) (p : string)
    : Py.result (list FsOp) :=
  s <- _load_state fs ;;
  let ps := RiskEngine.or_default (positions s) [] in
  let ps := Py.pop ps p in
  Py.Ok (_save_state w
           {| positions := Some ps; cooldowns := cooldowns s;
              updated_at := updated_at s |}).

Definition get_cooldown_until (fs : Files) (p : string) : Py.result Z :=
  s <- _load_state fs ;;
  Py.Ok (Py.get_default (RiskEngine.or_default (cooldowns s) []) p 0%Z).

Definition set_cooldown (w : World) (fs : Files) (p : string) (secs : Z)
    : Py.result (list FsOp * Z) :=
  s <- _load_state fs ;;
  let cds := RiskEngine.or_default (cooldowns s) [] in
  let until := (clock_now w + secs)%Z in
  let cds := Py.set cds p until in
  Py.Ok (_save_state w
           {| positions := positions s; cooldowns := Some cds;
              updated_at := updated_at s |},
         until).

(** [write_bot_status] of [app/main.py]: dump to [path + ".tmp"], then
    [os.replace] over the canonical path. *)
Definition write_bot_status (status : Py.dict string) : list FsOp :=
  let tmp := (BOT_STATUS_PATH ++ ".tmp")%string in
  [OpenW tmp; Dump tmp (JStatus status); Replace tmp BOT_STATUS_PATH].

(** What a reader of [p] sees is one of two complete versions. *)
Definition old_or_new (before after : option Content) (seen : option Content)
    : Prop :=
  seen = before \/ seen = after.

End Ledger.


(* ================================================================= *)
(** * The live-trading guard of [app/main.py] *)

Module Main.

(** [str.isspace] on ASCII text. *)
Definition is_space (c : ascii) : bool :=
  let n := nat_of_ascii c in
  ((9 <=? n) && (n <=? 13) || (28 <=? n) && (n <=? 32))%nat.

Fixpoint lstrip (s : string) : string :=
  match s with
  | EmptyString => EmptyString
  | String c r => if is_space c then lstrip r else s
  end.

Fixpoint rstrip (s : string) : string :=
  match s with
  | EmptyString => EmptyString
  | String c r =>
      match rstrip r with
      | EmptyString => if is_space c then EmptyString else String c EmptyString
      | r' => String c r'
      end
  end.

(** [s.strip()] on ASCII text. *)
Definition strip (s : string) : string := rstrip (lstrip s).

Definition lower_char (c : ascii) : ascii :=
  let n := nat_of_ascii c in
  if ((65 <=? n) && (n <=? 90))%nat then ascii_of_nat (n + 32) else c.

(** [s.lower()] on ASCII text. *)
Fixpoint lower (s : string) : string :=
  match s with
  | EmptyString => EmptyString
  | String c r => String (lower_char c) (lower r)
  end.

(** The settings the module reads from the environment when it is
    imported; [None] is an unset variable. *)
Record Env : Type := {
  env_PAUSE_FILE : option string;
  env_KILL_FILE : option string;
  env_LIVE_LATCH_FILE : option string;
  env_REQUIRE_LIVE_LATCH : option string
}.

Definition PAUSE_FILE (env : Env) : string :=
  RiskEngine.or_default (env_PAUSE_FILE env) "/run/trading/PAUSE".

Definition KILL_FILE (env : Env) : string :=
  RiskEngine.or_default (env_KILL_FILE env) "/run/trading/KILL_SWITCH".

Definition LIVE_LATCH_FILE (env : Env) : string :=
  RiskEngine.or_default (env_LIVE_LATCH_FILE env) "/run/trading/LIVE_LATCH".

(** [os.environ.get("REQUIRE_LIVE_LATCH", "1").strip().lower()
    not in ("0", "false", "")]. *)
Definition REQUIRE_LIVE_LATCH (env : Env) : bool :=
  let v := lower (strip (RiskEngine.or_default (env_REQUIRE_LIVE_LATCH env) "1")) in
  negb (String.eqb v "0" || String.eqb v "false" || String.eqb v "").

Definition is_paused (env : Env) (w : World) : bool :=
  path_exists w (PAUSE_FILE env).

Definition is_killed (env : Env) (w : World) : bool :=
  path_exists w (KILL_FILE env).

Definition live_latch_present (env : Env) (w : World) : bool :=
  path_exists w (LIVE_LATCH_FILE env).

Definition get_trading_mode (kcfg : KrakenOrders.Cfg) : string :=
  lower (strip (KrakenOrders.trading_mode kcfg)).

Definition allow_live (env : Env) (w : World) (kcfg : KrakenOrders.Cfg)
    : bool :=
  if negb (String.eqb (get_trading_mode kcfg) "live") then false
  else if is_killed env w then false
  else if REQUIRE_LIVE_LATCH env && negb (live_latch_present env w) then false
  else true.

(** [tmp["trading"]["mode"] = "dry_run"] on a deep copy. *)
Definition force_dry_run (kcfg : KrakenOrders.Cfg) : KrakenOrders.Cfg :=
  {| KrakenOrders.trading_mode := "dry_run";
     KrakenOrders.trading_order_type := KrakenOrders.trading_order_type kcfg;
     KrakenOrders.trading_quote_notional_usd :=
       KrakenOrders.trading_quote_notional_usd kcfg;
     KrakenOrders.safety_max_spread_pct :=
       KrakenOrders.safety_max_spread_pct kcfg;
     KrakenOrders.safety_max_slippage_pct :=
       KrakenOrders.safety_max_slippage_pct kcfg;
     KrakenOrders.safety_limit_offset_pct :=
       KrakenOrders.safety_limit_offset_pct kcfg |}.

Definition safe_kcfg_for_orders
    (env : Env) (w : World) (kcfg : KrakenOrders.Cfg) : KrakenOrders.Cfg :=
  let mode := get_trading_mode kcfg in
  if negb (String.eqb mode "live") then kcfg
  else if allow_live env w kcfg then kcfg
  else force_dry_run kcfg.

End Main.


(* ================================================================= *)
(** * [app/strategy/ma_crossover.py] *)

Module MaCrossover.

(** [vals[-n:]] for an [int] [n]: the last [n] items when [n] is positive
    (all of them when there are fewer), and [vals[k:]] with [k = -n]
    otherwise, which is the whole list for [n = 0]. *)
Definition slice_last (vals : list Q) (n : Z) : list Q :=
  if (0 <? n)%Z then skipn (List.length vals - Z.to_nat n) vals
  else skipn (Z.to_nat (- n)) vals.

(** [sum(vals)]: the items are added one after the other, each
    addition rounding. *)
Definition sum (vals : list Q) : Q := fold_left Py.fadd vals 0.

Definition sma (vals : list Q) (n : Z) : Py.result Q :=
  if (Z.of_nat (List.length vals) <? n)%Z then Py.Raise "ValueError"
  else Py.truediv (sum (slice_last vals n)) (Py.round64 (inject_Z n)).

(** The returned mapping. *)
Record Signal : Type := {
  action : string;
  reason : string
}.

Definition decide
    (prices : list Q) (sma_short sma_long : Z) (has_position : bool)
    : Py.result Signal :=
  if (Z.of_nat (List.length prices) <? Z.max sma_short sma_long)%Z then
    Py.Ok {| action := "hold"; reason := "not enough candles" |}
  else
    s <- sma prices sma_short ;;
    l <- sma prices sma_long ;;
    if Py.gtb s l && negb has_position then
      Py.Ok {| action := "buy";
               reason := ("sma_short " ++ Py.format_f 2 s
                          ++ " > sma_long " ++ Py.format_f 2 l)%string |}
    else if Py.ltb s l && has_position then
      Py.Ok {| action := "sell";
               reason := ("sma_short " ++ Py.format_f 2 s
                          ++ " < sma_long " ++ Py.format_f 2 l)%string |}
    else
      Py.Ok {| action := "hold";
               reason := ("no cross condition (s=" ++ Py.format_f 2 s
                          ++ ", l=" ++ Py.format_f 2 l ++ ")")%string |}.

End MaCrossover.


(* ================================================================= *)
(** * The strategy loop of [app/main.py] *)

Module MainLoop.

(** The price cell of a logged trade: [str(px)] for
    [px = m.get("last") or od.price or ""], which is the last price (a
    float) unless that is zero, and else the limit price text or the empty
    string. *)
Inductive PriceCell : Type :=
| FloatCell (q : Q)
| TextCell (s : string).

(** A row that [append_trade] writes to the trades file. *)
Record LoggedTrade : Type := {
  lt_ts : Z;
  lt_pair : string;
  lt_side : string;
  lt_volume : string;
  lt_price : PriceCell;
  lt_notional_usd : string;
  lt_mode : string
}.

(** What the loop reads from [kraken.yaml] before it starts. *)
Record Settings : Type := {
  sma_s : Z;
  sma_l : Z;
  min_c : Z;
  simulate : bool;
  cd_seconds : Z;
  configured_notional : Q
}.

(** What the loop changes: the ledger file, the risk engine, and the
    rows of the trades file below its header. *)
Record Bot : Type := {
  ledger : Ledger.Files;
  risk : RiskEngine.t;
  trades_csv : list LoggedTrade
}.

(** The world at each point where one pass of the loop body consults the
    clock or the file system. *)
Record Moments : Type := {
  at_start : World;
  at_kill : World;
  at_pause : World;
  at_guard : World;
  at_gate : World;
  at_fill : World;
  at_cooldown : World;
  at_log : World;
  at_ledger : World
}.

(** Where a pass leaves the loop body by [continue]; [NoBranch] is a
    pass that reaches the end of the body with an action that is neither
    "buy" nor "sell". *)
Inductive Skip : Type :=
| CooldownActive
| NeedCandles
| Hold
| Killed
| Paused
| NoBranch.

Inductive Outcome : Type :=
| Skipped (why : Skip)
| Decided (od : KrakenOrders.OrderDecision) (m : KrakenOrders.Metrics).

(** [log_trade_csv], with [append_trade] of [app/util/trade_log.py]. *)
Definition log_trade_csv
    (w : World) (rows : list LoggedTrade) (pair_key sd : string)
    (od : KrakenOrders.OrderDecision) (m : KrakenOrders.Metrics)
    (notional : Q) : list LoggedTrade :=
  let px :=
    if negb (Qeq_bool (KrakenOrders.m_last m) 0)
    then FloatCell (KrakenOrders.m_last m)
    else TextCell (RiskEngine.or_default (KrakenOrders.price od) "") in
  (rows ++ [{| lt_ts := clock_now w;
               lt_pair := pair_key;
               lt_side := sd;
               lt_volume := KrakenOrders.volume od;
               lt_price := px;
               lt_notional_usd := Py.format_f 4 notional;
               lt_mode := KrakenOrders.mode od |}])%list.

Definition with_ledger (bot : Bot) (fs : Ledger.Files) : Bot :=
  {| ledger := fs; risk := risk bot; trades_csv := trades_csv bot |}.

(** [od.reason in ("dry-run", "LIVE order placed")]. *)
Definition executed (od : KrakenOrders.OrderDecision) : bool :=
  String.eqb (KrakenOrders.reason od) "dry-run"
  || String.eqb (KrakenOrders.reason od) "LIVE order placed".

(** [(od.mode != "live") and simulate and (od.reason == "dry-run")]. *)
Definition simulated (stg : Settings) (od : KrakenOrders.OrderDecision)
    : bool :=
  negb (String.eqb (KrakenOrders.mode od) "live")
  && simulate stg
  && String.eqb (KrakenOrders.reason od) "dry-run".

(** What follows [place_or_preview] in the [buy] and in the [sell]
    branch: cooldown and trade log for an executed order, the ledger for
    a simulated fill. *)
Definition book
    (mo : Moments) (stg : Settings) (bot : Bot) (pair_key sd : string)
    (od : KrakenOrders.OrderDecision) (m : KrakenOrders.Metrics)
    : Py.result Outcome * Bot :=
  let cooled :=
    if executed od then
      match Ledger.set_cooldown (at_cooldown mo) (ledger bot) pair_key
              (cd_seconds stg) with
      | Py.Raise e => Py.Raise e
      | Py.Ok (ops, _) =>
          Py.Ok {| ledger := fold_left Ledger.apply_op ops (ledger bot);
                   risk := risk bot;
                   trades_csv :=
                     log_trade_csv (at_log mo) (trades_csv bot) pair_key sd
                       od m (configured_notional stg) |}
      end
    else Py.Ok bot in
  match cooled with
  | Py.Raise e => (Py.Raise e, bot)
  | Py.Ok bot1 =>
      if simulated stg od then
        if String.eqb sd "buy" then
          if Py.gtb (KrakenOrders.m_last m) 0 then
            match Py.float_of_str (KrakenOrders.volume od) with
            | None => (Py.Raise "ValueError", bot1)
            | Some v =>
                match Ledger.set_position (at_ledger mo) (ledger bot1)
                        pair_key v (KrakenOrders.m_last m) with
                | Py.Raise e => (Py.Raise e, bot1)
                | Py.Ok ops =>
                    (Py.Ok (Decided od m),
                     with_ledger bot1
                       (fold_left Ledger.apply_op ops (ledger bot1)))
                end
            end
          else (Py.Ok (Decided od m), bot1)
        else
          match Ledger.clear_position (at_ledger mo) (ledger bot1)
                  pair_key with
          | Py.Raise e => (Py.Raise e, bot1)
          | Py.Ok ops =>
              (Py.Ok (Decided od m),
               with_ledger bot1
                 (fold_left Ledger.apply_op ops (ledger bot1)))
          end
      else (Py.Ok (Decided od m), bot1)
  end.

(** [place_or_preview] for one side, then [book]. *)
Definition order
    (env : Main.Env) (mo : Moments) (k : KrakenOrders.KrakenClient)
    (kcfg : KrakenOrders.Cfg) (stg : Settings) (bot : Bot)
    (pair_key sd : string) (base_volume_override : option Q)
    : Py.result Outcome * Bot :=
  let kcfg_orders := Main.safe_kcfg_for_orders env (at_guard mo) kcfg in
  match KrakenOrders.place_or_preview (at_gate mo) (at_fill mo) k
          kcfg_orders (risk bot) pair_key sd base_volume_override with
  | (Py.Raise e, r) =>
      (Py.Raise e,
       {| ledger := ledger bot; risk := r; trades_csv := trades_csv bot |})
  | (Py.Ok (od, m), r) =>
      book mo stg
        {| ledger := ledger bot; risk := r; trades_csv := trades_csv bot |}
        pair_key sd od m
  end.

(** One pass of [for pair_key in pair_keys].  [closes] is
    [fetch_ohlc_closes(k, pair_key, tf)]. *)
Definition strategy_step
    (env : Main.Env) (mo : Moments) (k : KrakenOrders.KrakenClient)
    (closes : string -> Py.result (list Q))
    (kcfg : KrakenOrders.Cfg) (stg : Settings) (bot : Bot)
    (pair_key : string) : Py.result Outcome * Bot :=
  let now := clock_now (at_start mo) in
  match Ledger.get_cooldown_until (ledger bot) pair_key with
  | Py.Raise e => (Py.Raise e, bot)
  | Py.Ok cooldown_until =>
      if (now <? cooldown_until)%Z then (Py.Ok (Skipped CooldownActive), bot)
      else
        match Ledger.get_position (ledger bot) pair_key with
        | Py.Raise e => (Py.Raise e, bot)
        | Py.Ok (has_position, base_volume, _) =>
            match closes pair_key with
            | Py.Raise e => (Py.Raise e, bot)
            | Py.Ok cl =>
                if (Z.of_nat (List.length cl) <? min_c stg)%Z
                then (Py.Ok (Skipped NeedCandles), bot)
                else
                  match MaCrossover.decide cl (sma_s stg) (sma_l stg)
                          has_position with
                  | Py.Raise e => (Py.Raise e, bot)
                  | Py.Ok sig =>
                      let action := MaCrossover.action sig in
                      if String.eqb action "hold"
                      then (Py.Ok (Skipped Hold), bot)
                      else if Main.is_killed env (at_kill mo)
                      then (Py.Ok (Skipped Killed), bot)
                      else if Main.is_paused env (at_pause mo)
                      then (Py.Ok (Skipped Paused), bot)
                      else if String.eqb action "buy"
                      then order env mo k kcfg stg bot pair_key "buy" None
                      else if String.eqb action "sell"
                      then order env mo k kcfg stg bot pair_key "sell"
                             (Some base_volume)
                      else (Py.Ok (Skipped NoBranch), bot)
                  end
            end
        end
  end.

End MainLoop.


(* ================================================================= *)
(** * Sample worlds and configurations *)

Module Samples.

(** New Year's Day 2024, no control file present, every path writable. *)
Definition quiet : World :=
  {| clock_day := "2024-01-01";
     clock_now := 1704067200%Z;
     path_exists := fun _ => false;
     path_writable := fun _ => true |}.

(** The same day with the kill-switch file in place. *)
Definition killed : World :=
  {| clock_day := "2024-01-01";
     clock_now := 1704067260%Z;
     path_exists := fun p => String.eqb p "/run/trading/KILL_SWITCH";
     path_writable := fun _ => true |}.

(** The day after. *)
Definition next_day : World :=
  {| clock_day := "2024-01-02";
     clock_now := 1704153600%Z;
     path_exists := fun _ => false;
     path_writable := fun _ => true |}.

(** A risk configuration that names nothing. *)
Definition no_cfg : RiskEngine.Cfg :=
  {| RiskEngine.cfg_pause_file := None;
     RiskEngine.cfg_kill_switch_file := None;
     RiskEngine.cfg_max_notional_usd_per_trade := None;
     RiskEngine.cfg_max_trades_per_day := None;
     RiskEngine.cfg_max_trades_per_day_per_pair := None;
     RiskEngine.cfg_max_daily_loss_usd := None;
     RiskEngine.cfg_max_drawdown_usd := None |}.

(** [max_daily_loss_usd = 100], the rest by default. *)
Definition loss100_cfg : RiskEngine.Cfg :=
  {| RiskEngine.cfg_pause_file := None;
     RiskEngine.cfg_kill_switch_file := None;
     RiskEngine.cfg_max_notional_usd_per_trade := None;
     RiskEngine.cfg_max_trades_per_day := None;
     RiskEngine.cfg_max_trades_per_day_per_pair := None;
     RiskEngine.cfg_max_daily_loss_usd := Some 100;
     RiskEngine.cfg_max_drawdown_usd := None |}.

Definition engine : RiskEngine.t := RiskEngine.__init__ quiet no_cfg.

Definition engine_loss100 : RiskEngine.t :=
  RiskEngine.__init__ quiet loss100_cfg.

(** Three trades recorded on the first day. *)
Definition three_trades : list (World * RiskEngine.call) :=
  [(quiet, RiskEngine.RecordTrade (Some "XBTUSD"));
   (quiet, RiskEngine.RecordTrade (Some "ETHUSD"));
   (quiet, RiskEngine.RecordTrade (Some "XBTUSD"))].

(** An exchange that quotes 49990 / 50010, last 50000, for every pair and
    accepts every order. *)
Definition pair_info : KrakenOrders.PairInfo :=
  {| KrakenOrders.lot_decimals := Some 8%nat;
     KrakenOrders.cost_decimals := Some 1%nat;
     KrakenOrders.ordermin := Some "0.0001" |}.

Definition quotes : KrakenOrders.Ticker :=
  {| KrakenOrders.tk_b := 49990;
     KrakenOrders.tk_a := 50010;
     KrakenOrders.tk_c := 50000 |}.

Definition exchange : KrakenOrders.KrakenClient :=
  {| KrakenOrders.asset_pairs := fun _ => Py.Ok pair_info;
     KrakenOrders.ticker := fun _ => Py.Ok quotes;
     KrakenOrders.add_order := fun _ => Py.Ok None |}.

(** An exchange whose book is empty: bid, ask and last are all zero. *)
Definition no_quotes : KrakenOrders.Ticker :=
  {| KrakenOrders.tk_b := 0;
     KrakenOrders.tk_a := 0;
     KrakenOrders.tk_c := 0 |}.

Definition empty_exchange : KrakenOrders.KrakenClient :=
  {| KrakenOrders.asset_pairs := fun _ => Py.Ok pair_info;
     KrakenOrders.ticker := fun _ => Py.Ok no_quotes;
     KrakenOrders.add_order := fun _ => Py.Ok None |}.

(** Twenty dollars per order with the default safety thresholds, in
    dry-run and in live mode. *)
Definition dry_run_cfg : KrakenOrders.Cfg :=
  {| KrakenOrders.trading_mode := "dry_run";
     KrakenOrders.trading_order_type := None;
     KrakenOrders.trading_quote_notional_usd := 20;
     KrakenOrders.safety_max_spread_pct :=
       KrakenOrders.default_max_spread_pct;
     KrakenOrders.safety_max_slippage_pct :=
       KrakenOrders.default_max_slippage_pct;
     KrakenOrders.safety_limit_offset_pct :=
       KrakenOrders.default_limit_offset_pct |}.

Definition live_cfg : KrakenOrders.Cfg :=
  {| KrakenOrders.trading_mode := "live";
     KrakenOrders.trading_order_type := None;
     KrakenOrders.trading_quote_notional_usd := 20;
     KrakenOrders.safety_max_spread_pct :=
       KrakenOrders.default_max_spread_pct;
     KrakenOrders.safety_max_slippage_pct :=
       KrakenOrders.default_max_slippage_pct;
     KrakenOrders.safety_limit_offset_pct :=
       KrakenOrders.default_limit_offset_pct |}.

(** The first day with the live latch in place. *)
Definition latched : World :=
  {| clock_day := "2024-01-01";
     clock_now := 1704067320%Z;
     path_exists :=
       fun p => String.eqb p "/run/trading/ENABLE_LIVE_TRADING";
     path_writable := fun _ => true |}.

(** A round trip on one pair: buy 0.001 at 50000, sell it at 51000. *)
Definition buy1 : PnlAnalytics.Trade :=
  {| PnlAnalytics.ts := 1%Z;
     PnlAnalytics.pair := "XBTUSD";
     PnlAnalytics.side := "buy";
     PnlAnalytics.volume := 0.001;
     PnlAnalytics.price := 50000;
     PnlAnalytics.notional_usd := 50;
     PnlAnalytics.mode := "dry_run" |}.

Definition sell1 : PnlAnalytics.Trade :=
  {| PnlAnalytics.ts := 2%Z;
     PnlAnalytics.pair := "XBTUSD";
     PnlAnalytics.side := "sell";
     PnlAnalytics.volume := 0.001;
     PnlAnalytics.price := 51000;
     PnlAnalytics.notional_usd := 51;
     PnlAnalytics.mode := "dry_run" |}.




(** A minute after [quiet]. *)
Definition later : World :=
  {| clock_day := "2024-01-01";
     clock_now := 1704067260%Z;
     path_exists := fun _ => false;
     path_writable := fun _ => true |}.

(** A ledger on disk holding one open position. *)
Definition ledger_doc : Ledger.State :=
  {| Ledger.positions :=
       Some [("ETHUSD",
              {| Ledger.base_volume := 1; Ledger.entry_price := 2000 |})];
     Ledger.cooldowns := Some [("ETHUSD", 1704070000%Z)];
     Ledger.updated_at := Some 1704060000%Z |}.

Definition disk : Ledger.Files :=
  fun p =>
    if String.eqb p Ledger.STATE_PATH
    then Some (Ledger.Whole (Ledger.JLedger ledger_doc))
    else None.

(** Ten trades a day, two per pair. *)
Definition pair_cap_cfg : RiskEngine.Cfg :=
  {| RiskEngine.cfg_pause_file := None;
     RiskEngine.cfg_kill_switch_file := None;
     RiskEngine.cfg_max_notional_usd_per_trade := None;
     RiskEngine.cfg_max_trades_per_day := Some 10%Z;
     RiskEngine.cfg_max_trades_per_day_per_pair := Some 2%Z;
     RiskEngine.cfg_max_daily_loss_usd := None;
     RiskEngine.cfg_max_drawdown_usd := None |}.

(** An exchange whose ticker endpoint is down. *)
Definition down_exchange : KrakenOrders.KrakenClient :=
  {| KrakenOrders.asset_pairs := fun _ => Py.Ok pair_info;
     KrakenOrders.ticker :=
       fun _ => Py.Raise "Ticker error: EService:Unavailable";
     KrakenOrders.add_order := fun _ => Py.Ok None |}.


(** A second buy of the same pair, at another price. *)
Definition buy2 : PnlAnalytics.Trade :=
  {| PnlAnalytics.ts := 5%Z;
     PnlAnalytics.pair := "XBTUSD";
     PnlAnalytics.side := "buy";
     PnlAnalytics.volume := 0.002;
     PnlAnalytics.price := 60000;
     PnlAnalytics.notional_usd := 120;
     PnlAnalytics.mode := "dry_run" |}.


(** No variable of the bot's environment is set. *)
Definition plain_env : Main.Env :=
  {| Main.env_PAUSE_FILE := None;
     Main.env_KILL_FILE := None;
     Main.env_LIVE_LATCH_FILE := None;
     Main.env_REQUIRE_LIVE_LATCH := None |}.

(** The latch file of [app/main.py] is in place, the one of
    [kraken_orders.py] is not. *)
Definition main_latched : World :=
  {| clock_day := "2024-01-01";
     clock_now := 1704067320%Z;
     path_exists := fun p => String.eqb p "/run/trading/LIVE_LATCH";
     path_writable := fun _ => true |}.


(** Every consultation of the clock and the file system of one pass sees
    the same quiet world. *)
Definition calm : MainLoop.Moments :=
  {| MainLoop.at_start := later;
     MainLoop.at_kill := later;
     MainLoop.at_pause := later;
     MainLoop.at_guard := later;
     MainLoop.at_gate := later;
     MainLoop.at_fill := later;
     MainLoop.at_cooldown := later;
     MainLoop.at_log := later;
     MainLoop.at_ledger := later |}.

(** Windows of two and four candles, simulated fills, four hours of
    cooldown. *)
Definition settings : MainLoop.Settings :=
  {| MainLoop.sma_s := 2%Z;
     MainLoop.sma_l := 4%Z;
     MainLoop.min_c := 4%Z;
     MainLoop.simulate := true;
     MainLoop.cd_seconds := 14400%Z;
     MainLoop.configured_notional := 20 |}.

(** Closes that rise, so that the short average is above the long one. *)
Definition rising : string -> Py.result (list Q) :=
  fun _ => Py.Ok [49000; 49500; 50000; 50500].

(** A bot that has not traded yet: no ledger file, no logged trade. *)
Definition fresh_bot : MainLoop.Bot :=
  {| MainLoop.ledger := fun _ => None;
     MainLoop.risk := engine;
     MainLoop.trades_csv := [] |}.

End Samples.


(* ================================================================= *)
(** * Quantities the properties are stated with *)


(** The value [format] prints for [q] to [d] decimals. *)
Definition printed_value (d : nat) (q : Q) : Q :=
  let v := inject_Z (Py.scaled d q) / inject_Z (10 ^ Z.of_nat d) in
  if Py.ltb q 0 then - v else v.


(** The global counter as the next call on [day] will read it. *)
Definition effective_trades (day : string) (e : RiskEngine.t) : Z :=
  if String.eqb day (RiskEngine.day_key e) then RiskEngine.trades_today e
  else 0%Z.

Definition is_record_Z (wc : World * RiskEngine.call) : Z :=
  if RiskEngine.is_record wc then 1%Z else 0%Z.

(** The checks of the order evaluator, in the words of the design:
    [spread_pct = 100 (ask - bid) / mid], [slippage_pct = 100 |last - mid|
    / mid], both [999] when [mid <= 0]; block on either above its
    threshold; buy sizing needs [last > 0], sell sizing a positive
    position volume; the rounded volume must reach the minimum. *)
Module Checks.

Import KrakenOrders.

Inductive check : Type := Spread | Slippage | Sizing | MinSize.

(** Modelled from the spec: [mid = (bid+ask)/2]. *)
Definition mid_of (tk : Ticker) : Q :=
  Py.fdiv (Py.fadd (tk_b tk) (tk_a tk)) 2.

(** Modelled from the spec: [spread_pct = 100 (ask - bid) / mid], and the
    sentinel [999.0] when [mid <= 0]. *)
Definition spread_of (tk : Ticker) : Q :=
  if Py.leb (mid_of tk) 0 then 999
  else Py.fmul (Py.fdiv (Py.fsub (tk_a tk) (tk_b tk)) (mid_of tk)) 100.

(** Modelled from the spec: [slippage_pct = 100 |last - mid| / mid], with
    the same sentinel. *)
Definition slippage_of (tk : Ticker) : Q :=
  if Py.leb (mid_of tk) 0 then 999
  else Py.fmul (Py.fdiv (Qabs (Py.fsub (tk_c tk) (mid_of tk))) (mid_of tk))
         100.

(** Modelled from the spec: block if [spread_pct > max_spread_pct]. *)
Definition spread_fails (cfg : Cfg) (tk : Ticker) : bool :=
  Py.gtb (spread_of tk) (safety_max_spread_pct cfg).

(** Modelled from the spec: block if [slippage_pct > max_slippage_pct]. *)
Definition slippage_fails (cfg : Cfg) (tk : Ticker) : bool :=
  Py.gtb (slippage_of tk) (safety_max_slippage_pct cfg).

(** Modelled from the spec: a buy is blocked if [last <= 0]; a sell is
    blocked if the caller-supplied position volume is absent or [<= 0]. *)
Definition sizing_fails (sd : string) (tk : Ticker) (ov : option Q) : bool :=
  if String.eqb sd "buy" then Py.leb (tk_c tk) 0
  else
    match ov with
    | None => true
    | Some v => Py.leb v 0
    end.

(** Modelled from the spec: the volume, [notional_usd / last] for a buy
    and the caller-supplied position volume for a sell. *)
Definition volume_of
    (cfg : Cfg) (sd : string) (tk : Ticker) (ov : option Q) : Q :=
  if String.eqb sd "buy"
  then Py.fdiv (trading_quote_notional_usd cfg) (tk_c tk)
  else
    match ov with
    | Some v => v
    | None => 0
    end.

(** Modelled from the spec: the volume rounded to the instrument's
    lot-decimal precision (eight decimals when the instrument names
    none), as text. *)
Definition sized_volume
    (cfg : Cfg) (sd : string) (pi : PairInfo) (tk : Ticker) (ov : option Q)
    : string :=
  let lot :=
    match lot_decimals pi with
    | Some d => d
    | None => 8%nat
    end in
  Py.format_f lot (volume_of cfg sd tk ov).

(** Modelled from the spec: block if the rounded volume is below the
    instrument minimum, both read as numbers; an instrument without a
    minimum, or with one that is not a number, blocks nothing. *)
Definition min_size_fails
    (cfg : Cfg) (sd : string) (pi : PairInfo) (tk : Ticker) (ov : option Q)
    : bool :=
  match ordermin pi with
  | None => false
  | Some minimum =>
      match Py.float_parse minimum,
            Py.float_parse (sized_volume cfg sd pi tk ov) with
      | Some m, Some v => Py.parsed_ltb v m
      | _, _ => false
      end
  end.

(** Modelled from the spec: the first check that fails, spread before
    slippage before sizing before minimum size. *)
Definition first_failing
    (cfg : Cfg) (sd : string) (pi : PairInfo) (tk : Ticker) (ov : option Q)
    : option check :=
  if spread_fails cfg tk then Some Spread
  else if slippage_fails cfg tk then Some Slippage
  else if sizing_fails sd tk ov then Some Sizing
  else if min_size_fails cfg sd pi tk ov then Some MinSize
  else None.

(** Modelled from the spec: the market figures reported with a
    decision. *)
Definition metrics_of (tk : Ticker) : Metrics :=
  {| m_bid := tk_b tk; m_ask := tk_a tk; m_last := tk_c tk;
     m_mid := mid_of tk; m_spread_pct := spread_of tk;
     m_slippage_pct := slippage_of tk |}.

(** Modelled from the spec: the notional of a sized order, the desired
    notional for a buy and volume times last price for a sell. *)
Definition sized_notional
    (cfg : Cfg) (sd : string) (tk : Ticker) (ov : option Q) : Q :=
  if String.eqb sd "buy" then trading_quote_notional_usd cfg
  else Py.fmul (volume_of cfg sd tk ov) (tk_c tk).

(** Modelled from the spec: the limit price, [ask (1 + offset/100)] for a
    buy and [bid (1 - offset/100)] for a sell, rounded to cost decimals
    (two when the instrument names none); a market order carries none. *)
Definition limit_price
    (cfg : Cfg) (sd : string) (pi : PairInfo) (tk : Ticker) : option string :=
  let cost :=
    match cost_decimals pi with
    | Some d => d
    | None => 2%nat
    end in
  let off := Py.fdiv (safety_limit_offset_pct cfg) 100 in
  let order_type :=
    match trading_order_type cfg with
    | Some t => t
    | None => "limit"
    end in
  if String.eqb order_type "limit"
  then Some (Py.format_f cost
               (if String.eqb sd "buy"
                then Py.fmul (tk_a tk) (Py.fadd 1 off)
                else Py.fmul (tk_b tk) (Py.fsub 1 off)))
  else None.

(** Modelled from the spec: the decision.  Its reason is "ok" only if
    all checks pass, and otherwise names the first failing check; a block
    before sizing carries the volume "0", and every block carries no
    price. *)
Definition decision
    (cfg : Cfg) (pair_key sd : string) (pi : PairInfo) (tk : Ticker)
    (ov : option Q) : OrderDecision :=
  let order_type :=
    match trading_order_type cfg with
    | Some t => t
    | None => "limit"
    end in
  let block (vol : string) (notional : Q) (why : string) :=
    {| pair := pair_key; side := sd; ordertype := order_type;
       volume := vol; price := None; mode := trading_mode cfg;
       notional_usd := notional; reason := why |} in
  match first_failing cfg sd pi tk ov with
  | Some Spread =>
      block "0" (trading_quote_notional_usd cfg)
        ("blocked: spread " ++ Py.format_f 6 (spread_of tk) ++ "% > max "
         ++ Py.format_f 6 (safety_max_spread_pct cfg) ++ "%")%string
  | Some Slippage =>
      block "0" (trading_quote_notional_usd cfg)
        ("blocked: slippage " ++ Py.format_f 6 (slippage_of tk) ++ "% > max "
         ++ Py.format_f 6 (safety_max_slippage_pct cfg) ++ "%")%string
  | Some Sizing =>
      if String.eqb sd "buy"
      then block "0" (trading_quote_notional_usd cfg) "blocked: invalid last"
      else block "0" 0 "blocked: no position volume"
  | Some MinSize =>
      block (sized_volume cfg sd pi tk ov) (sized_notional cfg sd tk ov)
        ("blocked: below ordermin ("
         ++ match ordermin pi with
            | Some minimum => minimum
            | None => ""
            end
         ++ ")")%string
  | None =>
      {| pair := pair_key; side := sd; ordertype := order_type;
         volume := sized_volume cfg sd pi tk ov;
         price := limit_price cfg sd pi tk; mode := trading_mode cfg;
         notional_usd := sized_notional cfg sd tk ov; reason := "ok" |}
  end.

(** A reason names a check. *)
Definition names (c : check) (why : string) : bool :=
  match c with
  | Spread => prefix "blocked: spread " why
  | Slippage => prefix "blocked: slippage " why
  | Sizing =>
      String.eqb why "blocked: invalid last"
      || String.eqb why "blocked: no position volume"
  | MinSize => prefix "blocked: below ordermin (" why
  end.

End Checks.


(** The counter of pair [k] as the next call on [day] will read it. *)
Definition effective_pair_trades
    (day : string) (e : RiskEngine.t) (k : string) : Z :=
  if String.eqb day (RiskEngine.day_key e)
  then Py.get_default (RiskEngine.trades_today_by_pair e) k 0%Z
  else 0%Z.

(** Whether a call is [record_trade] for pair [k]. *)
Definition records_pair (k : string) (wc : World * RiskEngine.call) : bool :=
  match snd wc with
  | RiskEngine.RecordTrade p =>
      match Py.truthy_str p with
      | Some q => String.eqb q k
      | None => false
      end
  | _ => false
  end.

(** Number of [record_trade] calls for pair [k] in a history. *)
Definition recorded_for (k : string) (h : list (World * RiskEngine.call)) : Z :=
  Z.of_nat (List.length (filter (records_pair k) h)).


(** The client [k] with another [AddOrder] endpoint. *)
Definition with_add_order
    (k : KrakenOrders.KrakenClient)
    (f : KrakenOrders.Payload -> Py.result (option string))
    : KrakenOrders.KrakenClient :=
  {| KrakenOrders.asset_pairs := KrakenOrders.asset_pairs k;
     KrakenOrders.ticker := KrakenOrders.ticker k;
     KrakenOrders.add_order := f |}.

(** The order [place_or_preview] sends for a decision. *)
Definition payload_of (od : KrakenOrders.OrderDecision) : KrakenOrders.Payload :=
  {| KrakenOrders.pl_pair := KrakenOrders.pair od;
     KrakenOrders.pl_type := KrakenOrders.side od;
     KrakenOrders.pl_ordertype := KrakenOrders.ordertype od;
     KrakenOrders.pl_volume := KrakenOrders.volume od;
     KrakenOrders.pl_price :=
       if String.eqb (KrakenOrders.ordertype od) "limit"
       then KrakenOrders.price od else None |}.



(** The part of the loop state that decides what a trade realizes: all of
    it but the per-pair report. *)
Definition core (st : PnlAnalytics.Loop)
    : PnlAnalytics.Portfolio * Py.dict PnlAnalytics.OpenPos
      * list (Z * Q) * Q * Q * Q :=
  (PnlAnalytics.portfolio st, PnlAnalytics.open_pos st,
   PnlAnalytics.equity_points st, PnlAnalytics.realized_equity st,
   PnlAnalytics.peak_equity st, PnlAnalytics.max_dd st).


(** Sum of a list of amounts. *)
Definition Qsum (l : list Q) : Q := fold_right Qplus 0 l.



(** How many of a list of realized amounts the loop books as wins
    ([pnl >= 0]) and as losses. *)
Definition count_wins (l : list Q) : Z :=
  Z.of_nat (List.length (filter (fun pnl => Py.geb pnl 0) l)).

Definition count_losses (l : list Q) : Z :=
  Z.of_nat (List.length (filter (fun pnl => negb (Py.geb pnl 0)) l)).



(** The per-pair report and the portfolio of [compute_pnl] after the
    unrealized loop, before the final rollups round them. *)
Definition before_rounding (marks : Py.dict Q)
    (trades : list PnlAnalytics.Trade)
    : Py.dict PnlAnalytics.PairStats * PnlAnalytics.Portfolio :=
  let st := PnlAnalytics.trade_loop marks trades in
  fold_left (PnlAnalytics.unrealized_step marks) (PnlAnalytics.open_pos st)
    (PnlAnalytics.per_pair st, PnlAnalytics.portfolio st).


(** A lot is open for the pair: [pair in open_pos] with a positive
    volume. *)
Definition holds_lot (st : PnlAnalytics.Loop) (p : string) : Prop :=
  exists pos, Py.get (PnlAnalytics.open_pos st) p = Some pos
              /\ 0 < PnlAnalytics.vol pos.

(** The rows the single-lot model has no use for: a buy while a lot is
    open, a sell while none is, and a row whose side is neither. *)
Definition dropped (st : PnlAnalytics.Loop) (t : PnlAnalytics.Trade) : Prop :=
  (PnlAnalytics.side t = "buy" /\ holds_lot st (PnlAnalytics.pair t))
  \/ (PnlAnalytics.side t = "sell" /\ ~ holds_lot st (PnlAnalytics.pair t))
  \/ (PnlAnalytics.side t <> "buy" /\ PnlAnalytics.side t <> "sell").



(** The files after a writer's calls have all been made. *)
Definition run_ops (fs : Ledger.Files) (ops : list Ledger.FsOp)
    : Ledger.Files :=
  fold_left Ledger.apply_op ops fs.

(** A dictionary holds each key once. *)
Definition unique_keys {V} (d : Py.dict V) : Prop := NoDup (map fst d).



(** What [get_position] and [get_cooldown_until] answer on a ledger
    document. *)
Definition position_of (s : Ledger.State) (p : string) : bool * Q * Q :=
  match Py.get (RiskEngine.or_default (Ledger.positions s) []) p with
  | Some pos =>
      (negb (Qeq_bool (Ledger.base_volume pos) 0)
         && Py.gtb (Ledger.base_volume pos) 0,
       Ledger.base_volume pos, Ledger.entry_price pos)
  | None => (false, 0, 0)
  end.

Definition cooldown_of (s : Ledger.State) (p : string) : Z :=
  Py.get_default (RiskEngine.or_default (Ledger.cooldowns s) []) p 0%Z.

(** The ledger holds each pair once. *)
Definition ledger_well_formed (fs : Ledger.Files) : Prop :=
  forall s, Ledger._load_state fs = Py.Ok s ->
            unique_keys (RiskEngine.or_default (Ledger.positions s) []).



(** The ledger document that [book] leaves behind. *)
Definition booked
    (mo : MainLoop.Moments) (stg : MainLoop.Settings) (s : Ledger.State)
    (p sd : string) (od : KrakenOrders.OrderDecision)
    (m : KrakenOrders.Metrics) (s' : Ledger.State) : Prop :=
  Ledger.cooldowns s'
  = (if MainLoop.executed od
     then Some (Py.set (RiskEngine.or_default (Ledger.cooldowns s) []) p
                  (clock_now (MainLoop.at_cooldown mo)
                   + MainLoop.cd_seconds stg)%Z)
     else Ledger.cooldowns s)
  /\ ((MainLoop.simulated stg od = false
       \/ (sd = "buy" /\ Py.gtb (KrakenOrders.m_last m) 0 = false)) ->
      RiskEngine.or_default (Ledger.positions s') []
      = RiskEngine.or_default (Ledger.positions s) [])
  /\ (MainLoop.simulated stg od = true -> sd = "buy" ->
      Py.gtb (KrakenOrders.m_last m) 0 = true ->
      exists v,
        Py.float_of_str (KrakenOrders.volume od) = Some v
        /\ Ledger.positions s'
           = Some (Py.set (RiskEngine.or_default (Ledger.positions s) []) p
                     {| Ledger.base_volume := v;
                        Ledger.entry_price := KrakenOrders.m_last m |}))
  /\ (MainLoop.simulated stg od = true -> sd <> "buy" ->
      Ledger.positions s'
      = Some (Py.pop (RiskEngine.or_default (Ledger.positions s) []) p)).


(* ================================================================= *)
(** * Properties *)

(** Splits a goal made of conjunctions, equivalences and implications and
    closes the pieces from the hypotheses. *)
Ltac settle_block :=
  match goal with
  | |- _ /\ _ => split; settle_block
  | |- _ <-> _ => split; intro; settle_block
  | |- _ -> _ => intro; settle_block
  | H : ?a = ?b |- _ => first [discriminate H | fail 1]
  | H : _ /\ _ |- _ => destruct H; settle_block
  | H : ?x <> ?y -> _ |- _ =>
      let N := fresh in
      assert (N : x <> y) by discriminate; specialize (H N); settle_block
  | H : ?x = ?x -> _ |- _ => specialize (H eq_refl); settle_block
  | _ => first [assumption | reflexivity | congruence]
  end.

(** ** Comparisons, strings and dictionaries *)

Lemma gtb_true (a b : Q) : Py.gtb a b = true <-> b < a.
Proof.
  unfold Py.gtb. rewrite negb_true_iff.
  split; intro H.
  - apply Qnot_le_lt. intro L. apply Qle_bool_iff in L. congruence.
  - destruct (Qle_bool a b) eqn:E; [|reflexivity].
    apply Qle_bool_iff in E. exfalso. exact (Qlt_not_le _ _ H E).
Qed.

Lemma gtb_false (a b : Q) : Py.gtb a b = false <-> a <= b.
Proof.
  unfold Py.gtb. rewrite negb_false_iff. apply Qle_bool_iff.
Qed.

Lemma ltb_true (a b : Q) : Py.ltb a b = true <-> a < b.
Proof. apply (gtb_true b a). Qed.

Lemma leb_true (a b : Q) : Py.leb a b = true <-> a <= b.
Proof. apply Qle_bool_iff. Qed.

Lemma leb_false (a b : Q) : Py.leb a b = false <-> b < a.
Proof.
  unfold Py.leb. split; intro H.
  - apply gtb_true. unfold Py.gtb. now rewrite H.
  - apply gtb_true in H. unfold Py.gtb in H. now apply negb_true_iff in H.
Qed.

Lemma geb_true (a b : Q) : Py.geb a b = true <-> b <= a.
Proof. apply Qle_bool_iff. Qed.

(** ** Rounding to binary64 *)

Lemma round_half_even_nonneg (x : Q) :
  (0 <= Qnum x)%Z -> (0 <= Py.round_half_even x)%Z.
Proof.
  intro H. unfold Py.round_half_even.
  assert (0 <= Qnum x / Zpos (Qden x))%Z by (apply Z.div_pos; lia).
  destruct (_ ?= _)%Z; [destruct (Z.even _)| |]; lia.
Qed.

Lemma round_half_even_proper (x y : Q) :
  x == y -> Py.round_half_even x = Py.round_half_even y.
Proof.
  intro H. pose proof (Qfloor_comp x y H) as F.
  destruct x as [a b], y as [c d]. unfold Qfloor in F.
  unfold Qeq in H. cbn [Qnum Qden] in H.
  unfold Py.round_half_even. cbn [Qnum Qden]. rewrite <- F.
  set (f := (a / Zpos b)%Z) in *.
  assert (Ea : (a mod Zpos b = a - Zpos b * f)%Z)
    by (unfold f; rewrite Z.mod_eq by lia; reflexivity).
  assert (Ec : (c mod Zpos d = c - Zpos d * f)%Z)
    by (rewrite F; rewrite Z.mod_eq by lia; reflexivity).
  rewrite Ea, Ec.
  replace (2 * (a - Zpos b * f) ?= Zpos b)%Z
    with (2 * (c - Zpos d * f) ?= Zpos d)%Z; [reflexivity|].
  destruct (Z.compare_spec (2 * (c - Zpos d * f)) (Zpos d));
    destruct (Z.compare_spec (2 * (a - Zpos b * f)) (Zpos b));
    try reflexivity; exfalso; nia.
Qed.

Lemma pow2_pos (e : Z) : 0 < Py.pow2 e.
Proof. apply Qpower_0_lt. reflexivity. Qed.

Lemma Qnum_nonneg (x : Q) : 0 <= x -> (0 <= Qnum x)%Z.
Proof. unfold Qle. cbn. lia. Qed.

(** The magnitude that [round64] attaches a sign to. *)
Lemma round64_magnitude (a : Q) (e : Z) :
  0 <= a ->
  0 <= inject_Z (Py.round_half_even (a / Py.pow2 e)) * Py.pow2 e.
Proof.
  intro H. apply Qmult_le_0_compat.
  - assert (0 <= Py.round_half_even (a / Py.pow2 e))%Z as R.
    { apply round_half_even_nonneg. apply Qnum_nonneg.
      apply Qle_shift_div_l; [apply pow2_pos|]. now rewrite Qmult_0_l. }
    unfold Qle. cbn. lia.
  - apply Qlt_le_weak. apply pow2_pos.
Qed.


Lemma round64_nonpos (q : Q) : q <= 0 -> Py.round64 q <= 0.
Proof.
  intro H. unfold Py.round64.
  destruct (Qeq_bool q 0) eqn:E; [apply Qle_refl|].
  destruct (Qle_bool 0 q) eqn:L.
  - apply Qle_bool_iff in L.
    assert (Z : q == 0) by (apply Qle_antisym; assumption).
    apply Qeq_bool_iff in Z. congruence.
  - pose proof (round64_magnitude (Qabs q)
                  (Z.max (Py.ilog2 (Qabs q) - 52) (-1074))
                  (Qabs_nonneg q)) as M.
    lra.
Qed.



Lemma prefix_app (n x : string) : prefix n (n ++ x) = true.
Proof.
  induction n as [|c n IH]; simpl.
  - destruct x; reflexivity.
  - destruct (ascii_dec c c) as [_|N]; [exact IH | now elim N].
Qed.

Lemma prefix_app_app (n m x : string) : prefix n ((n ++ m) ++ x) = true.
Proof.
  induction n as [|c n IH]; simpl.
  - destruct (m ++ x)%string; reflexivity.
  - destruct (ascii_dec c c) as [_|N]; [exact IH | now elim N].
Qed.

Lemma prefix_empty (s : string) : prefix "" s = true.
Proof. destruct s; reflexivity. Qed.

Lemma contains_of_prefix (n s : string) :
  prefix n s = true -> Py.contains n s = true.
Proof.
  destruct s as [|c s]; simpl; intro H; [exact H|].
  now rewrite H.
Qed.

Lemma contains_app_left (n p s : string) :
  Py.contains n s = true -> Py.contains n (p ++ s) = true.
Proof.
  intro H. induction p as [|c p IH]; simpl; [exact H|].
  rewrite IH. apply orb_true_r.
Qed.

(** ** Risk engine: the sticky pause *)

Lemma roll_pause_reason (w : World) (e : RiskEngine.t) :
  RiskEngine.pause_reason (RiskEngine._roll_day_if_needed w e)
  = RiskEngine.pause_reason e.
Proof.
  unfold RiskEngine._roll_day_if_needed.
  destruct (negb _); reflexivity.
Qed.

Lemma roll_config (w : World) (e : RiskEngine.t) :
  let e' := RiskEngine._roll_day_if_needed w e in
  RiskEngine.kill_file e' = RiskEngine.kill_file e
  /\ RiskEngine.pause_file e' = RiskEngine.pause_file e
  /\ RiskEngine.max_notional_usd_per_trade e'
     = RiskEngine.max_notional_usd_per_trade e
  /\ RiskEngine.max_trades_per_day e' = RiskEngine.max_trades_per_day e
  /\ RiskEngine.max_trades_per_day_per_pair e'
     = RiskEngine.max_trades_per_day_per_pair e.
Proof.
  unfold RiskEngine._roll_day_if_needed.
  destruct (negb _); simpl; repeat split; reflexivity.
Qed.

Lemma can_trade_state (w : World) (e : RiskEngine.t) n m p :
  snd (RiskEngine.can_trade w e n m p) = RiskEngine._roll_day_if_needed w e.
Proof.
  unfold RiskEngine.can_trade.
  repeat match goal with
         | |- context [if ?b then _ else _] => destruct b
         | |- context [match ?o with Some _ => _ | None => _ end] => destruct o
         end; reflexivity.
Qed.

Lemma update_pause_reason_cases (w : World) (e : RiskEngine.t) r dd :
  let e' := fst (RiskEngine.update_portfolio_metrics w e r dd) in
  RiskEngine.pause_reason e' = RiskEngine.pause_reason e
  \/ exists s, RiskEngine.pause_reason e' = Some s
               /\ prefix "circuit breaker" s = true.
Proof.
  unfold RiskEngine.update_portfolio_metrics, RiskEngine._touch_pause.
  simpl.
  destruct (_ && _).
  - right. eexists. split; [reflexivity|]. reflexivity.
  - destruct (_ && _).
    + right. eexists. split; [reflexivity|]. reflexivity.
    + left. reflexivity.
Qed.

Lemma record_trade_pause_reason (w : World) (e : RiskEngine.t) p :
  RiskEngine.pause_reason (RiskEngine.record_trade w e p)
  = RiskEngine.pause_reason e.
Proof.
  unfold RiskEngine.record_trade.
  destruct (Py.truthy_str p); simpl; apply roll_pause_reason.
Qed.

Lemma step_keeps_breaker (e : RiskEngine.t) (wc : World * RiskEngine.call) :
  RiskEngine.breaker_pause e ->
  RiskEngine.breaker_pause (RiskEngine.step e wc).
Proof.
  intros [s [Hs Hp]]. destruct wc as [w c]. destruct c as [n m p|p|r dd]; simpl.
  - rewrite can_trade_state. exists s.
    now rewrite roll_pause_reason.
  - exists s. now rewrite record_trade_pause_reason.
  - destruct (update_pause_reason_cases w e r dd) as [H|H].
    + exists s. cbv zeta in H. now rewrite H.
    + exact H.
Qed.

Lemma run_keeps_breaker (h : list (World * RiskEngine.call)) :
  forall e, RiskEngine.breaker_pause e ->
            RiskEngine.breaker_pause (RiskEngine.run e h).
Proof.
  unfold RiskEngine.run.
  induction h as [|wc h IH]; simpl; intros e H; [exact H|].
  apply IH. now apply step_keeps_breaker.
Qed.

Lemma update_trips (w : World) (e : RiskEngine.t) r dd :
  RiskEngine.loss_breaker_hit e r \/ RiskEngine.drawdown_breaker_hit e dd ->
  RiskEngine.breaker_pause (fst (RiskEngine.update_portfolio_metrics w e r dd)).
Proof.
  intro H.
  unfold RiskEngine.update_portfolio_metrics, RiskEngine._touch_pause.
  simpl.
  destruct (Py.gtb (RiskEngine.max_daily_loss_usd e) 0
            && Py.leb r (- RiskEngine.max_daily_loss_usd e)) eqn:E1.
  - eexists. split; reflexivity.
  - destruct (Py.gtb (RiskEngine.max_drawdown_usd e) 0
              && Py.geb dd (RiskEngine.max_drawdown_usd e)) eqn:E2.
    + eexists. split; reflexivity.
    + exfalso. destruct H as [[H1 H2]|[H1 H2]].
      * apply gtb_true in H1. apply leb_true in H2.
        rewrite H1, H2 in E1. discriminate.
      * apply gtb_true in H1. apply geb_true in H2.
        rewrite H1, H2 in E2. discriminate.
Qed.

Lemma can_trade_when_breaker (w : World) (e : RiskEngine.t) n m p :
  RiskEngine.breaker_pause e ->
  let d := fst (RiskEngine.can_trade w e n m p) in
  RiskEngine.allowed d = false
  /\ (path_exists w (RiskEngine.kill_file e) = false ->
      Py.contains "circuit breaker" (RiskEngine.reason d) = true).
Proof.
  intros [s [Hs Hp]].
  unfold RiskEngine.can_trade, RiskEngine.kill_switch_active.
  destruct (roll_config w e) as [Hk _]. rewrite Hk.
  destruct (path_exists w (RiskEngine.kill_file e)) eqn:K; simpl.
  - split; [reflexivity | discriminate].
  - unfold RiskEngine.paused, RiskEngine.get_pause_reason.
    rewrite roll_pause_reason, Hs. rewrite orb_true_r.
    destruct s as [|c s]; [discriminate|].
    split; [reflexivity|]. intros _.
    apply (contains_app_left _ "paused: " (String c s)).
    now apply contains_of_prefix.
Qed.

(** C1, as amended.  Once [update_portfolio_metrics] trips a breaker, the
    pause reason stays a circuit-breaker reason through every later call,
    in whatever world each is made, so every later [can_trade] denies; its
    reason contains "circuit breaker" whenever the kill-switch file is
    absent (when it is present the kill-switch check answers first). *)
Theorem C1_breaker_pause_is_sticky :
  forall (w : World) (e : RiskEngine.t) (r dd : Q)
         (h : list (World * RiskEngine.call))
         (w' : World) (n : Q) (m : string) (p : option string),
    RiskEngine.loss_breaker_hit e r \/ RiskEngine.drawdown_breaker_hit e dd ->
    let tripped := fst (RiskEngine.update_portfolio_metrics w e r dd) in
    let later := RiskEngine.run tripped h in
    let d := fst (RiskEngine.can_trade w' later n m p) in
    RiskEngine.breaker_pause later
    /\ RiskEngine.allowed d = false
    /\ (path_exists w' (RiskEngine.kill_file later) = false ->
        Py.contains "circuit breaker" (RiskEngine.reason d) = true).
Proof.
  intros w e r dd h w' n m p H tripped later d.
  assert (B : RiskEngine.breaker_pause later).
  { apply run_keeps_breaker. now apply update_trips. }
  split; [exact B|].
  exact (can_trade_when_breaker w' later n m p B).
Qed.

Lemma C1_witness :
  RiskEngine.loss_breaker_hit Samples.engine_loss100 (-(101))
  /\ RiskEngine.reason
       (fst (RiskEngine.can_trade Samples.next_day
               (RiskEngine.run
                  (fst (RiskEngine.update_portfolio_metrics Samples.quiet
                          Samples.engine_loss100 (-(101)) 0))
                  [(Samples.quiet, RiskEngine.UpdatePortfolioMetrics 50 0)])
               10 "live" (Some "XBTUSD")))
     = "paused: circuit breaker: realized pnl -101.000000 <= -100.000000"
  /\ Py.contains "circuit breaker"
       (RiskEngine.reason
          (fst (RiskEngine.can_trade Samples.next_day
                  (RiskEngine.run
                     (fst (RiskEngine.update_portfolio_metrics Samples.quiet
                             Samples.engine_loss100 (-(101)) 0))
                     [(Samples.quiet, RiskEngine.UpdatePortfolioMetrics 50 0)])
                  10 "live" (Some "XBTUSD")))) = true.
Proof.
  assert (H : RiskEngine.loss_breaker_hit Samples.engine_loss100 (-(101))).
  { split; vm_compute; [reflexivity | discriminate]. }
  split; [exact H|]. split; [vm_compute; reflexivity|].
  apply (C1_breaker_pause_is_sticky Samples.quiet Samples.engine_loss100
           (-(101)) 0
           [(Samples.quiet, RiskEngine.UpdatePortfolioMetrics 50 0)]
           Samples.next_day 10 "live" (Some "XBTUSD") (or_introl H)).
  vm_compute; reflexivity.
Defined.

(** C1 as stated fails: with the kill-switch file present, a tripped
    engine denies with the kill-switch reason, which does not contain
    "circuit breaker". *)
Lemma C1_counterexample :
  RiskEngine.loss_breaker_hit Samples.engine_loss100 (-(101))
  /\ fst (RiskEngine.can_trade Samples.killed
            (fst (RiskEngine.update_portfolio_metrics Samples.quiet
                    Samples.engine_loss100 (-(101)) 0))
            10 "live" (Some "XBTUSD"))
     = {| RiskEngine.allowed := false;
          RiskEngine.reason := "kill switch active" |}
  /\ Py.contains "circuit breaker" "kill switch active" = false.
Proof.
  split; [split; vm_compute; [reflexivity | discriminate]|].
  split; vm_compute; reflexivity.
Qed.

(** ** Risk engine: the notional cap *)

(** C2.  A notional strictly above [max_notional_usd_per_trade] is denied
    in every world and every engine state, for every pair and mode; when
    neither the kill switch nor a pause answers first, the reason is the
    "max_notional_usd_per_trade exceeded" message with both amounts to two
    decimals. *)
Theorem C2_notional_above_cap_is_denied :
  forall (w : World) (e : RiskEngine.t) (n : Q) (m : string)
         (p : option string),
    RiskEngine.max_notional_usd_per_trade e < n ->
    let d := fst (RiskEngine.can_trade w e n m p) in
    RiskEngine.allowed d = false
    /\ (path_exists w (RiskEngine.kill_file e) = false ->
        RiskEngine.paused w e = false ->
        RiskEngine.reason d
        = ("max_notional_usd_per_trade exceeded ("
           ++ Py.format_f 2 n ++ " > "
           ++ Py.format_f 2 (RiskEngine.max_notional_usd_per_trade e)
           ++ ")")%string
        /\ Py.contains "max_notional_usd_per_trade exceeded"
             (RiskEngine.reason d) = true).
Proof.
  intros w e n m p H.
  apply gtb_true in H.
  unfold RiskEngine.can_trade, RiskEngine.kill_switch_active,
    RiskEngine.paused.
  destruct (roll_config w e) as [Hk [Hp [Hn _]]].
  rewrite Hk, Hp, Hn, roll_pause_reason, H.
  destruct (path_exists w (RiskEngine.kill_file e)); simpl.
  - split; [reflexivity | discriminate].
  - fold (RiskEngine.paused w e).
    destruct (RiskEngine.paused w e); simpl.
    + split; [reflexivity | discriminate].
    + split; [reflexivity|]. intros _ _. split; reflexivity.
Qed.

Lemma C2_witness :
  RiskEngine.max_notional_usd_per_trade Samples.engine == 20
  /\ fst (RiskEngine.can_trade Samples.quiet Samples.engine 25 "live"
            (Some "XBTUSD"))
     = {| RiskEngine.allowed := false;
          RiskEngine.reason :=
            "max_notional_usd_per_trade exceeded (25.00 > 20.00)" |}
  /\ Py.contains "max_notional_usd_per_trade exceeded"
       (RiskEngine.reason
          (fst (RiskEngine.can_trade Samples.quiet Samples.engine 25 "live"
                  (Some "XBTUSD")))) = true.
Proof.
  split; [reflexivity|]. split; [vm_compute; reflexivity|].
  assert (H : RiskEngine.max_notional_usd_per_trade Samples.engine < 25)
    by (vm_compute; reflexivity).
  apply (C2_notional_above_cap_is_denied Samples.quiet Samples.engine 25
           "live" (Some "XBTUSD") H); vm_compute; reflexivity.
Defined.

(** ** Risk engine: the daily counters *)

Lemma roll_trades_today (w : World) (e : RiskEngine.t) :
  RiskEngine.trades_today (RiskEngine._roll_day_if_needed w e)
  = effective_trades (clock_day w) e.
Proof.
  unfold RiskEngine._roll_day_if_needed, effective_trades,
    RiskEngine._utc_day_key.
  destruct (String.eqb (clock_day w) (RiskEngine.day_key e)); reflexivity.
Qed.

Lemma roll_day_key (w : World) (e : RiskEngine.t) :
  RiskEngine.day_key (RiskEngine._roll_day_if_needed w e) = clock_day w.
Proof.
  unfold RiskEngine._roll_day_if_needed, RiskEngine._utc_day_key.
  destruct (String.eqb (clock_day w) (RiskEngine.day_key e)) eqn:E;
    simpl; [|reflexivity].
  symmetry. now apply String.eqb_eq.
Qed.

Lemma effective_after_roll (w : World) (e : RiskEngine.t) :
  effective_trades (clock_day w) (RiskEngine._roll_day_if_needed w e)
  = effective_trades (clock_day w) e.
Proof.
  unfold effective_trades at 1.
  rewrite roll_day_key, String.eqb_refl. apply roll_trades_today.
Qed.

Lemma record_trade_counters (w : World) (e : RiskEngine.t) p :
  RiskEngine.trades_today (RiskEngine.record_trade w e p)
  = (effective_trades (clock_day w) e + 1)%Z
  /\ RiskEngine.day_key (RiskEngine.record_trade w e p) = clock_day w.
Proof.
  unfold RiskEngine.record_trade.
  destruct (Py.truthy_str p); simpl;
    rewrite roll_trades_today, roll_day_key; split; reflexivity.
Qed.

Lemma update_counters (w : World) (e : RiskEngine.t) r dd :
  let e' := fst (RiskEngine.update_portfolio_metrics w e r dd) in
  RiskEngine.trades_today e' = RiskEngine.trades_today e
  /\ RiskEngine.day_key e' = RiskEngine.day_key e
  /\ RiskEngine.max_trades_per_day e' = RiskEngine.max_trades_per_day e
  /\ RiskEngine.kill_file e' = RiskEngine.kill_file e.
Proof.
  unfold RiskEngine.update_portfolio_metrics, RiskEngine._touch_pause.
  simpl. destruct (_ && _); [|destruct (_ && _)]; simpl;
    repeat split; reflexivity.
Qed.

Lemma step_effective (day : string) (e : RiskEngine.t)
    (wc : World * RiskEngine.call) :
  clock_day (fst wc) = day ->
  effective_trades day (RiskEngine.step e wc)
  = (effective_trades day e + is_record_Z wc)%Z.
Proof.
  destruct wc as [w c]. simpl. intros <-.
  unfold is_record_Z, RiskEngine.is_record.
  destruct c as [n m p|p|r dd]; simpl.
  - rewrite can_trade_state, effective_after_roll. lia.
  - destruct (record_trade_counters w e p) as [H1 H2].
    unfold effective_trades at 1.
    now rewrite H2, String.eqb_refl, H1.
  - destruct (update_counters w e r dd) as [H1 [H2 _]].
    unfold effective_trades. cbv zeta in H1, H2. rewrite H1, H2. lia.
Qed.

Lemma recorded_cons (wc : World * RiskEngine.call) h :
  RiskEngine.recorded (wc :: h) = (is_record_Z wc + RiskEngine.recorded h)%Z.
Proof.
  unfold RiskEngine.recorded, is_record_Z. simpl.
  destruct (RiskEngine.is_record wc); simpl List.length; lia.
Qed.

Lemma run_effective (day : string) (h : list (World * RiskEngine.call)) :
  forall e,
    Forall (fun wc => clock_day (fst wc) = day) h ->
    effective_trades day (RiskEngine.run e h)
    = (effective_trades day e + RiskEngine.recorded h)%Z.
Proof.
  unfold RiskEngine.run.
  induction h as [|wc h IH]; intros e F.
  - simpl. unfold RiskEngine.recorded. simpl. lia.
  - pose proof (Forall_inv F) as Hwc. pose proof (Forall_inv_tail F) as Hh.
    simpl fold_left.
    rewrite (IH _ Hh), (step_effective day e wc Hwc), recorded_cons. lia.
Qed.

Lemma step_trades_nonneg (e : RiskEngine.t) (wc : World * RiskEngine.call) :
  (0 <= RiskEngine.trades_today e)%Z ->
  (0 <= RiskEngine.trades_today (RiskEngine.step e wc))%Z.
Proof.
  intro H.
  assert (E : forall d, (0 <= effective_trades d e)%Z).
  { intro d. unfold effective_trades. destruct (String.eqb _ _); lia. }
  destruct wc as [w c]. destruct c as [n m p|p|r dd]; simpl.
  - rewrite can_trade_state, roll_trades_today. apply E.
  - destruct (record_trade_counters w e p) as [H1 _]. rewrite H1.
    specialize (E (clock_day w)). lia.
  - destruct (update_counters w e r dd) as [H1 _]. cbv zeta in H1.
    now rewrite H1.
Qed.

Lemma run_trades_nonneg (h : list (World * RiskEngine.call)) :
  forall e, (0 <= RiskEngine.trades_today e)%Z ->
            (0 <= RiskEngine.trades_today (RiskEngine.run e h))%Z.
Proof.
  unfold RiskEngine.run.
  induction h as [|wc h IH]; simpl; intros e H; [exact H|].
  apply IH. now apply step_trades_nonneg.
Qed.

Lemma step_max_trades (e : RiskEngine.t) (wc : World * RiskEngine.call) :
  RiskEngine.max_trades_per_day (RiskEngine.step e wc)
  = RiskEngine.max_trades_per_day e.
Proof.
  destruct wc as [w c]. destruct c as [n m p|p|r dd]; simpl.
  - rewrite can_trade_state. apply (roll_config w e).
  - unfold RiskEngine.record_trade.
    destruct (Py.truthy_str p); simpl; apply (roll_config w e).
  - apply (update_counters w e r dd).
Qed.

Lemma run_max_trades (h : list (World * RiskEngine.call)) :
  forall e, RiskEngine.max_trades_per_day (RiskEngine.run e h)
            = RiskEngine.max_trades_per_day e.
Proof.
  unfold RiskEngine.run.
  induction h as [|wc h IH]; simpl; intro e; [reflexivity|].
  now rewrite IH, step_max_trades.
Qed.

Lemma can_trade_at_cap (w : World) (e : RiskEngine.t) n m p :
  (RiskEngine.max_trades_per_day e <= effective_trades (clock_day w) e)%Z ->
  RiskEngine.allowed (fst (RiskEngine.can_trade w e n m p)) = false.
Proof.
  intro H. unfold RiskEngine.can_trade.
  destruct (roll_config w e) as [_ [_ [_ [Hm _]]]].
  rewrite Hm, roll_trades_today.
  apply Z.leb_le in H. rewrite H.
  destruct (RiskEngine.kill_switch_active _ _); [reflexivity|].
  destruct (RiskEngine.paused _ _); [reflexivity|].
  destruct (Py.gtb _ _); reflexivity.
Qed.

Lemma roll_on_new_day (w : World) (e : RiskEngine.t) :
  clock_day w <> RiskEngine.day_key e ->
  RiskEngine._roll_day_if_needed w e
  = RiskEngine.set_counters e (clock_day w) 0%Z [].
Proof.
  intro H. unfold RiskEngine._roll_day_if_needed, RiskEngine._utc_day_key.
  apply String.eqb_neq in H. now rewrite H.
Qed.

Lemma roll_idempotent (w : World) (e : RiskEngine.t) :
  RiskEngine._roll_day_if_needed w (RiskEngine._roll_day_if_needed w e)
  = RiskEngine._roll_day_if_needed w e.
Proof.
  unfold RiskEngine._roll_day_if_needed at 1.
  now rewrite roll_day_key, String.eqb_refl.
Qed.

(** C3.  For an engine built by [__init__] and driven by any earlier
    history: once a run of calls made on one UTC day contains at least
    [max_trades_per_day] calls of [record_trade], every [can_trade] made
    on that day denies.  And when the clock's UTC day differs from
    [day_key] on entry to [can_trade] or [record_trade], the call behaves
    as on an engine whose global counter is zero and whose per-pair map is
    empty: [can_trade] reads those, [record_trade] counts from them. *)
Theorem C3_daily_cap_and_rollover :
  (forall (w0 : World) (cfg : RiskEngine.Cfg)
          (pre : list (World * RiskEngine.call)) (day : string)
          (h : list (World * RiskEngine.call))
          (w : World) (n : Q) (m : string) (p : option string),
      let e := RiskEngine.run (RiskEngine.__init__ w0 cfg) pre in
      Forall (fun wc => clock_day (fst wc) = day) h ->
      clock_day w = day ->
      (RiskEngine.max_trades_per_day e <= RiskEngine.recorded h)%Z ->
      RiskEngine.allowed
        (fst (RiskEngine.can_trade w (RiskEngine.run e h) n m p)) = false)
  /\ (forall (w : World) (e : RiskEngine.t),
        clock_day w <> RiskEngine.day_key e ->
        let fresh := RiskEngine.set_counters e (clock_day w) 0%Z [] in
        (forall n m p,
            RiskEngine.can_trade w e n m p = RiskEngine.can_trade w fresh n m p
            /\ RiskEngine.trades_today (snd (RiskEngine.can_trade w e n m p))
               = 0%Z
            /\ RiskEngine.trades_today_by_pair
                 (snd (RiskEngine.can_trade w e n m p)) = [])
        /\ (forall p,
              RiskEngine.record_trade w e p = RiskEngine.record_trade w fresh p
              /\ RiskEngine.trades_today (RiskEngine.record_trade w e p) = 1%Z
              /\ RiskEngine.trades_today_by_pair
                   (RiskEngine.record_trade w e p)
                 = match Py.truthy_str p with
                   | Some k => [(k, 1%Z)]
                   | None => []
                   end)).
Proof.
  split.
  - intros w0 cfg pre day h w n m p e F Hw Hcap.
    apply can_trade_at_cap.
    rewrite run_max_trades, Hw, (run_effective day h e F).
    assert (0 <= effective_trades day e)%Z.
    { unfold effective_trades. destruct (String.eqb _ _); [|lia].
      apply run_trades_nonneg. simpl. lia. }
    lia.
  - intros w e H fresh.
    assert (R : RiskEngine._roll_day_if_needed w e = fresh)
      by now apply roll_on_new_day.
    assert (R' : RiskEngine._roll_day_if_needed w fresh = fresh)
      by (rewrite <- R; apply roll_idempotent).
    split.
    + intros n m p. split; [|split].
      * unfold RiskEngine.can_trade. now rewrite R, R'.
      * now rewrite can_trade_state, R.
      * now rewrite can_trade_state, R.
    + intro p. split; [|split].
      * unfold RiskEngine.record_trade. now rewrite R, R'.
      * unfold RiskEngine.record_trade. rewrite R.
        destruct (Py.truthy_str p); reflexivity.
      * unfold RiskEngine.record_trade. rewrite R.
        destruct (Py.truthy_str p); reflexivity.
Qed.

Lemma C3_witness :
  RiskEngine.allowed
    (fst (RiskEngine.can_trade Samples.quiet
            (RiskEngine.run (RiskEngine.run Samples.engine [])
               Samples.three_trades)
            5 "dry_run" (Some "SOLUSD"))) = false
  /\ RiskEngine.allowed
       (fst (RiskEngine.can_trade Samples.next_day
               (RiskEngine.run Samples.engine Samples.three_trades)
               5 "dry_run" (Some "SOLUSD"))) = true
  /\ RiskEngine.trades_today
       (RiskEngine.record_trade Samples.next_day
          (RiskEngine.run Samples.engine Samples.three_trades)
          (Some "XBTUSD")) = 1%Z.
Proof.
  split; [|split].
  - apply (proj1 C3_daily_cap_and_rollover Samples.quiet Samples.no_cfg []
             "2024-01-01" Samples.three_trades Samples.quiet 5 "dry_run"
             (Some "SOLUSD")).
    + repeat constructor.
    + reflexivity.
    + vm_compute. discriminate.
  - vm_compute. reflexivity.
  - apply (proj2 C3_daily_cap_and_rollover Samples.next_day
             (RiskEngine.run Samples.engine Samples.three_trades)).
    vm_compute. intro E. discriminate E.
Defined.

(** ** Order evaluator: spread and slippage *)

Lemma positive_not_zero (x : Q) : Py.leb x 0 = false -> Qeq_bool x 0 = false.
Proof.
  intro H. apply leb_false in H.
  destruct (Qeq_bool x 0) eqn:E; [|reflexivity].
  apply Qeq_bool_iff in E. rewrite E in H. now apply Qlt_irrefl in H.
Qed.

Lemma truediv_positive (a b : Q) :
  Py.leb b 0 = false -> Py.truediv a b = Py.Ok (Py.fdiv a b).
Proof.
  intro H. unfold Py.truediv. now rewrite (positive_not_zero b H).
Qed.

Lemma calc_spread_value (bid ask : Q) :
  KrakenOrders._calc_spread_pct bid ask
  = Py.Ok (let mid := Py.fdiv (Py.fadd bid ask) 2 in
           if Py.leb mid 0 then 999
           else Py.fmul (Py.fdiv (Py.fsub ask bid) mid) 100).
Proof.
  unfold KrakenOrders._calc_spread_pct. cbv zeta.
  change (Py.truediv (Py.fadd bid ask) 2)
    with (Py.Ok (Py.fdiv (Py.fadd bid ask) 2)).
  cbn [Py.bind].
  destruct (Py.leb (Py.fdiv (Py.fadd bid ask) 2) 0) eqn:E; [reflexivity|].
  now rewrite (truediv_positive _ _ E).
Qed.

Lemma slippage_value (ref current : Q) :
  KrakenOrders._slippage_pct ref current
  = Py.Ok (if Py.leb ref 0 then 999
           else Py.fmul (Py.fdiv (Qabs (Py.fsub current ref)) ref) 100).
Proof.
  unfold KrakenOrders._slippage_pct.
  destruct (Py.leb ref 0) eqn:E; [reflexivity|].
  now rewrite (truediv_positive _ _ E).
Qed.

(** ** Order evaluator: the decision of [build_order] *)

(** [not v or v <= 0] on an optional float is [v is None or v <= 0]: a
    zero is not positive. *)
Lemma no_position_volume_value (ov : option Q) :
  KrakenOrders.no_position_volume ov
  = match ov with
    | None => true
    | Some v => Py.leb v 0
    end.
Proof.
  destruct ov as [v|]; [|reflexivity]. cbn.
  destruct (Qeq_bool v 0) eqn:E; [|reflexivity]. cbn.
  apply Qeq_bool_iff in E. symmetry. apply leb_true. rewrite E.
  apply Qle_refl.
Qed.

Lemma below_ordermin_value (vol_str : string) (om : option string) :
  KrakenOrders.below_ordermin vol_str om
  = match om with
    | None => false
    | Some minimum =>
        match Py.float_parse minimum, Py.float_parse vol_str with
        | Some m, Some v => Py.parsed_ltb v m
        | _, _ => false
        end
    end.
Proof.
  unfold KrakenOrders.below_ordermin.
  destruct om as [o|]; [|reflexivity].
  destruct (Py.float_parse vol_str); destruct (Py.float_parse o);
    reflexivity.
Qed.

(** With both exchange answers at hand [build_order] never raises, and
    returns the decision of the first failing check. *)
Lemma build_order_value
    (k : KrakenOrders.KrakenClient) (cfg : KrakenOrders.Cfg)
    (pair_key sd : string) (ov : option Q)
    (pi : KrakenOrders.PairInfo) (tk : KrakenOrders.Ticker) :
  KrakenOrders.asset_pairs k pair_key = Py.Ok pi ->
  KrakenOrders.ticker k pair_key = Py.Ok tk ->
  KrakenOrders.build_order k cfg pair_key sd ov
  = Py.Ok (Checks.decision cfg pair_key sd pi tk ov, Checks.metrics_of tk).
Proof.
  intros Hpi Htk.
  unfold KrakenOrders.build_order, KrakenOrders.resolve_pair_info,
    KrakenOrders.get_ticker.
  rewrite Hpi, Htk. cbn [Py.bind].
  rewrite calc_spread_value. cbv zeta. cbn [Py.bind].
  change (Py.truediv (Py.fadd (KrakenOrders.tk_b tk) (KrakenOrders.tk_a tk))
            2)
    with (Py.Ok (Checks.mid_of tk)).
  cbn [Py.bind]. rewrite slippage_value. cbn [Py.bind].
  fold (Checks.mid_of tk). fold (Checks.spread_of tk).
  fold (Checks.slippage_of tk). fold (Checks.metrics_of tk).
  unfold Checks.decision, Checks.first_failing.
  fold (Checks.spread_fails cfg tk). fold (Checks.slippage_fails cfg tk).
  destruct (Checks.spread_fails cfg tk); [reflexivity|].
  destruct (Checks.slippage_fails cfg tk); [reflexivity|].
  unfold Checks.sizing_fails, Checks.min_size_fails, Checks.sized_volume,
    Checks.sized_notional, Checks.limit_price, Checks.volume_of.
  change (Py.truediv (KrakenOrders.safety_limit_offset_pct cfg) 100)
    with (Py.Ok (Py.fdiv (KrakenOrders.safety_limit_offset_pct cfg) 100)).
  rewrite no_position_volume_value.
  destruct (String.eqb sd "buy") eqn:B.
  - destruct (Py.leb (KrakenOrders.tk_c tk) 0) eqn:L; cbn [Py.bind].
    + reflexivity.
    + rewrite (truediv_positive _ _ L). cbn [Py.bind].
      rewrite below_ordermin_value.
      unfold KrakenOrders._format_volume, KrakenOrders._format_dec,
        KrakenOrders.blocked, RiskEngine.or_default.
      destruct (KrakenOrders.ordermin pi) as [o|].
      * destruct (Py.float_parse o) as [m|];
          [destruct (Py.float_parse _) as [v|];
           [destruct (Py.parsed_ltb v m)|]|];
          try reflexivity;
          destruct (String.eqb _ "limit"); reflexivity.
      * destruct (String.eqb _ "limit"); reflexivity.
  - destruct ov as [v0|]; [destruct (Py.leb v0 0) eqn:L|]; cbn [Py.bind];
      try reflexivity.
    rewrite below_ordermin_value.
    unfold KrakenOrders._format_volume, KrakenOrders._format_dec,
      KrakenOrders.blocked, RiskEngine.or_default.
    destruct (KrakenOrders.ordermin pi) as [o|].
    + destruct (Py.float_parse o) as [m|];
        [destruct (Py.float_parse _) as [v|];
         [destruct (Py.parsed_ltb v m)|]|];
        try reflexivity;
        destruct (String.eqb _ "limit"); reflexivity.
    + destruct (String.eqb _ "limit"); reflexivity.
Qed.

Lemma decision_reason
    (cfg : KrakenOrders.Cfg) (pair_key sd : string)
    (pi : KrakenOrders.PairInfo) (tk : KrakenOrders.Ticker) (ov : option Q) :
  let od := Checks.decision cfg pair_key sd pi tk ov in
  match Checks.first_failing cfg sd pi tk ov with
  | Some c =>
      Checks.names c (KrakenOrders.reason od) = true
      /\ KrakenOrders.reason od <> "ok"
      /\ KrakenOrders.price od = None
      /\ (c <> Checks.MinSize -> KrakenOrders.volume od = "0")
      /\ (c = Checks.MinSize ->
          KrakenOrders.volume od = Checks.sized_volume cfg sd pi tk ov)
  | None =>
      KrakenOrders.reason od = "ok"
      /\ KrakenOrders.volume od = Checks.sized_volume cfg sd pi tk ov
      /\ KrakenOrders.price od = Checks.limit_price cfg sd pi tk
  end.
Proof.
  unfold Checks.decision.
  destruct (Checks.first_failing cfg sd pi tk ov) as [[| | |]|];
    try destruct (String.eqb sd "buy");
    cbn [KrakenOrders.reason KrakenOrders.price KrakenOrders.volume
           Checks.names];
    repeat split; intros;
    first [ apply prefix_app
          | discriminate
          | congruence
          | match goal with
            | |- _ <> _ =>
                let H := fresh in intro H; cbn [append] in H; discriminate H
            end
          | reflexivity ].
Qed.

(** C5.  Whenever the exchange answers, [build_order] returns a decision
    (it does not raise).  Its reason is "ok" exactly when the spread,
    slippage, sizing and minimum-size checks all pass; otherwise it names
    the first failing check in that order.  A spread or slippage block
    carries volume "0" (no sizing was done), a sizing block likewise, and
    every block, the minimum-size one included, carries no price (no limit
    price was computed). *)
Theorem C5_reason_names_first_failing_check :
  forall (k : KrakenOrders.KrakenClient) (cfg : KrakenOrders.Cfg)
         (pair_key sd : string) (ov : option Q)
         (pi : KrakenOrders.PairInfo) (tk : KrakenOrders.Ticker),
    KrakenOrders.asset_pairs k pair_key = Py.Ok pi ->
    KrakenOrders.ticker k pair_key = Py.Ok tk ->
    exists od : KrakenOrders.OrderDecision,
      KrakenOrders.build_order k cfg pair_key sd ov
      = Py.Ok (od, Checks.metrics_of tk)
      /\ (KrakenOrders.reason od = "ok" <->
          Checks.spread_fails cfg tk = false
          /\ Checks.slippage_fails cfg tk = false
          /\ Checks.sizing_fails sd tk ov = false
          /\ Checks.min_size_fails cfg sd pi tk ov = false)
      /\ (Checks.spread_fails cfg tk = true ->
          Checks.names Checks.Spread (KrakenOrders.reason od) = true
          /\ KrakenOrders.volume od = "0" /\ KrakenOrders.price od = None)
      /\ (Checks.spread_fails cfg tk = false ->
          Checks.slippage_fails cfg tk = true ->
          Checks.names Checks.Slippage (KrakenOrders.reason od) = true
          /\ KrakenOrders.volume od = "0" /\ KrakenOrders.price od = None)
      /\ (Checks.spread_fails cfg tk = false ->
          Checks.slippage_fails cfg tk = false ->
          Checks.sizing_fails sd tk ov = true ->
          Checks.names Checks.Sizing (KrakenOrders.reason od) = true
          /\ KrakenOrders.volume od = "0" /\ KrakenOrders.price od = None)
      /\ (Checks.spread_fails cfg tk = false ->
          Checks.slippage_fails cfg tk = false ->
          Checks.sizing_fails sd tk ov = false ->
          Checks.min_size_fails cfg sd pi tk ov = true ->
          Checks.names Checks.MinSize (KrakenOrders.reason od) = true
          /\ KrakenOrders.volume od = Checks.sized_volume cfg sd pi tk ov
          /\ KrakenOrders.price od = None)
      /\ (KrakenOrders.reason od = "ok" ->
          KrakenOrders.volume od = Checks.sized_volume cfg sd pi tk ov
          /\ KrakenOrders.price od = Checks.limit_price cfg sd pi tk).
Proof.
  intros k cfg pair_key sd ov pi tk Hpi Htk.
  exists (Checks.decision cfg pair_key sd pi tk ov).
  split; [now apply build_order_value|].
  pose proof (decision_reason cfg pair_key sd pi tk ov) as D.
  cbv zeta in D. revert D.
  unfold Checks.first_failing.
  destruct (Checks.spread_fails cfg tk);
    [|destruct (Checks.slippage_fails cfg tk);
      [|destruct (Checks.sizing_fails sd tk ov);
        [|destruct (Checks.min_size_fails cfg sd pi tk ov)]]];
    intro D; settle_block.
Qed.

Lemma C5_witness :
  exists od : KrakenOrders.OrderDecision,
    KrakenOrders.build_order Samples.exchange Samples.dry_run_cfg
      "XBTUSD" "buy" None
    = Py.Ok (od, Checks.metrics_of Samples.quotes)
    /\ KrakenOrders.reason od = "ok"
    /\ KrakenOrders.volume od = "0.00040000"
    /\ KrakenOrders.price od = Some "50020.0".
Proof.
  destruct (C5_reason_names_first_failing_check Samples.exchange
              Samples.dry_run_cfg "XBTUSD" "buy" None Samples.pair_info
              Samples.quotes eq_refl eq_refl)
    as [od [E [I [_ [_ [_ [_ V]]]]]]].
  assert (R : KrakenOrders.reason od = "ok").
  { apply I. vm_compute. repeat split. }
  exists od. split; [exact E|]. split; [exact R|].
  destruct (V R) as [V1 V2]. rewrite V1, V2.
  split; vm_compute; reflexivity.
Defined.

(** Quotes of 99.85 / 100.15 against a maximum spread of 0.3 percent:
    the spread computed in binary64 is 0.30000000000001137, above the
    threshold, and the order is blocked. *)
Example spread_just_above_the_threshold :
  KrakenOrders._calc_spread_pct (Py.float 99.85) (Py.float 100.15)
  = Py.Ok (Py.float 0.30000000000001137)
  /\ Checks.spread_fails
       {| KrakenOrders.trading_mode := "dry_run";
          KrakenOrders.trading_order_type := None;
          KrakenOrders.trading_quote_notional_usd := 20;
          KrakenOrders.safety_max_spread_pct := Py.float 0.3;
          KrakenOrders.safety_max_slippage_pct := Py.float 0.5;
          KrakenOrders.safety_limit_offset_pct := Py.float 0.02 |}
       {| KrakenOrders.tk_b := Py.float 99.85;
          KrakenOrders.tk_a := Py.float 100.15;
          KrakenOrders.tk_c := 100 |}
     = true
  /\ exists od mt,
       KrakenOrders.build_order
         {| KrakenOrders.asset_pairs := fun _ => Py.Ok Samples.pair_info;
            KrakenOrders.ticker :=
              fun _ =>
                Py.Ok {| KrakenOrders.tk_b := Py.float 99.85;
                         KrakenOrders.tk_a := Py.float 100.15;
                         KrakenOrders.tk_c := 100 |};
            KrakenOrders.add_order := fun _ => Py.Ok None |}
         {| KrakenOrders.trading_mode := "dry_run";
            KrakenOrders.trading_order_type := None;
            KrakenOrders.trading_quote_notional_usd := 20;
            KrakenOrders.safety_max_spread_pct := Py.float 0.3;
            KrakenOrders.safety_max_slippage_pct := Py.float 0.5;
            KrakenOrders.safety_limit_offset_pct := Py.float 0.02 |}
         "XBTUSD" "buy" None
       = Py.Ok (od, mt)
       /\ KrakenOrders.reason od
          = "blocked: spread 0.300000% > max 0.300000%".
Proof.
  split; [vm_compute; reflexivity|].
  split; [vm_compute; reflexivity|].
  do 2 eexists. split; [vm_compute; reflexivity|]. reflexivity.
Qed.

(** A book of 0.001 / 1e14 has a spread of exactly 200 percent. *)
Example spread_of_a_wide_book :
  exists s,
    KrakenOrders._calc_spread_pct (Py.float 0.001) 100000000000000
    = Py.Ok s
    /\ s == 200.
Proof. eexists. split; [vm_compute; reflexivity|]. reflexivity. Qed.

(** An [ordermin] written with an exponent, or with blanks around it, is
    read as [float] reads it; one that is no number blocks nothing. *)
Example ordermin_as_float_reads_it :
  KrakenOrders.below_ordermin "0.00050000" (Some "1e-3") = true
  /\ KrakenOrders.below_ordermin "0.00050000" (Some " 0.001 ") = true
  /\ KrakenOrders.below_ordermin "0.00200000" (Some "1e-3") = false
  /\ KrakenOrders.below_ordermin "0.00050000" (Some "one") = false.
Proof. repeat split; vm_compute; reflexivity. Qed.

(** C6.  With a mid price [(bid + ask) / 2 <= 0] the spread function
    returns the sentinel [999], and with a reference price [<= 0] so does
    the slippage function; neither ever raises, although dividing by a
    zero mid would.  The sentinel exceeds the default thresholds, and
    whenever it exceeds a configured threshold [build_order] blocks the
    order on quotes whose mid is [<= 0]: on spread when [max_spread_pct <
    999], else on slippage when [max_slippage_pct < 999]. *)
Theorem C6_sentinel_blocks_instead_of_faulting :
  forall (bid ask ref current : Q)
         (k : KrakenOrders.KrakenClient) (cfg : KrakenOrders.Cfg)
         (pair_key sd : string) (ov : option Q)
         (pi : KrakenOrders.PairInfo) (tk : KrakenOrders.Ticker),
    ((bid + ask) / 2 <= 0 ->
     KrakenOrders._calc_spread_pct bid ask = Py.Ok 999)
    /\ (ref <= 0 -> KrakenOrders._slippage_pct ref current = Py.Ok 999)
    /\ (exists v, KrakenOrders._calc_spread_pct bid ask = Py.Ok v)
    /\ (exists v, KrakenOrders._slippage_pct ref current = Py.Ok v)
    /\ (forall a, exists e, Py.truediv a 0 = Py.Raise e)
    /\ KrakenOrders.default_max_spread_pct < 999
    /\ KrakenOrders.default_max_slippage_pct < 999
    /\ (KrakenOrders.asset_pairs k pair_key = Py.Ok pi ->
        KrakenOrders.ticker k pair_key = Py.Ok tk ->
        Checks.mid_of tk <= 0 ->
        exists od : KrakenOrders.OrderDecision,
          KrakenOrders.build_order k cfg pair_key sd ov
          = Py.Ok (od, Checks.metrics_of tk)
          /\ Checks.spread_of tk = 999
          /\ Checks.slippage_of tk = 999
          /\ (KrakenOrders.safety_max_spread_pct cfg < 999 ->
              KrakenOrders.reason od
              = ("blocked: spread 999.000000% > max "
                 ++ Py.format_f 6 (KrakenOrders.safety_max_spread_pct cfg)
                 ++ "%")%string)
          /\ (999 <= KrakenOrders.safety_max_spread_pct cfg ->
              KrakenOrders.safety_max_slippage_pct cfg < 999 ->
              KrakenOrders.reason od
              = ("blocked: slippage 999.000000% > max "
                 ++ Py.format_f 6 (KrakenOrders.safety_max_slippage_pct cfg)
                 ++ "%")%string)).
Proof.
  intros bid ask ref current k cfg pair_key sd ov pi tk.
  split; [|split; [|split; [|split; [|split; [|split; [|split]]]]]].
  - intro H. rewrite calc_spread_value. cbv zeta.
    assert (M : Py.leb (Py.fdiv (Py.fadd bid ask) 2) 0 = true).
    { apply leb_true. apply round64_nonpos.
      unfold Qdiv in *. change (/ 2) with (1 # 2) in *.
      assert (S : Py.fadd bid ask <= 0) by (apply round64_nonpos; lra).
      lra. }
    now rewrite M.
  - intro H. rewrite slippage_value.
    apply leb_true in H. now rewrite H.
  - rewrite calc_spread_value. eexists. reflexivity.
  - rewrite slippage_value. eexists. reflexivity.
  - intro a. eexists. reflexivity.
  - reflexivity.
  - reflexivity.
  - intros Hpi Htk Hmid.
    exists (Checks.decision cfg pair_key sd pi tk ov).
    split; [now apply build_order_value|].
    apply leb_true in Hmid.
    assert (S : Checks.spread_of tk = 999)
      by (unfold Checks.spread_of; now rewrite Hmid).
    assert (L : Checks.slippage_of tk = 999)
      by (unfold Checks.slippage_of; now rewrite Hmid).
    split; [exact S|]. split; [exact L|].
    unfold Checks.decision, Checks.first_failing, Checks.spread_fails,
      Checks.slippage_fails.
    rewrite S, L. split.
    + intro H. apply gtb_true in H. rewrite H. reflexivity.
    + intros H1 H2. apply gtb_false in H1. apply gtb_true in H2.
      rewrite H1, H2. reflexivity.
Qed.

Lemma C6_witness :
  KrakenOrders._calc_spread_pct (-(3)) 1 = Py.Ok 999
  /\ KrakenOrders._slippage_pct 0 50000 = Py.Ok 999
  /\ exists od : KrakenOrders.OrderDecision,
       KrakenOrders.build_order Samples.empty_exchange Samples.dry_run_cfg
         "XBTUSD" "buy" None
       = Py.Ok (od, Checks.metrics_of Samples.no_quotes)
       /\ KrakenOrders.reason od
          = "blocked: spread 999.000000% > max 0.300000%".
Proof.
  pose proof (C6_sentinel_blocks_instead_of_faulting (-(3)) 1 0 50000
                Samples.empty_exchange Samples.dry_run_cfg "XBTUSD" "buy"
                None Samples.pair_info Samples.no_quotes)
    as [H1 [H2 [_ [_ [_ [_ [_ H3]]]]]]].
  split; [apply H1; vm_compute; discriminate|].
  split; [apply H2; vm_compute; discriminate|].
  destruct (H3 eq_refl eq_refl) as [od [E [_ [_ [R _]]]]].
  - vm_compute. discriminate.
  - exists od. split; [exact E|]. apply R. reflexivity.
Defined.

(** ** Order placement and the trade counters *)

Lemma build_order_inv
    (k : KrakenOrders.KrakenClient) (cfg : KrakenOrders.Cfg)
    (pair_key sd : string) (ov : option Q)
    (od : KrakenOrders.OrderDecision) (mt : KrakenOrders.Metrics) :
  KrakenOrders.build_order k cfg pair_key sd ov = Py.Ok (od, mt) ->
  exists pi tk,
    KrakenOrders.asset_pairs k pair_key = Py.Ok pi
    /\ KrakenOrders.ticker k pair_key = Py.Ok tk
    /\ od = Checks.decision cfg pair_key sd pi tk ov.
Proof.
  intro H.
  destruct (KrakenOrders.asset_pairs k pair_key) as [pi|e] eqn:Hpi.
  - destruct (KrakenOrders.ticker k pair_key) as [tk|e] eqn:Htk.
    + exists pi, tk. repeat split.
      rewrite (build_order_value k cfg pair_key sd ov pi tk Hpi Htk) in H.
      congruence.
    + unfold KrakenOrders.build_order, KrakenOrders.resolve_pair_info,
        KrakenOrders.get_ticker in H.
      rewrite Hpi, Htk in H. discriminate H.
  - unfold KrakenOrders.build_order, KrakenOrders.resolve_pair_info in H.
    rewrite Hpi in H. discriminate H.
Qed.

Lemma decision_reason_is_ok_or_blocked
    (cfg : KrakenOrders.Cfg) (pair_key sd : string)
    (pi : KrakenOrders.PairInfo) (tk : KrakenOrders.Ticker) (ov : option Q) :
  let why := KrakenOrders.reason (Checks.decision cfg pair_key sd pi tk ov) in
  why = "ok" \/ prefix "blocked: " why = true.
Proof.
  unfold Checks.decision.
  destruct (Checks.first_failing cfg sd pi tk ov) as [[| | |]|];
    try destruct (String.eqb sd "buy");
    cbn [KrakenOrders.reason];
    first [ left; reflexivity
          | right; apply (prefix_app_app "blocked: " "spread ")
          | right; apply (prefix_app_app "blocked: " "slippage ")
          | right; apply (prefix_app_app "blocked: " "below ordermin (")
          | right; reflexivity ].
Qed.

(** C4, what the code does.  When [place_or_preview] returns a decision
    with reason "dry-run", the engine is the one [can_trade] left behind:
    [record_trade] was not called and the day's counters are those read
    by the gate, not incremented.  Only the decision "LIVE order placed"
    comes with a [record_trade] for the pair. *)
Theorem C4_dry_run_fill_is_not_recorded :
  forall (w w' : World) (k : KrakenOrders.KrakenClient)
         (cfg : KrakenOrders.Cfg) (risk risk' : RiskEngine.t)
         (pair_key sd : string) (ov : option Q)
         (od : KrakenOrders.OrderDecision) (mt : KrakenOrders.Metrics),
    KrakenOrders.place_or_preview w w' k cfg risk pair_key sd ov
    = (Py.Ok (od, mt), risk') ->
    (KrakenOrders.reason od = "dry-run" ->
     risk' = RiskEngine._roll_day_if_needed w risk
     /\ RiskEngine.trades_today risk' = effective_trades (clock_day w) risk)
    /\ (KrakenOrders.reason od = "LIVE order placed" ->
        risk' = RiskEngine.record_trade w'
                  (RiskEngine._roll_day_if_needed w risk) (Some pair_key)).
Proof.
  intros w w' k cfg risk risk' pair_key sd ov od mt.
  unfold KrakenOrders.place_or_preview.
  destruct (KrakenOrders.build_order k cfg pair_key sd ov)
    as [[od0 mt0]|e] eqn:B; [|discriminate].
  destruct (build_order_inv _ _ _ _ _ _ _ B) as [pi [tk [_ [_ D]]]].
  pose proof (decision_reason_is_ok_or_blocked cfg pair_key sd pi tk ov) as R.
  cbv zeta in R. rewrite <- D in R. clear D B.
  destruct (String.eqb (KrakenOrders.reason od0) "ok") eqn:E; cbn [negb].
  - pose proof (can_trade_state w risk (KrakenOrders.notional_usd od0)
                  (KrakenOrders.mode od0) (Some pair_key)) as S.
    destruct (RiskEngine.can_trade w risk (KrakenOrders.notional_usd od0)
                (KrakenOrders.mode od0) (Some pair_key)) as [rd r1].
    cbn [snd] in S. subst r1.
    destruct (RiskEngine.allowed rd); cbn [negb].
    + destruct (String.eqb (KrakenOrders.mode od0) "live"); cbn [negb].
      * destruct (KrakenOrders._live_latch_enabled w); cbn [negb].
        -- destruct (KrakenOrders.add_order k _) as [[err|]|e];
             [| |discriminate].
           ++ intro H; injection H as <- _ <-.
              split; intro K; discriminate K.
           ++ intro H; injection H as <- _ <-.
              split; intro K; [discriminate K | reflexivity].
        -- intro H; injection H as <- _ <-.
           split; intro K; discriminate K.
      * intro H; injection H as <- _ <-.
        split; intro K; [|discriminate K].
        split; [reflexivity | apply roll_trades_today].
    + intro H; injection H as <- _ <-.
      split; intro K; discriminate K.
  - intro H; injection H as <- _ <-.
    apply String.eqb_neq in E.
    destruct R as [R|R]; [now elim E|].
    split; intro K; rewrite K in R; discriminate R.
Qed.

Lemma C4_witness :
  exists (od : KrakenOrders.OrderDecision) (mt : KrakenOrders.Metrics)
         (risk' : RiskEngine.t),
    KrakenOrders.place_or_preview Samples.quiet Samples.quiet
      Samples.exchange Samples.dry_run_cfg Samples.engine "XBTUSD" "buy" None
    = (Py.Ok (od, mt), risk')
    /\ KrakenOrders.reason od = "dry-run"
    /\ RiskEngine.trades_today risk' = 0%Z
    /\ RiskEngine.trades_today_by_pair risk' = [].
Proof.
  destruct (KrakenOrders.place_or_preview Samples.quiet Samples.quiet
              Samples.exchange Samples.dry_run_cfg Samples.engine
              "XBTUSD" "buy" None) as [[[od mt]|e] risk'] eqn:P.
  - assert (R : KrakenOrders.reason od = "dry-run").
    { vm_compute in P. injection P as <- _ _. reflexivity. }
    exists od, mt, risk'. split; [reflexivity|]. split; [exact R|].
    destruct (proj1 (C4_dry_run_fill_is_not_recorded _ _ _ _ _ _ _ _ _ _ _ P)
                R) as [H1 H2].
    split; [rewrite H2 | rewrite H1]; reflexivity.
  - vm_compute in P. discriminate P.
Defined.

(** ** Dictionaries *)

Lemma get_set_same {V} (d : Py.dict V) (k : string) (v : V) :
  Py.get (Py.set d k v) k = Some v.
Proof.
  induction d as [|[k' v'] d IH]; simpl.
  - now rewrite String.eqb_refl.
  - destruct (String.eqb k' k) eqn:E; simpl; rewrite E; [reflexivity|exact IH].
Qed.

Lemma get_set_other {V} (d : Py.dict V) (k k0 : string) (v : V) :
  k <> k0 -> Py.get (Py.set d k v) k0 = Py.get d k0.
Proof.
  intro N. induction d as [|[k' v'] d IH]; simpl.
  - apply String.eqb_neq in N. now rewrite N.
  - destruct (String.eqb k' k) eqn:E; simpl.
    + apply String.eqb_eq in E. subst k'.
      apply String.eqb_neq in N. now rewrite N.
    + destruct (String.eqb k' k0); [reflexivity|exact IH].
Qed.

Lemma get_modify_same {V} (d : Py.dict V) (k : string) (f : V -> V) :
  Py.get (PnlAnalytics.modify d k f) k = option_map f (Py.get d k).
Proof.
  induction d as [|[k' v'] d IH]; simpl; [reflexivity|].
  destruct (String.eqb k' k) eqn:E; simpl; rewrite E; [reflexivity|exact IH].
Qed.

Lemma get_modify_other {V} (d : Py.dict V) (k k0 : string) (f : V -> V) :
  k <> k0 -> Py.get (PnlAnalytics.modify d k f) k0 = Py.get d k0.
Proof.
  intro N. induction d as [|[k' v'] d IH]; simpl; [reflexivity|].
  destruct (String.eqb k' k) eqn:E; simpl.
  - apply String.eqb_eq in E. subst k'.
    apply String.eqb_neq in N. now rewrite N.
  - destruct (String.eqb k' k0); [reflexivity|exact IH].
Qed.

(** ** PnL analytics: one trade *)






(** ** Formatting a float and reading the text back *)













Lemma scaled_nonneg (d : nat) (q : Q) : (0 <= Py.scaled d q)%Z.
Proof.
  unfold Py.scaled. apply round_half_even_nonneg.
  destruct q as [n dn]. simpl.
  assert (0 < 10 ^ Z.of_nat d)%Z by (apply Z.pow_pos_nonneg; lia).
  nia.
Qed.







Lemma round_half_even_int (y : Q) (z : Z) :
  y == inject_Z z -> Py.round_half_even y = z.
Proof.
  destruct y as [n d]. unfold Qeq, Py.round_half_even. simpl.
  intro H. rewrite Z.mul_1_r in H. subst n.
  rewrite Z.div_mul by lia. rewrite Z.mod_mul by lia. reflexivity.
Qed.

(** A non-negative whole number prints as itself. *)
Lemma printed_value_int (d : nat) (x : Q) (k : Z) :
  x == inject_Z k -> (0 <= k)%Z -> printed_value d x == inject_Z k.
Proof.
  intros H Hk. unfold printed_value.
  assert (Hp : (0 < 10 ^ Z.of_nat d)%Z) by (apply Z.pow_pos_nonneg; lia).
  assert (S : Py.scaled d x = (k * 10 ^ Z.of_nat d)%Z).
  { unfold Py.scaled. apply round_half_even_int.
    rewrite H, inject_Z_mult.
    rewrite Qabs_pos; [reflexivity|].
    unfold Qle. simpl. lia. }
  assert (L : Py.ltb x 0 = false).
  { unfold Py.ltb. apply negb_false_iff. apply Qle_bool_iff.
    rewrite H. unfold Qle. simpl. lia. }
  rewrite S, L, inject_Z_mult.
  apply Qdiv_mult_l.
  intro E. unfold Qeq in E. simpl in E. lia.
Qed.

(** ** PnL analytics: wins and losses *)

Lemma close_pnl_of_buy (st : PnlAnalytics.Loop) (t : PnlAnalytics.Trade) :
  String.eqb (PnlAnalytics.side t) "buy" = true ->
  PnlAnalytics.close_pnl st t = None.
Proof.
  intro H. apply String.eqb_eq in H. unfold PnlAnalytics.close_pnl.
  now rewrite H.
Qed.

(** What one trade does to the portfolio. *)
Lemma step_portfolio (marks : Py.dict Q) (st : PnlAnalytics.Loop)
    (t : PnlAnalytics.Trade) :
  PnlAnalytics.portfolio (PnlAnalytics.trade_step marks st t)
  = match PnlAnalytics.close_pnl st t with
    | Some pnl => PnlAnalytics.portfolio_close pnl (PnlAnalytics.portfolio st)
    | None => PnlAnalytics.portfolio st
    end.
Proof.
  unfold PnlAnalytics.trade_step.
  destruct (String.eqb (PnlAnalytics.side t) "buy") eqn:B.
  - rewrite (close_pnl_of_buy st t B).
    destruct (PnlAnalytics.may_open _ _); reflexivity.
  - unfold PnlAnalytics.close_pnl.
    destruct (String.eqb (PnlAnalytics.side t) "sell"); [|reflexivity].
    destruct (PnlAnalytics.open_lot _ _); reflexivity.
Qed.













(** C10 as stated fails for a history without a close: every close of
    it breaks even, there being none, and [wins = trades_closed], but the
    win rate of the returned document is 0 and not 1. *)
Lemma C10_counterexample :
  let pf :=
    PnlAnalytics.doc_portfolio
      (PnlAnalytics.compute_pnl Samples.quiet [Samples.buy1] []) in
  Forall (fun pnl => pnl == 0)
    (PnlAnalytics.close_pnls [] PnlAnalytics.loop_init [Samples.buy1])
  /\ PnlAnalytics.wins pf = PnlAnalytics.trades_closed pf
  /\ PnlAnalytics.win_rate pf == 0
  /\ ~ PnlAnalytics.win_rate pf == 1.
Proof.
  cbv zeta. split; [constructor|].
  split; [vm_compute; reflexivity|].
  split; [vm_compute; reflexivity|].
  vm_compute. discriminate.
Qed.

(** The round trip of the design: buy 0.001 at 50000, sell at 51000. *)
Example round_trip_document :
  let pf :=
    PnlAnalytics.doc_portfolio
      (PnlAnalytics.compute_pnl Samples.quiet
         [Samples.buy1; Samples.sell1] []) in
  PnlAnalytics.realized_pnl_usd pf == 1
  /\ PnlAnalytics.trades_closed pf = 1%Z
  /\ PnlAnalytics.wins pf = 1%Z
  /\ PnlAnalytics.win_rate pf == 1
  /\ PnlAnalytics.max_drawdown_usd pf == 0.
Proof. vm_compute. repeat split. Qed.

(** ** PnL analytics: what the document depends on *)

(** C8, as amended.  The [portfolio], [pairs] and [equity_curve_realized]
    fields of the document are functions of the trade list and the mark
    map alone: two calls on unchanged inputs return them equal, whenever
    the calls are made.  The [ts] field is the clock's second at the time
    of the call. *)
Theorem C8_document_is_determined_up_to_timestamp :
  forall (w1 w2 : World) (trades : list PnlAnalytics.Trade)
         (marks : Py.dict Q),
    let d1 := PnlAnalytics.compute_pnl w1 trades marks in
    let d2 := PnlAnalytics.compute_pnl w2 trades marks in
    PnlAnalytics.doc_portfolio d1 = PnlAnalytics.doc_portfolio d2
    /\ PnlAnalytics.doc_pairs d1 = PnlAnalytics.doc_pairs d2
    /\ PnlAnalytics.doc_equity_curve_realized d1
       = PnlAnalytics.doc_equity_curve_realized d2
    /\ PnlAnalytics.doc_ts d1 = clock_now w1
    /\ PnlAnalytics.doc_ts d2 = clock_now w2.
Proof.
  intros w1 w2 trades marks. cbv zeta. unfold PnlAnalytics.compute_pnl.
  destruct (fold_left (PnlAnalytics.unrealized_step marks) _ _) as [pp pf].
  repeat split.
Qed.

(** C8 as stated fails: the same history and marks computed a minute
    apart give documents that differ in their [ts] field. *)
Lemma C8_counterexample :
  PnlAnalytics.doc_ts
    (PnlAnalytics.compute_pnl Samples.quiet [Samples.buy1; Samples.sell1] [])
  = 1704067200%Z
  /\ PnlAnalytics.doc_ts
       (PnlAnalytics.compute_pnl Samples.later
          [Samples.buy1; Samples.sell1] [])
     = 1704067260%Z
  /\ PnlAnalytics.compute_pnl Samples.quiet [Samples.buy1; Samples.sell1] []
     <> PnlAnalytics.compute_pnl Samples.later
          [Samples.buy1; Samples.sell1] [].
Proof.
  split; [reflexivity|]. split; [reflexivity|].
  intro E. apply (f_equal PnlAnalytics.doc_ts) in E.
  vm_compute in E. discriminate E.
Qed.

(** ** The ledger document on disk *)

Lemma save_state_observable (w : World) (s : Ledger.State) (fs : Ledger.Files) :
  exists d : Ledger.Json,
    Ledger.observable fs (Ledger._save_state w s)
    = [fs;
       Ledger.put fs Ledger.STATE_PATH (Some Ledger.Truncated);
       Ledger.put (Ledger.put fs Ledger.STATE_PATH (Some Ledger.Truncated))
         Ledger.STATE_PATH (Some (Ledger.Whole d))].
Proof. eexists. reflexivity. Qed.

Lemma load_truncated (fs : Ledger.Files) :
  Ledger._load_state
    (Ledger.put fs Ledger.STATE_PATH (Some Ledger.Truncated))
  = Py.Raise "JSONDecodeError".
Proof. reflexivity. Qed.

(** C9, what the code does.  [set_position], [clear_position] and
    [set_cooldown] all write through [_save_state], which opens the
    canonical path itself for writing and dumps into it; no temporary
    file and no rename is involved.  Between the two calls another
    process sees the canonical file truncated, where [_load_state] fails:
    neither the previous nor the new document.  [write_bot_status], by
    contrast, dumps to a temporary path and renames: a reader of its
    canonical path only ever sees the previous or the new content. *)
Theorem C9_ledger_is_rewritten_in_place :
  forall (w : World) (fs : Ledger.Files) (p : string) (v px : Q) (secs : Z)
         (status : Py.dict string),
    (forall ops,
        (Ledger.set_position w fs p v px = Py.Ok ops
         \/ Ledger.clear_position w fs p = Py.Ok ops
         \/ exists until, Ledger.set_cooldown w fs p secs = Py.Ok (ops, until)) ->
        Forall (fun op => match op with
                          | Ledger.Replace _ _ => False
                          | _ => True
                          end) ops
        /\ exists seen : Ledger.Files,
             In seen (Ledger.observable fs ops)
             /\ seen Ledger.STATE_PATH = Some Ledger.Truncated
             /\ Ledger._load_state seen = Py.Raise "JSONDecodeError")
    /\ (forall seen : Ledger.Files,
           In seen (Ledger.observable fs (Ledger.write_bot_status status)) ->
           Ledger.old_or_new (fs Ledger.BOT_STATUS_PATH)
             (Some (Ledger.Whole (Ledger.JStatus status)))
             (seen Ledger.BOT_STATUS_PATH)).
Proof.
  intros w fs p v px secs status. split.
  - intros ops H.
    assert (S : exists s, ops = Ledger._save_state w s).
    { destruct H as [H|[H|[until H]]];
        unfold Ledger.set_position, Ledger.clear_position,
          Ledger.set_cooldown in H;
        destruct (Ledger._load_state fs) as [s|e]; cbn [Py.bind] in H;
        try discriminate H; injection H as <-; eexists; reflexivity. }
    destruct S as [s ->]. split.
    + repeat constructor.
    + exists (Ledger.put fs Ledger.STATE_PATH (Some Ledger.Truncated)).
      split; [|split; reflexivity].
      destruct (save_state_observable w s fs) as [d ->].
      right. left. reflexivity.
  - intros seen H. unfold Ledger.old_or_new.
    cbn in H. destruct H as [<-|[<-|[<-|[<-|[]]]]].
    + left. reflexivity.
    + left. reflexivity.
    + left. reflexivity.
    + right. reflexivity.
Qed.

Lemma C9_witness :
  exists (ops : list Ledger.FsOp) (seen : Ledger.Files),
    Ledger.set_position Samples.quiet Samples.disk "XBTUSD" 0.001 50000
    = Py.Ok ops
    /\ In seen (Ledger.observable Samples.disk ops)
    /\ Ledger._load_state Samples.disk = Py.Ok Samples.ledger_doc
    /\ Ledger._load_state seen = Py.Raise "JSONDecodeError".
Proof.
  destruct (Ledger.set_position Samples.quiet Samples.disk "XBTUSD"
              0.001 50000) as [ops|e] eqn:E; [|discriminate E].
  destruct (proj1 (C9_ledger_is_rewritten_in_place Samples.quiet Samples.disk
                     "XBTUSD" 0.001 50000 0 []) ops (or_introl E))
    as [_ [seen [I [_ L]]]].
  exists ops, seen. repeat split; assumption || reflexivity.
Defined.

(* ================================================================= *)
(** * Further properties of the risk engine *)

Lemma roll_by_pair (w : World) (e : RiskEngine.t) (k : string) :
  Py.get_default
    (RiskEngine.trades_today_by_pair (RiskEngine._roll_day_if_needed w e))
    k 0%Z
  = effective_pair_trades (clock_day w) e k.
Proof.
  unfold RiskEngine._roll_day_if_needed, effective_pair_trades,
    RiskEngine._utc_day_key.
  destruct (String.eqb (clock_day w) (RiskEngine.day_key e)); reflexivity.
Qed.

Lemma truthy_nonempty (p : option string) (k : string) :
  Py.truthy_str p = Some k -> p = Some k /\ k <> "".
Proof.
  destruct p as [[|c s]|]; simpl; intro H; try discriminate.
  injection H as <-. split; [reflexivity | discriminate].
Qed.

(** The gate allows a trade exactly when the kill switch is off, nothing
    pauses the engine, the notional is within the per-trade cap, and the
    day's global count and the pair's count are both below their caps. *)
Theorem can_trade_allows_iff :
  forall (w : World) (e : RiskEngine.t) (n : Q) (m : string)
         (p : option string),
    RiskEngine.allowed (fst (RiskEngine.can_trade w e n m p)) = true
    <-> path_exists w (RiskEngine.kill_file e) = false
        /\ RiskEngine.paused w e = false
        /\ n <= RiskEngine.max_notional_usd_per_trade e
        /\ (effective_trades (clock_day w) e
            < RiskEngine.max_trades_per_day e)%Z
        /\ (forall k, Py.truthy_str p = Some k ->
                      (effective_pair_trades (clock_day w) e k
                       < RiskEngine.max_trades_per_day_per_pair e)%Z).
Proof.
  intros w e n m p.
  unfold RiskEngine.can_trade, RiskEngine.kill_switch_active.
  destruct (roll_config w e) as [Hk [Hp [Hn [Hm Hpp]]]].
  assert (P : RiskEngine.paused w (RiskEngine._roll_day_if_needed w e)
              = RiskEngine.paused w e).
  { unfold RiskEngine.paused. now rewrite Hp, roll_pause_reason. }
  rewrite Hk, P, Hn, Hm, Hpp, roll_trades_today.
  destruct (path_exists w (RiskEngine.kill_file e));
    [split; [discriminate | intros [H _]; discriminate H]|].
  destruct (RiskEngine.paused w e);
    [split; [discriminate | intros [_ [H _]]; discriminate H]|].
  destruct (Py.gtb n (RiskEngine.max_notional_usd_per_trade e)) eqn:G.
  { split; [discriminate|]. intros [_ [_ [H _]]].
    apply gtb_true in G. exfalso. exact (Qlt_not_le _ _ G H). }
  apply gtb_false in G.
  destruct (RiskEngine.max_trades_per_day e
            <=? effective_trades (clock_day w) e)%Z eqn:T.
  { split; [discriminate|]. intros [_ [_ [_ [H _]]]].
    apply Z.leb_le in T. lia. }
  apply Z.leb_gt in T.
  destruct (Py.truthy_str p) as [k|] eqn:K.
  - rewrite roll_by_pair.
    destruct (RiskEngine.max_trades_per_day_per_pair e
              <=? effective_pair_trades (clock_day w) e k)%Z eqn:U.
    + split; [discriminate|]. intros [_ [_ [_ [_ H]]]].
      specialize (H k eq_refl). apply Z.leb_le in U. lia.
    + apply Z.leb_gt in U. split; [|reflexivity]. intros _.
      repeat split; try assumption.
      intros k' E. injection E as <-. exact U.
  - split; [|reflexivity]. intros _.
    repeat split; try assumption. intros k' E. discriminate E.
Qed.

(** An answer of the gate does not depend on the questions asked before
    it in the same world: [can_trade] changes the engine only by the day
    roll-over, which a second call finds already done. *)
Theorem can_trade_asks_without_consuming :
  forall (w : World) (e : RiskEngine.t) (n n' : Q) (m m' : string)
         (p p' : option string),
    RiskEngine.can_trade w (snd (RiskEngine.can_trade w e n' m' p')) n m p
    = RiskEngine.can_trade w e n m p
    /\ (RiskEngine.day_key e = clock_day w ->
        snd (RiskEngine.can_trade w e n m p) = e).
Proof.
  intros w e n n' m m' p p'. split.
  - rewrite can_trade_state. unfold RiskEngine.can_trade.
    now rewrite roll_idempotent.
  - intro H. rewrite can_trade_state.
    unfold RiskEngine._roll_day_if_needed, RiskEngine._utc_day_key.
    now rewrite H, String.eqb_refl.
Qed.

Lemma can_trade_asks_without_consuming_witness :
  snd (RiskEngine.can_trade Samples.quiet
         (RiskEngine.run Samples.engine Samples.three_trades)
         5 "live" (Some "XBTUSD"))
  = RiskEngine.run Samples.engine Samples.three_trades.
Proof.
  apply (proj2 (can_trade_asks_without_consuming Samples.quiet
                  (RiskEngine.run Samples.engine Samples.three_trades)
                  5 5 "live" "live" (Some "XBTUSD") None)).
  reflexivity.
Defined.

Lemma get_default_set {V} (d : Py.dict V) (p k : string) (v dflt : V) :
  Py.get_default (Py.set d p v) k dflt
  = if String.eqb p k then v else Py.get_default d k dflt.
Proof.
  unfold Py.get_default. destruct (String.eqb p k) eqn:E.
  - apply String.eqb_eq in E. subst k. now rewrite get_set_same.
  - apply String.eqb_neq in E. now rewrite (get_set_other d p k v E).
Qed.

Lemma record_trade_by_pair (w : World) (e : RiskEngine.t)
    (p : option string) (k : string) :
  Py.get_default
    (RiskEngine.trades_today_by_pair (RiskEngine.record_trade w e p)) k 0%Z
  = (effective_pair_trades (clock_day w) e k
     + if records_pair k (w, RiskEngine.RecordTrade p) then 1 else 0)%Z.
Proof.
  unfold RiskEngine.record_trade, records_pair. cbn [snd].
  destruct (Py.truthy_str p) as [q|]; cbn.
  - rewrite get_default_set, !roll_by_pair.
    destruct (String.eqb q k) eqn:E; [|lia].
    apply String.eqb_eq in E. now subst q.
  - rewrite roll_by_pair. lia.
Qed.

(** [record_trade] adds one to the day's global count; it adds one to the
    count of the pair it is given and to no other pair's, and to no
    pair's at all when the pair is [None] or empty. *)
Theorem record_trade_counts_one :
  forall (w : World) (e : RiskEngine.t) (p : option string) (k : string),
    let e' := RiskEngine.record_trade w e p in
    RiskEngine.day_key e' = clock_day w
    /\ RiskEngine.trades_today e'
       = (effective_trades (clock_day w) e + 1)%Z
    /\ (p = Some k -> k <> "" ->
        effective_pair_trades (clock_day w) e' k
        = (effective_pair_trades (clock_day w) e k + 1)%Z)
    /\ (p <> Some k ->
        effective_pair_trades (clock_day w) e' k
        = effective_pair_trades (clock_day w) e k)
    /\ (p = None \/ p = Some "" ->
        RiskEngine.trades_today_by_pair e'
        = RiskEngine.trades_today_by_pair
            (RiskEngine._roll_day_if_needed w e)).
Proof.
  intros w e p k e'. subst e'.
  destruct (record_trade_counters w e p) as [T D].
  assert (E : forall q,
             effective_pair_trades (clock_day w)
               (RiskEngine.record_trade w e p) q
             = (effective_pair_trades (clock_day w) e q
                + if records_pair q (w, RiskEngine.RecordTrade p)
                  then 1 else 0)%Z).
  { intro q. unfold effective_pair_trades at 1.
    rewrite D, String.eqb_refl. apply record_trade_by_pair. }
  split; [exact D|]. split; [exact T|]. split; [|split].
  - intros -> N. rewrite E. unfold records_pair. cbn [snd].
    destruct k as [|c s]; [now elim N|]. cbn [Py.truthy_str].
    now rewrite String.eqb_refl.
  - intro N. rewrite E. unfold records_pair. cbn [snd].
    destruct (Py.truthy_str p) as [q|] eqn:Q; [|lia].
    destruct (truthy_nonempty p q Q) as [-> _].
    destruct (String.eqb q k) eqn:B; [|lia].
    apply String.eqb_eq in B. subst q. now elim N.
  - intros [->| ->]; reflexivity.
Qed.

Lemma record_trade_counts_one_witness :
  effective_pair_trades "2024-01-01"
    (RiskEngine.record_trade Samples.quiet Samples.engine (Some "XBTUSD"))
    "XBTUSD" = 1%Z
  /\ effective_pair_trades "2024-01-01"
       (RiskEngine.record_trade Samples.quiet Samples.engine (Some "XBTUSD"))
       "ETHUSD" = 0%Z.
Proof.
  pose proof (record_trade_counts_one Samples.quiet Samples.engine
                (Some "XBTUSD") "XBTUSD") as [_ [_ [H _]]].
  pose proof (record_trade_counts_one Samples.quiet Samples.engine
                (Some "XBTUSD") "ETHUSD") as [_ [_ [_ [K _]]]].
  split.
  - exact (H eq_refl ltac:(discriminate)).
  - apply K. discriminate.
Defined.

Lemma step_effective_pair (day k : string) (e : RiskEngine.t)
    (wc : World * RiskEngine.call) :
  clock_day (fst wc) = day ->
  effective_pair_trades day (RiskEngine.step e wc) k
  = (effective_pair_trades day e k
     + if records_pair k wc then 1 else 0)%Z.
Proof.
  destruct wc as [w c]. cbn [fst]. intros <-.
  destruct c as [n m p|p|r dd]; cbn [RiskEngine.step].
  - rewrite can_trade_state. unfold records_pair. cbn [snd].
    unfold effective_pair_trades at 1.
    rewrite roll_day_key, String.eqb_refl, roll_by_pair. lia.
  - destruct (record_trade_counters w e p) as [_ D].
    unfold effective_pair_trades at 1.
    rewrite D, String.eqb_refl. apply record_trade_by_pair.
  - unfold records_pair. cbn [snd].
    destruct (update_counters w e r dd) as [_ [D _]]. cbv zeta in D.
    unfold effective_pair_trades. rewrite D.
    replace (RiskEngine.trades_today_by_pair
               (fst (RiskEngine.update_portfolio_metrics w e r dd)))
      with (RiskEngine.trades_today_by_pair e); [lia|].
    unfold RiskEngine.update_portfolio_metrics, RiskEngine._touch_pause.
    cbn. destruct (_ && _); [|destruct (_ && _)]; reflexivity.
Qed.

Lemma run_effective_pair (day k : string)
    (h : list (World * RiskEngine.call)) :
  forall e,
    Forall (fun wc => clock_day (fst wc) = day) h ->
    effective_pair_trades day (RiskEngine.run e h) k
    = (effective_pair_trades day e k + recorded_for k h)%Z.
Proof.
  unfold RiskEngine.run, recorded_for.
  induction h as [|wc h IH]; intros e F.
  - cbn. lia.
  - pose proof (Forall_inv F) as Hwc. pose proof (Forall_inv_tail F) as Hh.
    cbn [fold_left filter].
    rewrite (IH _ Hh), (step_effective_pair day k e wc Hwc).
    destruct (records_pair k wc); cbn [List.length]; lia.
Qed.

Lemma step_pair_nonneg (e : RiskEngine.t) (wc : World * RiskEngine.call) :
  (forall k, 0 <= Py.get_default (RiskEngine.trades_today_by_pair e) k 0)%Z ->
  (forall k,
      0 <= Py.get_default
             (RiskEngine.trades_today_by_pair (RiskEngine.step e wc)) k 0)%Z.
Proof.
  intros H k.
  assert (E : forall d q, (0 <= effective_pair_trades d e q)%Z).
  { intros d q. unfold effective_pair_trades.
    destruct (String.eqb _ _); [apply H | lia]. }
  pose proof (step_effective_pair (clock_day (fst wc)) k e wc eq_refl) as S.
  destruct wc as [w c]. cbn [fst] in S.
  destruct c as [n m p|p|r dd]; cbn [RiskEngine.step] in *.
  - rewrite can_trade_state, roll_by_pair. apply E.
  - rewrite record_trade_by_pair. specialize (E (clock_day w) k).
    destruct (records_pair _ _); lia.
  - replace (RiskEngine.trades_today_by_pair
               (fst (RiskEngine.update_portfolio_metrics w e r dd)))
      with (RiskEngine.trades_today_by_pair e); [apply H|].
    unfold RiskEngine.update_portfolio_metrics, RiskEngine._touch_pause.
    cbn. destruct (_ && _); [|destruct (_ && _)]; reflexivity.
Qed.

Lemma run_pair_nonneg (h : list (World * RiskEngine.call)) :
  forall e,
    (forall k, 0 <= Py.get_default (RiskEngine.trades_today_by_pair e) k 0)%Z ->
    (forall k,
        0 <= Py.get_default
               (RiskEngine.trades_today_by_pair (RiskEngine.run e h)) k 0)%Z.
Proof.
  unfold RiskEngine.run.
  induction h as [|wc h IH]; cbn [fold_left]; intros e H; [exact H|].
  apply IH. now apply step_pair_nonneg.
Qed.

Lemma run_max_per_pair (h : list (World * RiskEngine.call)) :
  forall e, RiskEngine.max_trades_per_day_per_pair (RiskEngine.run e h)
            = RiskEngine.max_trades_per_day_per_pair e.
Proof.
  unfold RiskEngine.run.
  induction h as [|wc h IH]; cbn [fold_left]; intro e; [reflexivity|].
  rewrite IH. destruct wc as [w c].
  destruct c as [n m p|p|r dd]; cbn [RiskEngine.step].
  - rewrite can_trade_state. apply (roll_config w e).
  - unfold RiskEngine.record_trade.
    destruct (Py.truthy_str p); cbn; apply (roll_config w e).
  - unfold RiskEngine.update_portfolio_metrics, RiskEngine._touch_pause.
    cbn. destruct (_ && _); [|destruct (_ && _)]; reflexivity.
Qed.

(** The per-pair quota.  For an engine built by [__init__] and driven by
    any earlier history: once the calls of one UTC day contain at least
    [max_trades_per_day_per_pair] calls of [record_trade] for a pair,
    [can_trade] denies that pair for the rest of the day. *)
Theorem per_pair_cap_denies :
  forall (w0 : World) (cfg : RiskEngine.Cfg)
         (pre : list (World * RiskEngine.call)) (day k : string)
         (h : list (World * RiskEngine.call))
         (w : World) (n : Q) (m : string),
    let e := RiskEngine.run (RiskEngine.__init__ w0 cfg) pre in
    k <> "" ->
    Forall (fun wc => clock_day (fst wc) = day) h ->
    clock_day w = day ->
    (RiskEngine.max_trades_per_day_per_pair e <= recorded_for k h)%Z ->
    RiskEngine.allowed
      (fst (RiskEngine.can_trade w (RiskEngine.run e h) n m (Some k))) = false.
Proof.
  intros w0 cfg pre day k h w n m e Hk F Hw Hcap.
  destruct (RiskEngine.allowed _) eqn:A; [|reflexivity].
  apply can_trade_allows_iff in A.
  destruct A as [_ [_ [_ [_ A]]]].
  assert (T : Py.truthy_str (Some k) = Some k)
    by (destruct k; [now elim Hk | reflexivity]).
  specialize (A k T).
  rewrite run_max_per_pair, Hw, (run_effective_pair day k h e F) in A.
  assert (0 <= effective_pair_trades day e k)%Z.
  { unfold effective_pair_trades. destruct (String.eqb _ _); [|lia].
    apply run_pair_nonneg. intro q. cbn. lia. }
  lia.
Qed.

Lemma per_pair_cap_denies_witness :
  RiskEngine.allowed
    (fst (RiskEngine.can_trade Samples.quiet
            (RiskEngine.run
               (RiskEngine.run
                  (RiskEngine.__init__ Samples.quiet Samples.pair_cap_cfg) [])
               Samples.three_trades)
            5 "live" (Some "XBTUSD"))) = false
  /\ RiskEngine.allowed
       (fst (RiskEngine.can_trade Samples.quiet
               (RiskEngine.run
                  (RiskEngine.__init__ Samples.quiet Samples.pair_cap_cfg)
                  Samples.three_trades)
               5 "live" (Some "ETHUSD"))) = true.
Proof.
  split; [|vm_compute; reflexivity].
  apply (per_pair_cap_denies Samples.quiet Samples.pair_cap_cfg []
           "2024-01-01" "XBTUSD" Samples.three_trades Samples.quiet 5 "live").
  - discriminate.
  - repeat constructor.
  - reflexivity.
  - vm_compute. discriminate.
Defined.

Lemma step_limits (e : RiskEngine.t) (wc : World * RiskEngine.call) :
  RiskEngine.max_daily_loss_usd (RiskEngine.step e wc)
  = RiskEngine.max_daily_loss_usd e
  /\ RiskEngine.max_drawdown_usd (RiskEngine.step e wc)
     = RiskEngine.max_drawdown_usd e.
Proof.
  destruct wc as [w c]. destruct c as [n m p|p|r dd]; cbn [RiskEngine.step].
  - rewrite can_trade_state. unfold RiskEngine._roll_day_if_needed.
    destruct (negb _); split; reflexivity.
  - unfold RiskEngine.record_trade, RiskEngine._roll_day_if_needed.
    destruct (Py.truthy_str p); destruct (negb _); split; reflexivity.
  - unfold RiskEngine.update_portfolio_metrics, RiskEngine._touch_pause.
    cbn. destruct (_ && _); [|destruct (_ && _)]; split; reflexivity.
Qed.

Lemma update_without_limits (w : World) (e : RiskEngine.t) (r dd : Q) :
  RiskEngine.max_daily_loss_usd e <= 0 ->
  RiskEngine.max_drawdown_usd e <= 0 ->
  RiskEngine.update_portfolio_metrics w e r dd
  = (RiskEngine.set_metrics e r dd, w).
Proof.
  intros H1 H2. unfold RiskEngine.update_portfolio_metrics. cbn.
  apply gtb_false in H1. apply gtb_false in H2.
  now rewrite H1, H2.
Qed.

(** Breakers that are not configured never fire.  With [max_daily_loss_usd
    <= 0] and [max_drawdown_usd <= 0] (the defaults), a metrics update only
    stores the two numbers and writes no file; and an engine built with
    such limits has no pause reason of its own after any history of
    calls, however bad the numbers it was fed. *)
Theorem unset_breakers_never_pause :
  forall (w0 : World) (cfg : RiskEngine.Cfg)
         (h : list (World * RiskEngine.call)) (w : World) (r dd : Q),
    let e0 := RiskEngine.__init__ w0 cfg in
    RiskEngine.max_daily_loss_usd e0 <= 0 ->
    RiskEngine.max_drawdown_usd e0 <= 0 ->
    let e := RiskEngine.run e0 h in
    RiskEngine.pause_reason e = None
    /\ RiskEngine.update_portfolio_metrics w e r dd
       = (RiskEngine.set_metrics e r dd, w)
    /\ RiskEngine.paused w e = path_exists w (RiskEngine.pause_file e).
Proof.
  intros w0 cfg h w r dd e0 H1 H2 e.
  assert (I : forall e1 : RiskEngine.t,
             RiskEngine.max_daily_loss_usd e1 <= 0 ->
             RiskEngine.max_drawdown_usd e1 <= 0 ->
             RiskEngine.pause_reason e1 = None ->
             RiskEngine.max_daily_loss_usd (RiskEngine.run e1 h) <= 0
             /\ RiskEngine.max_drawdown_usd (RiskEngine.run e1 h) <= 0
             /\ RiskEngine.pause_reason (RiskEngine.run e1 h) = None).
  { unfold RiskEngine.run. clear.
    induction h as [|wc h IH]; cbn [fold_left]; intros e1 A B C;
      [repeat split; assumption|].
    destruct (step_limits e1 wc) as [L D].
    apply IH; [rewrite L; exact A | rewrite D; exact B |].
    destruct wc as [w c]. destruct c as [n m p|p|r dd]; cbn [RiskEngine.step].
    - now rewrite can_trade_state, roll_pause_reason.
    - now rewrite record_trade_pause_reason.
    - now rewrite (update_without_limits w e1 r dd A B). }
  destruct (I e0 H1 H2 eq_refl) as [A [B C]]. fold e in A, B, C.
  split; [exact C|]. split; [now apply update_without_limits|].
  unfold RiskEngine.paused. rewrite C. apply orb_false_r.
Qed.

Lemma unset_breakers_never_pause_witness :
  RiskEngine.update_portfolio_metrics Samples.quiet
    (RiskEngine.run Samples.engine Samples.three_trades) (-(1000000)) 1000000
  = (RiskEngine.set_metrics
       (RiskEngine.run Samples.engine Samples.three_trades)
       (-(1000000)) 1000000,
     Samples.quiet).
Proof.
  apply (unset_breakers_never_pause Samples.quiet Samples.no_cfg
           Samples.three_trades Samples.quiet (-(1000000)) 1000000);
    vm_compute; discriminate.
Defined.

(** A tripped breaker outlives the process when the pause file can be
    written: the update leaves the pause file in place, and an engine
    built afresh on the same pause file denies every trade with the
    "pause file present" reason (the kill switch being off).  When the
    file cannot be written the update changes nothing outside the
    engine. *)
Theorem tripped_pause_file_outlives_engine :
  forall (w : World) (e : RiskEngine.t) (r dd : Q) (cfg2 : RiskEngine.Cfg)
         (n : Q) (m : string) (p : option string),
    RiskEngine.loss_breaker_hit e r \/ RiskEngine.drawdown_breaker_hit e dd ->
    let w' := snd (RiskEngine.update_portfolio_metrics w e r dd) in
    let fresh := RiskEngine.__init__ w' cfg2 in
    (path_writable w (RiskEngine.pause_file e) = false -> w' = w)
    /\ (path_writable w (RiskEngine.pause_file e) = true ->
        RiskEngine.pause_file fresh = RiskEngine.pause_file e ->
        path_exists w' (RiskEngine.kill_file fresh) = false ->
        path_exists w' (RiskEngine.pause_file e) = true
        /\ fst (RiskEngine.can_trade w' fresh n m p)
           = {| RiskEngine.allowed := false;
                RiskEngine.reason :=
                  ("paused: pause file present: "
                   ++ RiskEngine.pause_file e)%string |}).
Proof.
  intros w e r dd cfg2 n m p H w' fresh.
  assert (W : w' = if path_writable w (RiskEngine.pause_file e)
                   then touch w (RiskEngine.pause_file e) else w).
  { subst w'. unfold RiskEngine.update_portfolio_metrics,
      RiskEngine._touch_pause. cbn.
    destruct (Py.gtb (RiskEngine.max_daily_loss_usd e) 0
              && Py.leb r (- RiskEngine.max_daily_loss_usd e)) eqn:E1;
      [reflexivity|].
    destruct (Py.gtb (RiskEngine.max_drawdown_usd e) 0
              && Py.geb dd (RiskEngine.max_drawdown_usd e)) eqn:E2;
      [reflexivity|].
    exfalso. destruct H as [[H1 H2]|[H1 H2]].
    - apply gtb_true in H1. apply leb_true in H2.
      rewrite H1, H2 in E1. discriminate.
    - apply gtb_true in H1. apply geb_true in H2.
      rewrite H1, H2 in E2. discriminate. }
  split.
  - intro N. now rewrite W, N.
  - intros Y Hp Hk.
    assert (X : path_exists w' (RiskEngine.pause_file e) = true).
    { rewrite W, Y. cbn. now rewrite String.eqb_refl. }
    split; [exact X|].
    unfold RiskEngine.can_trade, RiskEngine.kill_switch_active.
    destruct (roll_config w' fresh) as [Rk [Rp _]].
    rewrite Rk, Hk.
    unfold RiskEngine.paused, RiskEngine.get_pause_reason.
    rewrite Rp, roll_pause_reason, Hp, X.
    reflexivity.
Qed.

Lemma tripped_pause_file_outlives_engine_witness :
  fst (RiskEngine.can_trade
         (snd (RiskEngine.update_portfolio_metrics Samples.quiet
                 Samples.engine_loss100 (-(101)) 0))
         (RiskEngine.__init__
            (snd (RiskEngine.update_portfolio_metrics Samples.quiet
                    Samples.engine_loss100 (-(101)) 0))
            Samples.no_cfg)
         5 "dry_run" (Some "XBTUSD"))
  = {| RiskEngine.allowed := false;
       RiskEngine.reason :=
         "paused: pause file present: /run/trading/PAUSE" |}.
Proof.
  assert (H : RiskEngine.loss_breaker_hit Samples.engine_loss100 (-(101))).
  { split; vm_compute; [reflexivity | discriminate]. }
  apply (proj2 (tripped_pause_file_outlives_engine Samples.quiet
                  Samples.engine_loss100 (-(101)) 0 Samples.no_cfg
                  5 "dry_run" (Some "XBTUSD") (or_introl H)));
    reflexivity.
Defined.

(* ================================================================= *)
(** * Further properties of order building and placement *)

(** A failure of either exchange call comes out of [build_order] and of
    [place_or_preview] as the same exception, and the risk engine is not
    touched: the gate is not even consulted. *)
Theorem exchange_failure_propagates :
  forall (w w' : World) (k : KrakenOrders.KrakenClient)
         (cfg : KrakenOrders.Cfg) (risk : RiskEngine.t)
         (pair_key sd : string) (ov : option Q) (exn : string),
    KrakenOrders.asset_pairs k pair_key = Py.Raise exn
    \/ ((exists pi, KrakenOrders.asset_pairs k pair_key = Py.Ok pi)
        /\ KrakenOrders.ticker k pair_key = Py.Raise exn) ->
    KrakenOrders.build_order k cfg pair_key sd ov = Py.Raise exn
    /\ KrakenOrders.place_or_preview w w' k cfg risk pair_key sd ov
       = (Py.Raise exn, risk).
Proof.
  intros w w' k cfg risk pair_key sd ov exn H.
  assert (B : KrakenOrders.build_order k cfg pair_key sd ov = Py.Raise exn).
  { unfold KrakenOrders.build_order, KrakenOrders.resolve_pair_info,
      KrakenOrders.get_ticker.
    destruct H as [H|[[pi H1] H2]].
    - now rewrite H.
    - now rewrite H1, H2. }
  split; [exact B|].
  unfold KrakenOrders.place_or_preview. now rewrite B.
Qed.

Lemma exchange_failure_propagates_witness :
  KrakenOrders.place_or_preview Samples.quiet Samples.quiet
    Samples.down_exchange Samples.live_cfg Samples.engine "XBTUSD" "buy" None
  = (Py.Raise "Ticker error: EService:Unavailable", Samples.engine).
Proof.
  apply (exchange_failure_propagates Samples.quiet Samples.quiet
           Samples.down_exchange Samples.live_cfg Samples.engine
           "XBTUSD" "buy" None).
  right. split; [eexists|]; reflexivity.
Defined.

Lemma decision_fields
    (cfg : KrakenOrders.Cfg) (pair_key sd : string)
    (pi : KrakenOrders.PairInfo) (tk : KrakenOrders.Ticker) (ov : option Q) :
  let od := Checks.decision cfg pair_key sd pi tk ov in
  KrakenOrders.mode od = KrakenOrders.trading_mode cfg
  /\ KrakenOrders.pair od = pair_key
  /\ KrakenOrders.side od = sd.
Proof.
  unfold Checks.decision.
  destruct (Checks.first_failing cfg sd pi tk ov) as [[| | |]|];
    try destruct (String.eqb sd "buy"); repeat split.
Qed.

Lemma build_order_ignores_add_order
    (k : KrakenOrders.KrakenClient)
    (f : KrakenOrders.Payload -> Py.result (option string))
    (cfg : KrakenOrders.Cfg) (pair_key sd : string) (ov : option Q) :
  KrakenOrders.build_order (with_add_order k f) cfg pair_key sd ov
  = KrakenOrders.build_order k cfg pair_key sd ov.
Proof. reflexivity. Qed.

Lemma add_order_not_consulted :
  forall (w w' : World) (k : KrakenOrders.KrakenClient)
         (f : KrakenOrders.Payload -> Py.result (option string))
         (cfg : KrakenOrders.Cfg) (risk : RiskEngine.t)
         (pair_key sd : string) (ov : option Q),
    KrakenOrders.trading_mode cfg <> "live"
    \/ path_exists w "/run/trading/ENABLE_LIVE_TRADING" = false ->
    KrakenOrders.place_or_preview w w' (with_add_order k f) cfg risk
      pair_key sd ov
    = KrakenOrders.place_or_preview w w' k cfg risk pair_key sd ov.
Proof.
  intros w w' k f cfg risk pair_key sd ov H.
  unfold KrakenOrders.place_or_preview.
  rewrite build_order_ignores_add_order.
  destruct (KrakenOrders.build_order k cfg pair_key sd ov)
    as [[od mt]|e] eqn:B; [|reflexivity].
  destruct (build_order_inv _ _ _ _ _ _ _ B) as [pi [tk [_ [_ D]]]].
  pose proof (decision_fields cfg pair_key sd pi tk ov) as [M _].
  rewrite <- D in M.
  destruct (negb (String.eqb (KrakenOrders.reason od) "ok")); [reflexivity|].
  destruct (RiskEngine.can_trade w risk _ _ _) as [rd r1].
  destruct (negb (RiskEngine.allowed rd)); [reflexivity|].
  destruct (String.eqb (KrakenOrders.mode od) "live") eqn:L; cbn [negb];
    [|reflexivity].
  unfold KrakenOrders._live_latch_enabled.
  destruct H as [H|H].
  - apply String.eqb_eq in L. rewrite M in L. now elim H.
  - rewrite H. reflexivity.
Qed.

(** No order reaches the exchange unless the configured mode is exactly
    "live" and the live latch file exists: otherwise the outcome of
    [place_or_preview] is the same whatever the [AddOrder] endpoint would
    have answered. *)
Theorem no_order_without_live_mode_and_latch :
  forall (w w' : World) (k : KrakenOrders.KrakenClient)
         (f : KrakenOrders.Payload -> Py.result (option string))
         (cfg : KrakenOrders.Cfg) (risk : RiskEngine.t)
         (pair_key sd : string) (ov : option Q),
    KrakenOrders.trading_mode cfg <> "live"
    \/ path_exists w "/run/trading/ENABLE_LIVE_TRADING" = false ->
    KrakenOrders.place_or_preview w w' (with_add_order k f) cfg risk
      pair_key sd ov
    = KrakenOrders.place_or_preview w w' k cfg risk pair_key sd ov.
Proof.
  intros w w' k f cfg risk pair_key sd ov H.
  now apply add_order_not_consulted.
Qed.

Lemma no_order_without_live_mode_and_latch_witness :
  KrakenOrders.place_or_preview Samples.quiet Samples.quiet
    (with_add_order Samples.exchange (fun _ => Py.Raise "never called"))
    Samples.live_cfg Samples.engine "XBTUSD" "buy" None
  = KrakenOrders.place_or_preview Samples.quiet Samples.quiet
      Samples.exchange Samples.live_cfg Samples.engine "XBTUSD" "buy" None.
Proof.
  apply no_order_without_live_mode_and_latch. right. reflexivity.
Defined.

(** What stands behind "LIVE order placed": the configured mode is
    "live", every check of [build_order] passed, the gate allowed the
    notional for the pair, the latch file exists, and the exchange accepted
    the very order the decision describes.  The engine then counts one
    trade for the pair. *)
Theorem live_order_placed_means :
  forall (w w' : World) (k : KrakenOrders.KrakenClient)
         (cfg : KrakenOrders.Cfg) (risk risk' : RiskEngine.t)
         (pair_key sd : string) (ov : option Q)
         (od : KrakenOrders.OrderDecision) (mt : KrakenOrders.Metrics),
    KrakenOrders.place_or_preview w w' k cfg risk pair_key sd ov
    = (Py.Ok (od, mt), risk') ->
    KrakenOrders.reason od = "LIVE order placed" ->
    exists (pi : KrakenOrders.PairInfo) (tk : KrakenOrders.Ticker),
      KrakenOrders.asset_pairs k pair_key = Py.Ok pi
      /\ KrakenOrders.ticker k pair_key = Py.Ok tk
      /\ Checks.first_failing cfg sd pi tk ov = None
      /\ od = KrakenOrders.set_reason
                (Checks.decision cfg pair_key sd pi tk ov) "LIVE order placed"
      /\ KrakenOrders.trading_mode cfg = "live"
      /\ path_exists w "/run/trading/ENABLE_LIVE_TRADING" = true
      /\ RiskEngine.allowed
           (fst (RiskEngine.can_trade w risk (KrakenOrders.notional_usd od)
                   "live" (Some pair_key))) = true
      /\ KrakenOrders.add_order k (payload_of od) = Py.Ok None
      /\ risk' = RiskEngine.record_trade w'
                   (RiskEngine._roll_day_if_needed w risk) (Some pair_key).
Proof.
  intros w w' k cfg risk risk' pair_key sd ov od mt.
  unfold KrakenOrders.place_or_preview.
  destruct (KrakenOrders.build_order k cfg pair_key sd ov)
    as [[od0 mt0]|e] eqn:B; [|discriminate].
  destruct (build_order_inv _ _ _ _ _ _ _ B) as [pi [tk [Hpi [Htk D]]]].
  pose proof (decision_reason_is_ok_or_blocked cfg pair_key sd pi tk ov) as R.
  pose proof (decision_reason cfg pair_key sd pi tk ov) as DR.
  pose proof (decision_fields cfg pair_key sd pi tk ov) as [M _].
  cbv zeta in R, DR. rewrite <- D in R, DR, M.
  destruct (String.eqb (KrakenOrders.reason od0) "ok") eqn:E; cbn [negb].
  - apply String.eqb_eq in E.
    assert (F : Checks.first_failing cfg sd pi tk ov = None).
    { destruct (Checks.first_failing cfg sd pi tk ov); [|reflexivity].
      destruct DR as [_ [N _]]. now elim N. }
    pose proof (can_trade_state w risk (KrakenOrders.notional_usd od0)
                  (KrakenOrders.mode od0) (Some pair_key)) as S.
    destruct (RiskEngine.can_trade w risk (KrakenOrders.notional_usd od0)
                (KrakenOrders.mode od0) (Some pair_key)) as [rd r1] eqn:CT.
    cbn [snd] in S. subst r1.
    destruct (RiskEngine.allowed rd) eqn:A; cbn [negb].
    + destruct (String.eqb (KrakenOrders.mode od0) "live") eqn:L; cbn [negb].
      * apply String.eqb_eq in L.
        destruct (KrakenOrders._live_latch_enabled w) eqn:Y; cbn [negb].
        -- destruct (KrakenOrders.add_order k _) as [[err|]|e] eqn:AO;
             [| |discriminate].
           ++ intro H; injection H as <- _ <-. intro K. discriminate K.
           ++ intro H; injection H as <- _ <-. intros _.
              exists pi, tk.
              split; [exact Hpi|]. split; [exact Htk|]. split; [exact F|].
              split; [now rewrite D|].
              split; [now rewrite <- M|]. split; [exact Y|].
              split; [cbn; rewrite <- L, CT; exact A|].
              split; [exact AO | reflexivity].
        -- intro H; injection H as <- _ <-. intro K. discriminate K.
      * intro H; injection H as <- _ <-. intro K. discriminate K.
    + intro H; injection H as <- _ <-. intro K. discriminate K.
  - intro H; injection H as <- _ <-.
    apply String.eqb_neq in E.
    destruct R as [R|R]; [now elim E|].
    intro K. rewrite K in R. discriminate R.
Qed.

Lemma live_order_placed_means_witness :
  exists (od : KrakenOrders.OrderDecision) (mt : KrakenOrders.Metrics)
         (risk' : RiskEngine.t),
    KrakenOrders.place_or_preview Samples.latched Samples.latched
      Samples.exchange Samples.live_cfg Samples.engine "XBTUSD" "buy" None
    = (Py.Ok (od, mt), risk')
    /\ KrakenOrders.reason od = "LIVE order placed"
    /\ RiskEngine.trades_today risk' = 1%Z.
Proof.
  destruct (KrakenOrders.place_or_preview Samples.latched Samples.latched
              Samples.exchange Samples.live_cfg Samples.engine
              "XBTUSD" "buy" None) as [[[od mt]|e] risk'] eqn:P.
  - assert (R : KrakenOrders.reason od = "LIVE order placed").
    { vm_compute in P. injection P as <- _ _. reflexivity. }
    exists od, mt, risk'. split; [reflexivity|]. split; [exact R|].
    destruct (live_order_placed_means _ _ _ _ _ _ _ _ _ _ _ P R)
      as [pi [tk [_ [_ [_ [_ [_ [_ [_ [_ ->]]]]]]]]]].
    reflexivity.
  - vm_compute in P. discriminate P.
Defined.

Lemma effective_pair_after_roll (w : World) (e : RiskEngine.t) (k : string) :
  effective_pair_trades (clock_day w) (RiskEngine._roll_day_if_needed w e) k
  = effective_pair_trades (clock_day w) e k.
Proof.
  unfold effective_pair_trades at 1.
  rewrite roll_day_key, String.eqb_refl. apply roll_by_pair.
Qed.

(** Only a placed live order consumes quota.  Whatever else
    [place_or_preview] comes back with (a block of any kind, a dry-run
    decision, an [AddOrder] error answer, or an exception), the engine is
    either untouched or only rolled over to the day of the call, so the
    day's global count and every pair's count are what they were. *)
Theorem only_live_placement_consumes_quota :
  forall (w w' : World) (k : KrakenOrders.KrakenClient)
         (cfg : KrakenOrders.Cfg) (risk risk' : RiskEngine.t)
         (pair_key sd : string) (ov : option Q)
         (res : Py.result (KrakenOrders.OrderDecision * KrakenOrders.Metrics)),
    KrakenOrders.place_or_preview w w' k cfg risk pair_key sd ov
    = (res, risk') ->
    (forall od mt, res = Py.Ok (od, mt) ->
                   KrakenOrders.reason od <> "LIVE order placed") ->
    (risk' = risk \/ risk' = RiskEngine._roll_day_if_needed w risk)
    /\ effective_trades (clock_day w) risk'
       = effective_trades (clock_day w) risk
    /\ forall q, effective_pair_trades (clock_day w) risk' q
                 = effective_pair_trades (clock_day w) risk q.
Proof.
  intros w w' k cfg risk risk' pair_key sd ov res P N.
  assert (C : risk' = risk \/ risk' = RiskEngine._roll_day_if_needed w risk).
  { revert P. unfold KrakenOrders.place_or_preview.
    destruct (KrakenOrders.build_order k cfg pair_key sd ov)
      as [[od0 mt0]|e]; [|intro H; injection H as _ <-; now left].
    destruct (negb (String.eqb (KrakenOrders.reason od0) "ok"));
      [intro H; injection H as _ <-; now left|].
    pose proof (can_trade_state w risk (KrakenOrders.notional_usd od0)
                  (KrakenOrders.mode od0) (Some pair_key)) as S.
    destruct (RiskEngine.can_trade w risk _ _ _) as [rd r1].
    cbn [snd] in S. subst r1.
    destruct (negb (RiskEngine.allowed rd));
      [intro H; injection H as _ <-; now right|].
    destruct (negb (String.eqb (KrakenOrders.mode od0) "live"));
      [intro H; injection H as _ <-; now right|].
    destruct (negb (KrakenOrders._live_latch_enabled w));
      [intro H; injection H as _ <-; now right|].
    destruct (KrakenOrders.add_order k _) as [[err|]|e];
      intro H; injection H as R <-; try (now right).
    exfalso. apply (N _ _ (eq_sym R)). reflexivity. }
  split; [exact C|].
  destruct C as [->| ->].
  - split; [reflexivity | intro q; reflexivity].
  - split; [apply effective_after_roll|].
    intro q. apply effective_pair_after_roll.
Qed.

Lemma only_live_placement_consumes_quota_witness :
  effective_trades "2024-01-01"
    (snd (KrakenOrders.place_or_preview Samples.latched Samples.latched
            (with_add_order Samples.exchange
               (fun _ => Py.Ok (Some "EOrder:Insufficient funds")))
            Samples.live_cfg Samples.engine "XBTUSD" "buy" None))
  = 0%Z.
Proof.
  destruct (KrakenOrders.place_or_preview Samples.latched Samples.latched
              (with_add_order Samples.exchange
                 (fun _ => Py.Ok (Some "EOrder:Insufficient funds")))
              Samples.live_cfg Samples.engine "XBTUSD" "buy" None)
    as [res risk'] eqn:P.
  destruct (only_live_placement_consumes_quota _ _ _ _ _ _ _ _ _ _ P)
    as [_ [T _]].
  - intros od mt E. vm_compute in P. injection P as R _. subst res.
    injection E as <- _. discriminate.
  - cbn [snd]. exact T.
Defined.

(* ================================================================= *)
(** * Further properties of formatting and rounding *)




Lemma printed_value_proper (d : nat) (x y : Q) :
  x == y -> printed_value d x = printed_value d y.
Proof.
  intro H. unfold printed_value, Py.scaled, Py.ltb.
  rewrite (round_half_even_proper (Qabs x * inject_Z (10 ^ Z.of_nat d))
             (Qabs y * inject_Z (10 ^ Z.of_nat d)))
    by (rewrite H; reflexivity).
  now rewrite (Qleb_comp 0 0 (Qeq_refl 0) x y H).
Qed.

Lemma printed_value_stable (d : nat) (q : Q) :
  printed_value d (printed_value d q) == printed_value d q.
Proof.
  assert (Hp : (0 < 10 ^ Z.of_nat d)%Z) by (apply Z.pow_pos_nonneg; lia).
  set (P := inject_Z (10 ^ Z.of_nat d)).
  assert (HP : 0 < P) by (unfold P, Qlt; cbn; lia).
  assert (NZ : ~ P == 0)
    by (intro E; rewrite E in HP; now apply Qlt_irrefl in HP).
  pose proof (scaled_nonneg d q) as M.
  remember (Py.scaled d q) as m eqn:Em.
  assert (V : 0 <= inject_Z m / P).
  { apply Qle_shift_div_l; [exact HP|]. rewrite Qmult_0_l.
    unfold Qle; cbn; lia. }
  assert (S : forall v, Qabs v == inject_Z m / P -> Py.scaled d v = m).
  { intros v E. unfold Py.scaled. apply round_half_even_int.
    fold P. rewrite E. field. exact NZ. }
  assert (Z0 : m = 0%Z -> inject_Z m / P == 0).
  { intros ->. unfold Qdiv. apply Qmult_0_l. }
  unfold printed_value at 2 3. rewrite <- Em. fold P.
  destruct (Py.ltb q 0).
  - destruct (Z.eq_dec m 0) as [E|E].
    + assert (V0 : - (inject_Z m / P) == 0).
      { rewrite E. unfold Qdiv. rewrite Qmult_0_l. reflexivity. }
      rewrite (printed_value_proper d (- (inject_Z m / P)) 0 V0).
      rewrite V0. apply (printed_value_int d 0 0); [reflexivity | lia].
    + unfold printed_value. fold P.
      assert (N : inject_Z m / P > 0).
      { apply Qlt_shift_div_l; [exact HP|]. rewrite Qmult_0_l.
        unfold Qlt; cbn; lia. }
      rewrite (S (- (inject_Z m / P)))
        by (rewrite Qabs_opp; now apply Qabs_pos).
      assert (L : Py.ltb (- (inject_Z m / P)) 0 = true).
      { apply ltb_true. apply Qopp_lt_compat in N. exact N. }
      rewrite L. reflexivity.
  - unfold printed_value. fold P.
    rewrite (S (inject_Z m / P)) by (now apply Qabs_pos).
    assert (L : Py.ltb (inject_Z m / P) 0 = false).
    { unfold Py.ltb. apply negb_false_iff. now apply Qle_bool_iff. }
    rewrite L. reflexivity.
Qed.








(** At a tie between two six-decimal numbers the float read back is
    more than half a millionth away: 0.0234375 prints as 0.023438, and the
    binary64 number nearest to that lies just above it. *)
Example pair_round_at_a_tie :
  PnlAnalytics._pair_round 0.0234375 = Py.float 0.023438
  /\ 1 # 2000000 < PnlAnalytics._pair_round 0.0234375 - 0.0234375.
Proof. split; vm_compute; reflexivity. Qed.






(* ================================================================= *)
(** * Further properties of the PnL analytics *)



(** What one trade does to the equity and drawdown variables. *)
Lemma step_equity (marks : Py.dict Q) (st : PnlAnalytics.Loop)
    (t : PnlAnalytics.Trade) :
  let st' := PnlAnalytics.trade_step marks st t in
  match PnlAnalytics.close_pnl st t with
  | Some pnl =>
      PnlAnalytics.realized_equity st' = PnlAnalytics.realized_equity st + pnl
      /\ PnlAnalytics.peak_equity st'
         = Py.max (PnlAnalytics.peak_equity st)
             (PnlAnalytics.realized_equity st + pnl)
      /\ PnlAnalytics.max_dd st'
         = Py.max (PnlAnalytics.max_dd st)
             (PnlAnalytics.peak_equity st'
              - (PnlAnalytics.realized_equity st + pnl))
      /\ PnlAnalytics.equity_points st'
         = (PnlAnalytics.equity_points st
            ++ [(PnlAnalytics.ts t, PnlAnalytics.realized_equity st + pnl)])%list
  | None =>
      PnlAnalytics.realized_equity st' = PnlAnalytics.realized_equity st
      /\ PnlAnalytics.peak_equity st' = PnlAnalytics.peak_equity st
      /\ PnlAnalytics.max_dd st' = PnlAnalytics.max_dd st
      /\ PnlAnalytics.equity_points st' = PnlAnalytics.equity_points st
  end.
Proof.
  unfold PnlAnalytics.trade_step.
  destruct (String.eqb (PnlAnalytics.side t) "buy") eqn:B.
  - rewrite (close_pnl_of_buy st t B).
    destruct (PnlAnalytics.may_open _ _); repeat split.
  - unfold PnlAnalytics.close_pnl.
    destruct (String.eqb (PnlAnalytics.side t) "sell"); [|repeat split].
    destruct (PnlAnalytics.open_lot _ _); repeat split.
Qed.







Lemma fold_counts (marks : Py.dict Q) (trades : list PnlAnalytics.Trade) :
  forall st : PnlAnalytics.Loop,
    let st' := fold_left (PnlAnalytics.trade_step marks) trades st in
    let cl := PnlAnalytics.close_pnls marks st trades in
    PnlAnalytics.wins (PnlAnalytics.portfolio st')
    = (PnlAnalytics.wins (PnlAnalytics.portfolio st) + count_wins cl)%Z
    /\ PnlAnalytics.losses (PnlAnalytics.portfolio st')
       = (PnlAnalytics.losses (PnlAnalytics.portfolio st)
          + count_losses cl)%Z
    /\ PnlAnalytics.trades_closed (PnlAnalytics.portfolio st')
       = (PnlAnalytics.trades_closed (PnlAnalytics.portfolio st)
          + Z.of_nat (List.length cl))%Z
    /\ PnlAnalytics.realized_pnl_usd (PnlAnalytics.portfolio st')
       == PnlAnalytics.realized_pnl_usd (PnlAnalytics.portfolio st)
          + Qsum cl
    /\ PnlAnalytics.realized_equity st'
       == PnlAnalytics.realized_equity st + Qsum cl
    /\ List.length (PnlAnalytics.equity_points st')
       = (List.length (PnlAnalytics.equity_points st) + List.length cl)%nat.
Proof.
  induction trades as [|t r IH]; intros st; cbn [fold_left].
  - cbn. repeat split; try lia; ring.
  - cbv zeta in IH |- *.
    destruct (IH (PnlAnalytics.trade_step marks st t))
      as [W [L [T [R [E N]]]]].
    rewrite W, L, T, R, E, N. clear W L T R E N IH.
    pose proof (step_portfolio marks st t) as P.
    pose proof (step_equity marks st t) as S. cbv zeta in S.
    cbn [PnlAnalytics.close_pnls].
    destruct (PnlAnalytics.close_pnl st t) as [pnl|].
    + destruct S as [Se [_ [_ Sp]]]. rewrite P, Se, Sp.
      rewrite length_app.
      unfold count_wins, count_losses, Qsum.
      cbn [filter fold_right List.length PnlAnalytics.portfolio_close
             PnlAnalytics.wins PnlAnalytics.losses
             PnlAnalytics.trades_closed PnlAnalytics.realized_pnl_usd].
      destruct (Py.geb pnl 0); cbn [negb List.length];
        repeat split; try lia; ring.
    + destruct S as [Se [_ [_ Sp]]]. rewrite P, Se, Sp.
      repeat split; reflexivity.
Qed.



(** ** Per-pair totals *)







(** ** Keys of the loop's dictionaries *)

Lemma keys_set {V} (d : Py.dict V) (k x : string) (v : V) :
  In x (map fst (Py.set d k v)) -> x = k \/ In x (map fst d).
Proof.
  induction d as [|[k' v'] d IH]; simpl.
  - intros [H|[]]. now left.
  - destruct (String.eqb k' k); simpl; intros [H|H]; auto.
    destruct (IH H); auto.
Qed.

Lemma NoDup_set {V} (d : Py.dict V) (k : string) (v : V) :
  NoDup (map fst d) -> NoDup (map fst (Py.set d k v)).
Proof.
  induction d as [|[k' v'] d IH]; simpl; intro N.
  - constructor; [intros []|constructor].
  - pose proof (NoDup_cons_iff k' (map fst d)) as [C _].
    destruct (C N) as [N1 N2].
    destruct (String.eqb k' k) eqn:E; simpl; [exact N|].
    constructor; [|now apply IH].
    intro H. destruct (keys_set d k k' v H) as [H'|H'].
    + subst k'. now rewrite String.eqb_refl in E.
    + contradiction.
Qed.

Lemma mem_of_key {V} (d : Py.dict V) (k : string) :
  In k (map fst d) -> Py.mem d k = true.
Proof.
  unfold Py.mem.
  induction d as [|[k' v'] d IH]; simpl; [intros []|].
  intros [H|H].
  - subst k'. now rewrite String.eqb_refl.
  - destruct (String.eqb k' k); [reflexivity|now apply IH].
Qed.

Lemma Forall_get {V} (P : V -> Prop) (d : Py.dict V) (k : string) (v : V) :
  Forall (fun kv => P (snd kv)) d -> Py.get d k = Some v -> P v.
Proof.
  induction d as [|[k' v'] d IH]; simpl; intros F G; [discriminate|].
  pose proof (Forall_inv F) as Hv. pose proof (Forall_inv_tail F) as Hd.
  destruct (String.eqb k' k).
  - inversion G. subst v'. exact Hv.
  - now apply IH.
Qed.

Lemma mem_set {V} (d : Py.dict V) (k q : string) (v : V) :
  Py.mem (Py.set d k v) q = String.eqb k q || Py.mem d q.
Proof.
  unfold Py.mem. destruct (String.eqb k q) eqn:E.
  - apply String.eqb_eq in E. subst q. now rewrite get_set_same.
  - apply String.eqb_neq in E. now rewrite (get_set_other d k q v E).
Qed.

Lemma mem_modify {V} (d : Py.dict V) (k q : string) (f : V -> V) :
  Py.mem (PnlAnalytics.modify d k f) q = Py.mem d q.
Proof.
  unfold Py.mem. destruct (String.eqb k q) eqn:E.
  - apply String.eqb_eq in E. subst q. rewrite get_modify_same.
    now destruct (Py.get d k).
  - apply String.eqb_neq in E. now rewrite (get_modify_other d k q f E).
Qed.





(** ** Rows the trade loop drops *)

Lemma dropped_core (marks : Py.dict Q) (st : PnlAnalytics.Loop)
    (t : PnlAnalytics.Trade) :
  dropped st t -> core (PnlAnalytics.trade_step marks st t) = core st.
Proof.
  unfold dropped, holds_lot, PnlAnalytics.trade_step. cbv zeta.
  intros [[B [pos [G V]]]|[[S N]|[B S]]].
  - rewrite B. cbn [String.eqb Ascii.eqb Bool.eqb].
    unfold PnlAnalytics.may_open. rewrite G.
    assert (L : Py.leb (PnlAnalytics.vol pos) 0 = false).
    { unfold Py.leb. destruct (Qle_bool _ _) eqn:E; [|reflexivity].
      apply Qle_bool_iff in E. lra. }
    rewrite L. reflexivity.
  - rewrite S. cbn [String.eqb Ascii.eqb Bool.eqb].
    unfold PnlAnalytics.open_lot.
    destruct (Py.get _ _) as [pos|] eqn:G; [|reflexivity].
    destruct (Py.gtb (PnlAnalytics.vol pos) 0) eqn:E; [|reflexivity].
    exfalso. apply N. exists pos. split; [reflexivity|].
    now apply gtb_true in E.
  - apply String.eqb_neq in B, S. rewrite B, S. reflexivity.
Qed.

(** What a trade does to the totals depends on the totals only, not on the
    per-pair report. *)
Lemma step_core (marks : Py.dict Q) (s1 s2 : PnlAnalytics.Loop)
    (t : PnlAnalytics.Trade) :
  core s1 = core s2 ->
  core (PnlAnalytics.trade_step marks s1 t)
  = core (PnlAnalytics.trade_step marks s2 t).
Proof.
  destruct s1, s2. unfold core. cbn. intro H. inversion H. subst.
  unfold PnlAnalytics.trade_step. cbv zeta. cbn.
  destruct (String.eqb (PnlAnalytics.side t) "buy").
  - destruct (PnlAnalytics.may_open _ _); reflexivity.
  - destruct (String.eqb (PnlAnalytics.side t) "sell"); [|reflexivity].
    destruct (PnlAnalytics.open_lot _ _); reflexivity.
Qed.

Lemma fold_core (marks : Py.dict Q) (trades : list PnlAnalytics.Trade) :
  forall s1 s2 : PnlAnalytics.Loop,
    core s1 = core s2 ->
    core (fold_left (PnlAnalytics.trade_step marks) trades s1)
    = core (fold_left (PnlAnalytics.trade_step marks) trades s2).
Proof.
  induction trades as [|t r IH]; intros s1 s2 H; cbn [fold_left].
  - exact H.
  - apply IH. now apply step_core.
Qed.

Lemma unrealized_portfolio_only (marks : Py.dict Q)
    (items : Py.dict PnlAnalytics.OpenPos) :
  forall (pp1 pp2 : Py.dict PnlAnalytics.PairStats)
         (pf : PnlAnalytics.Portfolio),
    snd (fold_left (PnlAnalytics.unrealized_step marks) items (pp1, pf))
    = snd (fold_left (PnlAnalytics.unrealized_step marks) items (pp2, pf)).
Proof.
  induction items as [|[p pos] r IH]; intros pp1 pp2 pf; cbn [fold_left].
  - reflexivity.
  - unfold PnlAnalytics.unrealized_step at 2 4.
    destruct (_ && _ && _); apply IH.
Qed.

Lemma compute_pnl_totals (w : World) (marks : Py.dict Q)
    (trades : list PnlAnalytics.Trade) :
  let st := PnlAnalytics.trade_loop marks trades in
  PnlAnalytics.doc_portfolio (PnlAnalytics.compute_pnl w trades marks)
  = PnlAnalytics.portfolio_rollup (PnlAnalytics.max_dd st)
      (snd (before_rounding marks trades))
  /\ PnlAnalytics.doc_equity_curve_realized
       (PnlAnalytics.compute_pnl w trades marks)
     = PnlAnalytics.last_n 200 (PnlAnalytics.equity_points st).
Proof.
  cbv zeta. unfold PnlAnalytics.compute_pnl, before_rounding.
  destruct (fold_left (PnlAnalytics.unrealized_step marks) _ _).
  split; reflexivity.
Qed.

(** Rows the single-lot model drops change no total.  A buy while a lot
    is open for its pair, a sell while none is, or a row whose side is
    neither "buy" nor "sell" can be deleted from the history without
    changing the portfolio or the equity curve of the returned document:
    in particular a second buy neither enlarges the lot nor moves its
    entry price. *)
Theorem dropped_rows_change_no_total :
  forall (w : World) (marks : Py.dict Q)
         (before after : list PnlAnalytics.Trade) (t : PnlAnalytics.Trade),
    dropped (PnlAnalytics.trade_loop marks before) t ->
    let with_row := PnlAnalytics.compute_pnl w (before ++ t :: after) marks in
    let without := PnlAnalytics.compute_pnl w (before ++ after) marks in
    PnlAnalytics.doc_portfolio with_row = PnlAnalytics.doc_portfolio without
    /\ PnlAnalytics.doc_equity_curve_realized with_row
       = PnlAnalytics.doc_equity_curve_realized without.
Proof.
  intros w marks before after t D. cbv zeta.
  destruct (compute_pnl_totals w marks (before ++ t :: after)) as [-> ->].
  destruct (compute_pnl_totals w marks (before ++ after)) as [-> ->].
  unfold before_rounding.
  assert (C : core (PnlAnalytics.trade_loop marks (before ++ t :: after))
              = core (PnlAnalytics.trade_loop marks (before ++ after))).
  { unfold PnlAnalytics.trade_loop. rewrite !fold_left_app.
    cbn [fold_left]. apply fold_core. now apply dropped_core. }
  unfold core in C. inversion C as [[Hp Ho He Hr Hk Hd]].
  rewrite Hp, Ho, Hd.
  split; [|reflexivity].
  f_equal. apply unrealized_portfolio_only.
Qed.

Lemma dropped_rows_change_no_total_witness :
  let with_row :=
    PnlAnalytics.compute_pnl Samples.quiet
      ([Samples.buy1] ++ Samples.buy2 :: [Samples.sell1]) [] in
  let without :=
    PnlAnalytics.compute_pnl Samples.quiet
      ([Samples.buy1] ++ [Samples.sell1]) [] in
  PnlAnalytics.doc_portfolio with_row = PnlAnalytics.doc_portfolio without
  /\ PnlAnalytics.doc_equity_curve_realized with_row
     = PnlAnalytics.doc_equity_curve_realized without.
Proof.
  apply (dropped_rows_change_no_total Samples.quiet [] [Samples.buy1]
           [Samples.sell1] Samples.buy2).
  left. split; [reflexivity|].
  exists {| PnlAnalytics.vol := 0.001; PnlAnalytics.entry_px := 50000;
            PnlAnalytics.entry_ts := inject_Z 1;
            PnlAnalytics.cost_usd := 0.001 * 50000 |}.
  split; [reflexivity|]. reflexivity.
Defined.


(** ** The equity curve *)

Lemma last_n_length {A} (n : nat) (xs : list A) :
  List.length (PnlAnalytics.last_n n xs) = Nat.min n (List.length xs).
Proof.
  unfold PnlAnalytics.last_n. rewrite length_skipn. lia.
Qed.

Lemma last_n_suffix {A} (n : nat) (xs : list A) :
  xs = (firstn (List.length xs - n) xs ++ PnlAnalytics.last_n n xs)%list.
Proof.
  unfold PnlAnalytics.last_n. symmetry. apply firstn_skipn.
Qed.

Lemma fold_last_point (marks : Py.dict Q) (trades : list PnlAnalytics.Trade) :
  forall st : PnlAnalytics.Loop,
    (forall pre ts e,
        PnlAnalytics.equity_points st = (pre ++ [(ts, e)])%list ->
        e = PnlAnalytics.realized_equity st) ->
    let st' := fold_left (PnlAnalytics.trade_step marks) trades st in
    forall pre ts e,
      PnlAnalytics.equity_points st' = (pre ++ [(ts, e)])%list ->
      e = PnlAnalytics.realized_equity st'.
Proof.
  induction trades as [|t r IH]; intros st H; cbn [fold_left].
  - exact H.
  - apply IH. clear IH.
    pose proof (step_equity marks st t) as S. cbv zeta in S.
    destruct (PnlAnalytics.close_pnl st t) as [pnl|].
    + destruct S as [-> [_ [_ ->]]]. intros pre ts e E.
      apply app_inj_tail in E. destruct E as [_ E]. now inversion E.
    + destruct S as [-> [_ [_ ->]]]. exact H.
Qed.

(** The equity curve of the document holds the most recent points, at
    most 200 of them.  The loop appends one point per close; the document
    keeps the last [min 200 closes] of them, in order, and its last point
    carries the final realized equity. *)
Theorem equity_curve_keeps_the_last_200 :
  forall (w : World) (marks : Py.dict Q) (trades : list PnlAnalytics.Trade),
    let st := PnlAnalytics.trade_loop marks trades in
    let closes := PnlAnalytics.close_pnls marks PnlAnalytics.loop_init trades in
    let curve := PnlAnalytics.doc_equity_curve_realized
                   (PnlAnalytics.compute_pnl w trades marks) in
    List.length curve = Nat.min 200 (List.length closes)
    /\ (exists older,
           PnlAnalytics.equity_points st = (older ++ curve)%list
           /\ List.length older = (List.length closes - 200)%nat)
    /\ (forall pre ts e, curve = (pre ++ [(ts, e)])%list ->
                         e = PnlAnalytics.realized_equity st).
Proof.
  intros w marks trades st closes curve.
  destruct (compute_pnl_totals w marks trades) as [_ C]. fold st in C.
  fold curve in C.
  destruct (fold_counts marks trades PnlAnalytics.loop_init)
    as [_ [_ [_ [_ [_ N]]]]].
  fold (PnlAnalytics.trade_loop marks trades) in N. fold st closes in N.
  cbn [PnlAnalytics.loop_init PnlAnalytics.equity_points List.length
         Nat.add] in N.
  pose proof (last_n_suffix 200 (PnlAnalytics.equity_points st)) as S.
  rewrite <- C in S.
  split; [|split].
  - rewrite C, last_n_length, N. reflexivity.
  - exists (firstn (List.length (PnlAnalytics.equity_points st) - 200)
              (PnlAnalytics.equity_points st)).
    split; [exact S|]. rewrite length_firstn, N. lia.
  - intros pre ts e E.
    apply (fold_last_point marks trades PnlAnalytics.loop_init) with
      (pre := (firstn (List.length (PnlAnalytics.equity_points st) - 200)
                 (PnlAnalytics.equity_points st) ++ pre)%list) (ts := ts).
    + intros pre0 ts0 e0 E0. cbn in E0. now destruct pre0.
    + fold (PnlAnalytics.trade_loop marks trades). fold st.
      rewrite <- app_assoc, <- E. exact S.
Qed.


(* ================================================================= *)
(** * Further properties of the ledger *)

Lemma load_after_save (w : World) (fs : Ledger.Files) (s : Ledger.State) :
  Ledger._load_state (run_ops fs (Ledger._save_state w s))
  = Py.Ok {| Ledger.positions := Ledger.positions s;
             Ledger.cooldowns := Ledger.cooldowns s;
             Ledger.updated_at := Some (clock_now w) |}.
Proof. reflexivity. Qed.

Lemma get_absent {V} (d : Py.dict V) (k : string) :
  ~ In k (map fst d) -> Py.get d k = None.
Proof.
  induction d as [|[k' v] d IH]; simpl; intro N; [reflexivity|].
  destruct (String.eqb k' k) eqn:E.
  - apply String.eqb_eq in E. exfalso. apply N. now left.
  - apply IH. intro H. apply N. now right.
Qed.

Lemma get_pop_same {V} (d : Py.dict V) (k : string) :
  unique_keys d -> Py.get (Py.pop d k) k = None.
Proof.
  unfold unique_keys.
  induction d as [|[k' v] d IH]; simpl; intro N; [reflexivity|].
  pose proof (NoDup_cons_iff k' (map fst d)) as [C _].
  destruct (C N) as [N1 N2].
  destruct (String.eqb k' k) eqn:E.
  - apply String.eqb_eq in E. subst k'. now apply get_absent.
  - simpl. rewrite E. now apply IH.
Qed.

Lemma get_pop_other {V} (d : Py.dict V) (k q : string) :
  k <> q -> Py.get (Py.pop d k) q = Py.get d q.
Proof.
  intro N. induction d as [|[k' v] d IH]; simpl; [reflexivity|].
  destruct (String.eqb k' k) eqn:E.
  - apply String.eqb_eq in E. subst k'.
    apply String.eqb_neq in N. now rewrite N.
  - simpl. destruct (String.eqb k' q); [reflexivity|exact IH].
Qed.

Lemma has_position_is_positive (v : Q) :
  negb (Qeq_bool v 0) && Py.gtb v 0 = Py.gtb v 0.
Proof.
  destruct (Py.gtb v 0) eqn:G; [|apply andb_false_r].
  apply gtb_true in G. rewrite andb_true_r.
  destruct (Qeq_bool v 0) eqn:E; [|reflexivity].
  apply Qeq_bool_iff in E. lra.
Qed.

(** The ledger reads back what was written.  On a readable ledger (file
    missing, or holding a complete document), after [set_position pair v px]
    [get_position pair] returns [v] and [px], with [has_position] exactly
    when [v > 0]; after [clear_position pair] it returns the empty
    position; after [set_cooldown pair secs], which returns [now + secs],
    [get_cooldown_until pair] returns that instant.  Each write leaves
    every other pair's position and cooldown, and the other table, as they
    were. *)
Theorem ledger_reads_back_what_was_written :
  forall (w : World) (fs : Ledger.Files) (s : Ledger.State) (p : string),
    Ledger._load_state fs = Py.Ok s ->
    unique_keys (RiskEngine.or_default (Ledger.positions s) []) ->
    (forall v px, exists ops,
        Ledger.set_position w fs p v px = Py.Ok ops
        /\ Ledger.get_position (run_ops fs ops) p
           = Py.Ok (Py.gtb v 0, v, px)
        /\ (forall q, q <> p ->
              Ledger.get_position (run_ops fs ops) q
              = Ledger.get_position fs q)
        /\ (forall q,
              Ledger.get_cooldown_until (run_ops fs ops) q
              = Ledger.get_cooldown_until fs q))
    /\ (exists ops,
          Ledger.clear_position w fs p = Py.Ok ops
          /\ Ledger.get_position (run_ops fs ops) p = Py.Ok (false, 0, 0)
          /\ (forall q, q <> p ->
                Ledger.get_position (run_ops fs ops) q
                = Ledger.get_position fs q)
          /\ (forall q,
                Ledger.get_cooldown_until (run_ops fs ops) q
                = Ledger.get_cooldown_until fs q))
    /\ (forall secs, exists ops,
          Ledger.set_cooldown w fs p secs
          = Py.Ok (ops, (clock_now w + secs)%Z)
          /\ Ledger.get_cooldown_until (run_ops fs ops) p
             = Py.Ok (clock_now w + secs)%Z
          /\ (forall q, q <> p ->
                Ledger.get_cooldown_until (run_ops fs ops) q
                = Ledger.get_cooldown_until fs q)
          /\ (forall q,
                Ledger.get_position (run_ops fs ops) q
                = Ledger.get_position fs q)).
Proof.
  intros w fs s p L U. split; [|split].
  - intros v px. eexists. split.
    { unfold Ledger.set_position. rewrite L. reflexivity. }
    unfold Ledger.get_position, Ledger.get_cooldown_until.
    rewrite load_after_save, L.
    cbn [Py.bind Ledger.positions Ledger.cooldowns RiskEngine.or_default].
    split; [|split].
    + rewrite get_set_same.
      cbn [Ledger.base_volume Ledger.entry_price].
      now rewrite has_position_is_positive.
    + intros q N. rewrite get_set_other by congruence. reflexivity.
    + reflexivity.
  - eexists. split.
    { unfold Ledger.clear_position. rewrite L. reflexivity. }
    unfold Ledger.get_position, Ledger.get_cooldown_until.
    rewrite load_after_save, L.
    cbn [Py.bind Ledger.positions Ledger.cooldowns RiskEngine.or_default].
    split; [|split].
    + now rewrite (get_pop_same _ p U).
    + intros q N. rewrite get_pop_other by congruence. reflexivity.
    + reflexivity.
  - intros secs. eexists. split.
    { unfold Ledger.set_cooldown. rewrite L. reflexivity. }
    unfold Ledger.get_position, Ledger.get_cooldown_until.
    rewrite load_after_save, L.
    cbn [Py.bind Ledger.positions Ledger.cooldowns RiskEngine.or_default].
    split; [|split].
    + unfold Py.get_default. now rewrite get_set_same.
    + intros q N. unfold Py.get_default.
      rewrite get_set_other by congruence. reflexivity.
    + reflexivity.
Qed.

Lemma ledger_reads_back_what_was_written_witness :
  exists ops,
    Ledger.set_position Samples.later Samples.disk "XBTUSD" 0.001 50000
    = Py.Ok ops
    /\ Ledger.get_position (run_ops Samples.disk ops) "XBTUSD"
       = Py.Ok (Py.gtb 0.001 0, 0.001, 50000)
    /\ (forall q, q <> "XBTUSD"%string ->
          Ledger.get_position (run_ops Samples.disk ops) q
          = Ledger.get_position Samples.disk q)
    /\ (forall q,
          Ledger.get_cooldown_until (run_ops Samples.disk ops) q
          = Ledger.get_cooldown_until Samples.disk q).
Proof.
  assert (L : Ledger._load_state Samples.disk = Py.Ok Samples.ledger_doc)
    by reflexivity.
  assert (U : unique_keys
                (RiskEngine.or_default
                   (Ledger.positions Samples.ledger_doc) [])).
  { unfold unique_keys. cbn. constructor; [intros []|constructor]. }
  exact (proj1 (ledger_reads_back_what_was_written Samples.later
                  Samples.disk Samples.ledger_doc "XBTUSD" L U)
           0.001 50000).
Defined.


(* ================================================================= *)
(** * The live-trading guard of the main loop *)

Lemma mode_live_is_normal (kcfg : KrakenOrders.Cfg) :
  KrakenOrders.trading_mode kcfg = "live" ->
  Main.get_trading_mode kcfg = "live".
Proof. unfold Main.get_trading_mode. intros ->. reflexivity. Qed.

(** Live orders need both latches.  The main loop hands
    [place_or_preview] the configuration [safe_kcfg_for_orders] returns.
    No order reaches the exchange when the kill-switch file exists, when
    the latch file of the main loop is required and missing, when the
    configured mode is not the exact string "live", or when the latch
    file of [kraken_orders.py] is missing: the outcome is then the same
    whatever the [AddOrder] endpoint would have answered. *)
Theorem live_orders_need_both_latches :
  forall (env : Main.Env) (w0 w w' : World) (k : KrakenOrders.KrakenClient)
         (f : KrakenOrders.Payload -> Py.result (option string))
         (kcfg : KrakenOrders.Cfg) (risk : RiskEngine.t)
         (pair_key sd : string) (ov : option Q),
    Main.is_killed env w0 = true
    \/ (Main.REQUIRE_LIVE_LATCH env = true
        /\ Main.live_latch_present env w0 = false)
    \/ KrakenOrders.trading_mode kcfg <> "live"
    \/ path_exists w "/run/trading/ENABLE_LIVE_TRADING" = false ->
    let orders_cfg := Main.safe_kcfg_for_orders env w0 kcfg in
    KrakenOrders.place_or_preview w w' (with_add_order k f) orders_cfg risk
      pair_key sd ov
    = KrakenOrders.place_or_preview w w' k orders_cfg risk pair_key sd ov.
Proof.
  intros env w0 w w' k f kcfg risk pair_key sd ov H. cbv zeta.
  apply add_order_not_consulted.
  unfold Main.safe_kcfg_for_orders. cbv zeta.
  destruct (String.eqb (Main.get_trading_mode kcfg) "live") eqn:M;
    cbn [negb].
  - assert (B : Main.allow_live env w0 kcfg = false
                -> KrakenOrders.trading_mode (Main.force_dry_run kcfg)
                   <> "live") by (intros _; discriminate).
    destruct H as [H|[[H1 H2]|[H|H]]].
    + unfold Main.allow_live at 1. rewrite M, H. cbn [negb]. left.
      discriminate.
    + unfold Main.allow_live at 1. rewrite M, H1, H2. cbn [negb andb].
      destruct (Main.is_killed env w0); left; discriminate.
    + destruct (Main.allow_live env w0 kcfg); left;
        [exact H|discriminate].
    + now right.
  - left. intro L. apply mode_live_is_normal in L. rewrite L in M.
    discriminate.
Qed.

Lemma live_orders_need_both_latches_witness :
  Main.allow_live Samples.plain_env Samples.main_latched Samples.live_cfg
  = true
  /\ KrakenOrders.place_or_preview Samples.main_latched Samples.main_latched
       (with_add_order Samples.exchange (fun _ => Py.Raise "never called"))
       (Main.safe_kcfg_for_orders Samples.plain_env Samples.main_latched
          Samples.live_cfg)
       Samples.engine "XBTUSD" "buy" None
     = KrakenOrders.place_or_preview Samples.main_latched
         Samples.main_latched Samples.exchange
         (Main.safe_kcfg_for_orders Samples.plain_env Samples.main_latched
            Samples.live_cfg)
         Samples.engine "XBTUSD" "buy" None.
Proof.
  split; [reflexivity|].
  apply (live_orders_need_both_latches Samples.plain_env
           Samples.main_latched Samples.main_latched Samples.main_latched).
  right. right. right. reflexivity.
Defined.


(* ================================================================= *)
(** * Properties of the moving-average strategy *)






(** Equal prices need not give equal averages: the sums of two and of
    three candles at 0.1 round differently, so [decide] sells a held
    position, and with windows of three and six it buys. *)
Example equal_prices_can_cross :
  MaCrossover.decide [Py.float 0.1; Py.float 0.1; Py.float 0.1] 2 3 true
  = Py.Ok {| MaCrossover.action := "sell";
             MaCrossover.reason := "sma_short 0.10 < sma_long 0.10" |}
  /\ MaCrossover.decide
       [Py.float 0.1; Py.float 0.1; Py.float 0.1;
        Py.float 0.1; Py.float 0.1; Py.float 0.1] 3 6 false
     = Py.Ok {| MaCrossover.action := "buy";
                MaCrossover.reason := "sma_short 0.10 > sma_long 0.10" |}.
Proof. split; vm_compute; reflexivity. Qed.


(* ================================================================= *)
(** * Properties of the strategy loop *)

Lemma get_position_of_state (fs : Ledger.Files) (s : Ledger.State)
    (p : string) :
  Ledger._load_state fs = Py.Ok s ->
  Ledger.get_position fs p = Py.Ok (position_of s p).
Proof.
  intro L. unfold Ledger.get_position, position_of. rewrite L.
  cbn [Py.bind]. now destruct (Py.get _ p).
Qed.

Lemma get_cooldown_of_state (fs : Ledger.Files) (s : Ledger.State)
    (p : string) :
  Ledger._load_state fs = Py.Ok s ->
  Ledger.get_cooldown_until fs p = Py.Ok (cooldown_of s p).
Proof.
  intro L. unfold Ledger.get_cooldown_until. now rewrite L.
Qed.

Lemma get_cooldown_loads (fs : Ledger.Files) (p : string) (c : Z) :
  Ledger.get_cooldown_until fs p = Py.Ok c ->
  exists s, Ledger._load_state fs = Py.Ok s.
Proof.
  unfold Ledger.get_cooldown_until.
  destruct (Ledger._load_state fs) as [s|e]; [|discriminate].
  intros _. now exists s.
Qed.


Lemma book_cases
    (mo : MainLoop.Moments) (stg : MainLoop.Settings) (bot : MainLoop.Bot)
    (p sd : string) (od : KrakenOrders.OrderDecision)
    (m : KrakenOrders.Metrics) (out : MainLoop.Outcome)
    (bot' : MainLoop.Bot) (s : Ledger.State) :
  Ledger._load_state (MainLoop.ledger bot) = Py.Ok s ->
  MainLoop.book mo stg bot p sd od m = (Py.Ok out, bot') ->
  out = MainLoop.Decided od m
  /\ MainLoop.risk bot' = MainLoop.risk bot
  /\ MainLoop.trades_csv bot'
     = (if MainLoop.executed od
        then MainLoop.log_trade_csv (MainLoop.at_log mo)
               (MainLoop.trades_csv bot) p sd od m
               (MainLoop.configured_notional stg)
        else MainLoop.trades_csv bot)
  /\ exists s', Ledger._load_state (MainLoop.ledger bot') = Py.Ok s'
                /\ booked mo stg s p sd od m s'.
Proof.
  intros L. unfold MainLoop.book, booked.
  unfold Ledger.set_cooldown. rewrite L. cbn [Py.bind].
  destruct (MainLoop.executed od) eqn:E.
  - cbn [MainLoop.ledger MainLoop.risk MainLoop.trades_csv].
    match goal with
    | |- context [fold_left Ledger.apply_op (Ledger._save_state ?w ?x) ?fs] =>
        change (fold_left Ledger.apply_op (Ledger._save_state w x) fs)
          with (run_ops fs (Ledger._save_state w x));
        pose proof (load_after_save w fs x) as L1;
        set (fs1 := run_ops fs (Ledger._save_state w x)) in *
    end.
    cbn [Ledger.positions Ledger.cooldowns] in L1.
    destruct (MainLoop.simulated stg od) eqn:S.
    + destruct (String.eqb sd "buy") eqn:B.
      * apply String.eqb_eq in B.
        destruct (Py.gtb (KrakenOrders.m_last m) 0) eqn:G.
        -- destruct (Py.float_of_str (KrakenOrders.volume od)) as [v|] eqn:F;
             [|discriminate].
           unfold Ledger.set_position. rewrite L1. cbn [Py.bind].
           intro H. injection H as <- <-.
           cbn [MainLoop.with_ledger MainLoop.ledger MainLoop.risk
                  MainLoop.trades_csv].
           repeat split.
           eexists. split; [reflexivity|].
           cbn [Ledger.positions Ledger.cooldowns RiskEngine.or_default].
           repeat split.
           ++ intros [H|[_ H]]; discriminate.
           ++ intros _ _ _. exists v. split; reflexivity.
           ++ intros _ N. contradiction.
        -- intro H. injection H as <- <-.
           cbn [MainLoop.ledger MainLoop.risk MainLoop.trades_csv].
           repeat split.
           eexists. split; [exact L1|].
           cbn [Ledger.positions Ledger.cooldowns RiskEngine.or_default].
           repeat split.
           ++ intros _ _ H. discriminate.
           ++ intros _ N. contradiction.
      * apply String.eqb_neq in B.
        unfold Ledger.clear_position. rewrite L1. cbn [Py.bind].
        intro H. injection H as <- <-.
        cbn [MainLoop.with_ledger MainLoop.ledger MainLoop.risk
               MainLoop.trades_csv].
        repeat split.
        eexists. split; [reflexivity|].
        cbn [Ledger.positions Ledger.cooldowns RiskEngine.or_default].
        repeat split.
        -- intros [H|[H _]]; [discriminate|contradiction].
        -- intros _ H. contradiction.
    + intro H. injection H as <- <-.
      cbn [MainLoop.ledger MainLoop.risk MainLoop.trades_csv].
      repeat split.
      eexists. split; [exact L1|].
      cbn [Ledger.positions Ledger.cooldowns RiskEngine.or_default].
      repeat split; intros; discriminate.
  - assert (S : MainLoop.simulated stg od = false).
    { unfold MainLoop.simulated. unfold MainLoop.executed in E.
      apply orb_false_iff in E. destruct E as [E _]. rewrite E.
      apply andb_false_r. }
    rewrite S. intro H. injection H as <- <-.
    repeat split.
    exists s. split; [exact L|].
    repeat split; intros; discriminate.
Qed.


Lemma book_not_executed
    (mo : MainLoop.Moments) (stg : MainLoop.Settings) (bot : MainLoop.Bot)
    (p sd : string) (od : KrakenOrders.OrderDecision)
    (m : KrakenOrders.Metrics) :
  MainLoop.executed od = false ->
  MainLoop.book mo stg bot p sd od m = (Py.Ok (MainLoop.Decided od m), bot).
Proof.
  intro E. unfold MainLoop.book. rewrite E.
  assert (S : MainLoop.simulated stg od = false).
  { unfold MainLoop.simulated. unfold MainLoop.executed in E.
    apply orb_false_iff in E. destruct E as [E _]. rewrite E.
    apply andb_false_r. }
  now rewrite S.
Qed.

Lemma order_cases
    (env : Main.Env) (mo : MainLoop.Moments) (k : KrakenOrders.KrakenClient)
    (kcfg : KrakenOrders.Cfg) (stg : MainLoop.Settings) (bot : MainLoop.Bot)
    (p sd : string) (ov : option Q) (out : MainLoop.Outcome)
    (bot' : MainLoop.Bot) :
  MainLoop.order env mo k kcfg stg bot p sd ov = (Py.Ok out, bot') ->
  exists od m r,
    KrakenOrders.place_or_preview (MainLoop.at_gate mo) (MainLoop.at_fill mo)
      k (Main.safe_kcfg_for_orders env (MainLoop.at_guard mo) kcfg)
      (MainLoop.risk bot) p sd ov = (Py.Ok (od, m), r)
    /\ MainLoop.book mo stg
         {| MainLoop.ledger := MainLoop.ledger bot;
            MainLoop.risk := r;
            MainLoop.trades_csv := MainLoop.trades_csv bot |}
         p sd od m = (Py.Ok out, bot').
Proof.
  unfold MainLoop.order. cbv zeta.
  destruct (KrakenOrders.place_or_preview _ _ _ _ _ _ _ _)
    as [[[od m]|e] r]; [|discriminate].
  intro H. now exists od, m, r.
Qed.

Lemma place_or_preview_fields
    (w w' : World) (k : KrakenOrders.KrakenClient) (cfg : KrakenOrders.Cfg)
    (risk r : RiskEngine.t) (p sd : string) (ov : option Q)
    (od : KrakenOrders.OrderDecision) (m : KrakenOrders.Metrics) :
  KrakenOrders.place_or_preview w w' k cfg risk p sd ov
  = (Py.Ok (od, m), r) ->
  KrakenOrders.pair od = p
  /\ KrakenOrders.side od = sd
  /\ KrakenOrders.mode od = KrakenOrders.trading_mode cfg
  /\ (KrakenOrders.reason od = "dry-run" -> KrakenOrders.mode od <> "live")
  /\ (KrakenOrders.reason od = "LIVE order placed" ->
      KrakenOrders.mode od = "live").
Proof.
  unfold KrakenOrders.place_or_preview.
  destruct (KrakenOrders.build_order k cfg p sd ov)
    as [[od0 mt0]|e] eqn:B; [|discriminate].
  destruct (build_order_inv _ _ _ _ _ _ _ B) as [pi [tk [_ [_ D]]]].
  pose proof (decision_reason_is_ok_or_blocked cfg p sd pi tk ov) as R.
  pose proof (decision_fields cfg p sd pi tk ov) as [M [P S]].
  cbv zeta in R. rewrite <- D in R, M, P, S.
  assert (NB : forall why, prefix "blocked: " why = true ->
                           why <> "dry-run" /\ why <> "LIVE order placed").
  { intros why H. split; intro; subst why; discriminate. }
  destruct (String.eqb (KrakenOrders.reason od0) "ok") eqn:E; cbn [negb].
  - destruct (RiskEngine.can_trade w risk _ _ _) as [rd r1].
    destruct (RiskEngine.allowed rd); cbn [negb].
    + destruct (String.eqb (KrakenOrders.mode od0) "live") eqn:L;
        cbn [negb].
      * apply String.eqb_eq in L.
        destruct (KrakenOrders._live_latch_enabled w); cbn [negb].
        -- destruct (KrakenOrders.add_order k _) as [[err|]|e];
             [| |discriminate];
             intro H; injection H as <- _ _; cbn;
             repeat split; auto; intro K; discriminate K.
        -- intro H; injection H as <- _ _; cbn.
           repeat split; auto; intro K; discriminate K.
      * apply String.eqb_neq in L.
        intro H; injection H as <- _ _; cbn.
        repeat split; auto. intro K. discriminate K.
    + intro H; injection H as <- _ _; cbn.
      repeat split; auto; intro K; discriminate K.
  - apply String.eqb_neq in E.
    intro H; injection H as <- _ _.
    destruct R as [R|R]; [contradiction|].
    destruct (NB _ R) as [N1 N2].
    repeat split; auto; intro K; contradiction.
Qed.

Lemma decide_action
    (prices : list Q) (short long : Z) (has : bool)
    (sig : MaCrossover.Signal) :
  MaCrossover.decide prices short long has = Py.Ok sig ->
  (MaCrossover.action sig = "buy" -> has = false)
  /\ (MaCrossover.action sig = "sell" -> has = true).
Proof.
  unfold MaCrossover.decide.
  destruct (_ <? _)%Z.
  - intro H. injection H as <-. split; discriminate.
  - destruct (MaCrossover.sma prices short) as [s|e]; [|discriminate].
    destruct (MaCrossover.sma prices long) as [l|e]; [|discriminate].
    cbn [Py.bind].
    destruct (Py.gtb s l); destruct has; cbn [andb negb];
      try rewrite andb_false_r;
      try destruct (Py.ltb s l); cbn [andb];
      intro H; injection H as <-; split; cbn; auto; discriminate.
Qed.

Lemma strategy_step_cases
    (env : Main.Env) (mo : MainLoop.Moments) (k : KrakenOrders.KrakenClient)
    (closes : string -> Py.result (list Q)) (kcfg : KrakenOrders.Cfg)
    (stg : MainLoop.Settings) (bot : MainLoop.Bot) (p : string)
    (out : MainLoop.Outcome) (bot' : MainLoop.Bot) :
  MainLoop.strategy_step env mo k closes kcfg stg bot p = (Py.Ok out, bot') ->
  (exists why, out = MainLoop.Skipped why /\ bot' = bot)
  \/ (exists c has vol px cl sig sd ov,
         Ledger.get_cooldown_until (MainLoop.ledger bot) p = Py.Ok c
         /\ (c <= clock_now (MainLoop.at_start mo))%Z
         /\ Ledger.get_position (MainLoop.ledger bot) p
            = Py.Ok (has, vol, px)
         /\ closes p = Py.Ok cl
         /\ (MainLoop.min_c stg <= Z.of_nat (List.length cl))%Z
         /\ MaCrossover.decide cl (MainLoop.sma_s stg) (MainLoop.sma_l stg)
              has = Py.Ok sig
         /\ Main.is_killed env (MainLoop.at_kill mo) = false
         /\ Main.is_paused env (MainLoop.at_pause mo) = false
         /\ ((sd = "buy" /\ MaCrossover.action sig = "buy" /\ ov = None)
             \/ (sd = "sell" /\ MaCrossover.action sig = "sell"
                 /\ ov = Some vol))
         /\ MainLoop.order env mo k kcfg stg bot p sd ov
            = (Py.Ok out, bot')).
Proof.
  unfold MainLoop.strategy_step. cbv zeta.
  destruct (Ledger.get_cooldown_until _ p) as [c|e] eqn:C; [|discriminate].
  destruct (_ <? c)%Z eqn:N.
  { intro H. injection H as <- <-. left. eauto. }
  apply Z.ltb_ge in N.
  destruct (Ledger.get_position _ p) as [[[has vol] px]|e] eqn:G;
    [|discriminate].
  destruct (closes p) as [cl|e] eqn:Cl; [|discriminate].
  destruct (_ <? MainLoop.min_c stg)%Z eqn:Mc.
  { intro H. injection H as <- <-. left. eauto. }
  apply Z.ltb_ge in Mc.
  destruct (MaCrossover.decide cl _ _ has) as [sig|e] eqn:D; [|discriminate].
  destruct (String.eqb (MaCrossover.action sig) "hold").
  { intro H. injection H as <- <-. left. eauto. }
  destruct (Main.is_killed env _) eqn:K.
  { intro H. injection H as <- <-. left. eauto. }
  destruct (Main.is_paused env _) eqn:P.
  { intro H. injection H as <- <-. left. eauto. }
  destruct (String.eqb (MaCrossover.action sig) "buy") eqn:B.
  { apply String.eqb_eq in B. intro H. right.
    exists c, has, vol, px, cl, sig, "buy"%string, None.
    repeat split; auto. }
  destruct (String.eqb (MaCrossover.action sig) "sell") eqn:S.
  { apply String.eqb_eq in S. intro H. right.
    exists c, has, vol, px, cl, sig, "sell"%string, (Some vol).
    repeat split; auto. }
  intro H. injection H as <- <-. left. eauto.
Qed.


Lemma pass_decided
    (env : Main.Env) (mo : MainLoop.Moments) (k : KrakenOrders.KrakenClient)
    (closes : string -> Py.result (list Q)) (kcfg : KrakenOrders.Cfg)
    (stg : MainLoop.Settings) (bot : MainLoop.Bot) (p : string)
    (od : KrakenOrders.OrderDecision) (m : KrakenOrders.Metrics)
    (bot' : MainLoop.Bot) :
  MainLoop.strategy_step env mo k closes kcfg stg bot p
  = (Py.Ok (MainLoop.Decided od m), bot') ->
  exists c has vol px cl sig r s,
    Ledger.get_cooldown_until (MainLoop.ledger bot) p = Py.Ok c
    /\ (c <= clock_now (MainLoop.at_start mo))%Z
    /\ Ledger.get_position (MainLoop.ledger bot) p = Py.Ok (has, vol, px)
    /\ MaCrossover.decide cl (MainLoop.sma_s stg) (MainLoop.sma_l stg) has
       = Py.Ok sig
    /\ Main.is_killed env (MainLoop.at_kill mo) = false
    /\ Main.is_paused env (MainLoop.at_pause mo) = false
    /\ ((KrakenOrders.side od = "buy" /\ MaCrossover.action sig = "buy")
        \/ (KrakenOrders.side od = "sell"
            /\ MaCrossover.action sig = "sell"))
    /\ KrakenOrders.pair od = p
    /\ (KrakenOrders.reason od = "dry-run" -> KrakenOrders.mode od <> "live")
    /\ Ledger._load_state (MainLoop.ledger bot) = Py.Ok s
    /\ MainLoop.book mo stg
         {| MainLoop.ledger := MainLoop.ledger bot;
            MainLoop.risk := r;
            MainLoop.trades_csv := MainLoop.trades_csv bot |}
         p (KrakenOrders.side od) od m
       = (Py.Ok (MainLoop.Decided od m), bot').
Proof.
  intro H.
  destruct (strategy_step_cases _ _ _ _ _ _ _ _ _ _ H) as [[why [E _]]|R];
    [discriminate|].
  destruct R
    as (c & has & vol & px & cl & sig & sd & ov
        & C & N & G & _ & _ & D & K & P & A & O).
  destruct (order_cases _ _ _ _ _ _ _ _ _ _ _ O) as [od0 [m0 [r [PP B]]]].
  destruct (get_cooldown_loads _ _ _ C) as [s L].
  destruct (book_cases mo stg
              {| MainLoop.ledger := MainLoop.ledger bot;
                 MainLoop.risk := r;
                 MainLoop.trades_csv := MainLoop.trades_csv bot |}
              p sd od0 m0 _ bot' s L B) as [Eo _].
  injection Eo as <- <-.
  destruct (place_or_preview_fields _ _ _ _ _ _ _ _ _ _ _ PP)
    as [Fp [Fs [_ [Fd _]]]].
  exists c, has, vol, px, cl, sig, r, s.
  repeat split; auto.
  - destruct A as [[-> [A _]]|[-> [A _]]]; [left|right]; now split.
  - now rewrite Fs.
Qed.

Lemma get_position_held (fs : Ledger.Files) (p : string) (vol px : Q) :
  Ledger.get_position fs p = Py.Ok (true, vol, px) -> 0 < vol.
Proof.
  unfold Ledger.get_position.
  destruct (Ledger._load_state fs) as [s|e]; [|discriminate].
  cbn [Py.bind]. destruct (Py.get _ p) as [pos|]; [|discriminate].
  intro H. injection H as H <- _.
  apply andb_true_iff in H. destruct H as [_ H]. now apply gtb_true in H.
Qed.

(** Orders follow the ledger.  When a pass of the strategy loop gets as
    far as an order decision, the cooldown of the pair had run out, the
    kill-switch and pause files were absent when the loop looked, and the
    decision is a buy for a pair the ledger holds no position in or a sell
    for a pair it holds a positive volume of. *)
Theorem orders_follow_the_ledger :
  forall (env : Main.Env) (mo : MainLoop.Moments)
         (k : KrakenOrders.KrakenClient)
         (closes : string -> Py.result (list Q)) (kcfg : KrakenOrders.Cfg)
         (stg : MainLoop.Settings) (bot bot' : MainLoop.Bot) (p : string)
         (od : KrakenOrders.OrderDecision) (m : KrakenOrders.Metrics),
    MainLoop.strategy_step env mo k closes kcfg stg bot p
    = (Py.Ok (MainLoop.Decided od m), bot') ->
    exists c has vol px,
      Ledger.get_cooldown_until (MainLoop.ledger bot) p = Py.Ok c
      /\ (c <= clock_now (MainLoop.at_start mo))%Z
      /\ Ledger.get_position (MainLoop.ledger bot) p = Py.Ok (has, vol, px)
      /\ ((KrakenOrders.side od = "buy" /\ has = false)
          \/ (KrakenOrders.side od = "sell" /\ has = true /\ 0 < vol))
      /\ KrakenOrders.pair od = p
      /\ Main.is_killed env (MainLoop.at_kill mo) = false
      /\ Main.is_paused env (MainLoop.at_pause mo) = false.
Proof.
  intros env mo k closes kcfg stg bot bot' p od m H.
  destruct (pass_decided _ _ _ _ _ _ _ _ _ _ _ H)
    as (c & has & vol & px & cl & sig & r & s
        & C & N & G & D & K & P & A & Fp & _).
  destruct (decide_action _ _ _ _ _ D) as [Db Ds].
  exists c, has, vol, px. repeat split; auto.
  destruct A as [[S A]|[S A]].
  - left. split; [exact S|]. now apply Db.
  - right. split; [exact S|]. pose proof (Ds A) as Hh. subst has.
    split; [reflexivity|]. exact (get_position_held _ _ _ _ G).
Qed.

Lemma orders_follow_the_ledger_witness :
  exists od m bot',
    MainLoop.strategy_step Samples.plain_env Samples.calm Samples.exchange
      Samples.rising Samples.dry_run_cfg Samples.settings Samples.fresh_bot
      "XBTUSD"
    = (Py.Ok (MainLoop.Decided od m), bot')
    /\ exists c has vol px,
         Ledger.get_cooldown_until (MainLoop.ledger Samples.fresh_bot)
           "XBTUSD" = Py.Ok c
         /\ (c <= clock_now (MainLoop.at_start Samples.calm))%Z
         /\ Ledger.get_position (MainLoop.ledger Samples.fresh_bot)
              "XBTUSD" = Py.Ok (has, vol, px)
         /\ ((KrakenOrders.side od = "buy" /\ has = false)
             \/ (KrakenOrders.side od = "sell" /\ has = true /\ 0 < vol))
         /\ KrakenOrders.pair od = "XBTUSD"
         /\ Main.is_killed Samples.plain_env
              (MainLoop.at_kill Samples.calm) = false
         /\ Main.is_paused Samples.plain_env
              (MainLoop.at_pause Samples.calm) = false.
Proof.
  do 3 eexists.
  match goal with
  | |- ?E /\ _ => assert (Run : E) by (vm_compute; reflexivity)
  end.
  split; [exact Run|].
  exact (orders_follow_the_ledger _ _ _ _ _ _ _ _ _ _ _ Run).
Defined.


Lemma pass_cooldown
    (mo : MainLoop.Moments) (stg : MainLoop.Settings) (s s' : Ledger.State)
    (p sd : string) (od : KrakenOrders.OrderDecision)
    (m : KrakenOrders.Metrics) :
  booked mo stg s p sd od m s' ->
  MainLoop.executed od = true ->
  cooldown_of s' p
  = (clock_now (MainLoop.at_cooldown mo) + MainLoop.cd_seconds stg)%Z.
Proof.
  intros [C _] E. rewrite E in C. unfold cooldown_of. rewrite C.
  cbn [RiskEngine.or_default]. unfold Py.get_default.
  now rewrite get_set_same.
Qed.

(** What a pass leaves behind.  A pass that is skipped changes nothing.
    A pass whose decision is neither "dry-run" nor "LIVE order placed"
    leaves the ledger and the trades file as they were.  A pass with one
    of these two decisions appends exactly one row to the trades file,
    carrying the configured notional, and sets the pair's cooldown to
    [cd_seconds] after the instant [set_cooldown] read the clock; until
    then every later pass for the pair is skipped and changes nothing. *)
Theorem a_pass_books_only_executed_orders :
  forall (env : Main.Env) (mo : MainLoop.Moments)
         (k : KrakenOrders.KrakenClient)
         (closes : string -> Py.result (list Q)) (kcfg : KrakenOrders.Cfg)
         (stg : MainLoop.Settings) (bot bot' : MainLoop.Bot) (p : string)
         (out : MainLoop.Outcome),
    MainLoop.strategy_step env mo k closes kcfg stg bot p
    = (Py.Ok out, bot') ->
    match out with
    | MainLoop.Skipped _ => bot' = bot
    | MainLoop.Decided od m =>
        (MainLoop.executed od = false ->
         MainLoop.ledger bot' = MainLoop.ledger bot
         /\ MainLoop.trades_csv bot' = MainLoop.trades_csv bot)
        /\ (MainLoop.executed od = true ->
            let until :=
              (clock_now (MainLoop.at_cooldown mo)
               + MainLoop.cd_seconds stg)%Z in
            Ledger.get_cooldown_until (MainLoop.ledger bot') p
            = Py.Ok until
            /\ MainLoop.trades_csv bot'
               = MainLoop.log_trade_csv (MainLoop.at_log mo)
                   (MainLoop.trades_csv bot) p (KrakenOrders.side od) od m
                   (MainLoop.configured_notional stg)
            /\ forall env2 mo2 k2 closes2 kcfg2 stg2,
                 (clock_now (MainLoop.at_start mo2) < until)%Z ->
                 MainLoop.strategy_step env2 mo2 k2 closes2 kcfg2 stg2
                   bot' p
                 = (Py.Ok (MainLoop.Skipped MainLoop.CooldownActive), bot'))
    end.
Proof.
  intros env mo k closes kcfg stg bot bot' p out H.
  destruct out as [why|od m].
  - destruct (strategy_step_cases _ _ _ _ _ _ _ _ _ _ H) as [[w [_ E]]|R];
      [exact E|].
    destruct R
      as (c & has & vol & px & cl & sig & sd & ov
          & C & _ & _ & _ & _ & _ & _ & _ & _ & O).
    destruct (order_cases _ _ _ _ _ _ _ _ _ _ _ O) as [od0 [m0 [r [_ B]]]].
    destruct (get_cooldown_loads _ _ _ C) as [s L].
    destruct (book_cases mo stg
                {| MainLoop.ledger := MainLoop.ledger bot;
                   MainLoop.risk := r;
                   MainLoop.trades_csv := MainLoop.trades_csv bot |}
                p sd od0 m0 _ bot' s L B) as [Eo _].
    discriminate Eo.
  - destruct (pass_decided _ _ _ _ _ _ _ _ _ _ _ H)
      as (c & has & vol & px & cl & sig & r & s
          & _ & _ & _ & _ & _ & _ & _ & _ & _ & L & B).
    split.
    + intro E. rewrite (book_not_executed mo stg _ p _ od m E) in B.
      injection B as <-. split; reflexivity.
    + intro E. cbv zeta.
      destruct (book_cases mo stg
                  {| MainLoop.ledger := MainLoop.ledger bot;
                     MainLoop.risk := r;
                     MainLoop.trades_csv := MainLoop.trades_csv bot |}
                  p _ od m _ bot' s L B) as [_ [_ [T [s' [L' Bk]]]]].
      rewrite E in T. cbn [MainLoop.trades_csv] in T.
      pose proof (pass_cooldown mo stg s s' p _ od m Bk E) as Cd.
      pose proof (get_cooldown_of_state _ _ p L') as G. rewrite Cd in G.
      split; [exact G|]. split; [exact T|].
      intros env2 mo2 k2 closes2 kcfg2 stg2 Lt.
      unfold MainLoop.strategy_step. cbv zeta. rewrite G.
      apply Z.ltb_lt in Lt. now rewrite Lt.
Qed.

Lemma a_pass_books_only_executed_orders_witness :
  exists od m bot',
    MainLoop.strategy_step Samples.plain_env Samples.calm Samples.exchange
      Samples.rising Samples.dry_run_cfg Samples.settings Samples.fresh_bot
      "XBTUSD"
    = (Py.Ok (MainLoop.Decided od m), bot')
    /\ KrakenOrders.reason od = "dry-run"
    /\ Ledger.get_cooldown_until (MainLoop.ledger bot') "XBTUSD"
       = Py.Ok (clock_now (MainLoop.at_cooldown Samples.calm)
                + MainLoop.cd_seconds Samples.settings)%Z
    /\ List.length (MainLoop.trades_csv bot') = 1%nat.
Proof.
  do 3 eexists. split; [vm_compute; reflexivity|].
  split; [reflexivity|].
  match goal with
  | |- context [MainLoop.ledger ?b] =>
      pose proof (a_pass_books_only_executed_orders Samples.plain_env
                    Samples.calm Samples.exchange Samples.rising
                    Samples.dry_run_cfg Samples.settings Samples.fresh_bot
                    b "XBTUSD" _ ltac:(vm_compute; reflexivity)) as T
  end.
  cbv beta iota zeta in T. destruct T as [_ T].
  destruct (T eq_refl) as [C [L _]].
  split; [exact C|]. rewrite L. reflexivity.
Defined.


Lemma gtb_of_lt (a : Q) : 0 < a -> Py.gtb a 0 = true.
Proof.
  intro H. unfold Py.gtb. apply negb_true_iff.
  destruct (Qle_bool a 0) eqn:E; [|reflexivity].
  apply Qle_bool_iff in E. lra.
Qed.

Lemma position_of_other (s s' : Ledger.State) (p q : string)
    (pos : Ledger.Position) :
  q <> p ->
  RiskEngine.or_default (Ledger.positions s') []
  = RiskEngine.or_default (Ledger.positions s) []
  \/ Ledger.positions s'
     = Some (Py.set (RiskEngine.or_default (Ledger.positions s) []) p pos)
  \/ Ledger.positions s'
     = Some (Py.pop (RiskEngine.or_default (Ledger.positions s) []) p) ->
  position_of s' q = position_of s q.
Proof.
  intros N [H|[H|H]]; unfold position_of; rewrite H;
    cbn [RiskEngine.or_default].
  - reflexivity.
  - rewrite get_set_other by congruence. reflexivity.
  - rewrite get_pop_other by congruence. reflexivity.
Qed.

(** The ledger follows simulated fills only.  A pass that ends with an
    order decision leaves every other pair's position alone.  After "LIVE
    order placed" the pair's own position is also as before: the ledger
    does not learn of live fills.  After "dry-run" with simulated fills
    switched on, a buy with a positive last price stores the decision's
    volume at the last price as the pair's position, and a sell clears the
    position. *)
Theorem the_ledger_follows_simulated_fills_only :
  forall (env : Main.Env) (mo : MainLoop.Moments)
         (k : KrakenOrders.KrakenClient)
         (closes : string -> Py.result (list Q)) (kcfg : KrakenOrders.Cfg)
         (stg : MainLoop.Settings) (bot bot' : MainLoop.Bot) (p : string)
         (od : KrakenOrders.OrderDecision) (m : KrakenOrders.Metrics),
    MainLoop.strategy_step env mo k closes kcfg stg bot p
    = (Py.Ok (MainLoop.Decided od m), bot') ->
    ledger_well_formed (MainLoop.ledger bot) ->
    (forall q, q <> p ->
       Ledger.get_position (MainLoop.ledger bot') q
       = Ledger.get_position (MainLoop.ledger bot) q)
    /\ (KrakenOrders.reason od = "LIVE order placed" ->
        Ledger.get_position (MainLoop.ledger bot') p
        = Ledger.get_position (MainLoop.ledger bot) p)
    /\ (KrakenOrders.reason od = "dry-run" ->
        MainLoop.simulate stg = true ->
        (KrakenOrders.side od = "buy" -> 0 < KrakenOrders.m_last m ->
         exists v,
           Py.float_of_str (KrakenOrders.volume od) = Some v
           /\ Ledger.get_position (MainLoop.ledger bot') p
              = Py.Ok (Py.gtb v 0, v, KrakenOrders.m_last m))
        /\ (KrakenOrders.side od = "sell" ->
            Ledger.get_position (MainLoop.ledger bot') p
            = Py.Ok (false, 0, 0))).
Proof.
  intros env mo k closes kcfg stg bot bot' p od m H WF.
  destruct (pass_decided _ _ _ _ _ _ _ _ _ _ _ H)
    as (c & has & vol & px & cl & sig & r & s
        & _ & _ & _ & _ & _ & _ & _ & _ & Dm & L & B).
  destruct (book_cases mo stg
              {| MainLoop.ledger := MainLoop.ledger bot;
                 MainLoop.risk := r;
                 MainLoop.trades_csv := MainLoop.trades_csv bot |}
              p _ od m _ bot' s L B) as [_ [_ [_ [s' [L' Bk]]]]].
  destruct Bk as [_ [Same [Buy Sell]]].
  rewrite (get_position_of_state _ _ p L).
  rewrite (get_position_of_state _ _ p L').
  split; [|split].
  - intros q N.
    rewrite (get_position_of_state _ _ q L).
    rewrite (get_position_of_state _ _ q L').
    f_equal.
    apply (position_of_other s s' p q
             {| Ledger.base_volume :=
                  match Py.float_of_str (KrakenOrders.volume od) with
                  | Some v => v
                  | None => 0
                  end;
                Ledger.entry_price := KrakenOrders.m_last m |} N).
    destruct (MainLoop.simulated stg od) eqn:S; [|left; apply Same; now left].
    destruct (String.eqb (KrakenOrders.side od) "buy") eqn:Bs.
    + apply String.eqb_eq in Bs.
      destruct (Py.gtb (KrakenOrders.m_last m) 0) eqn:G.
      * right. left. destruct (Buy eq_refl Bs eq_refl) as [v [F P]].
        now rewrite F.
      * left. apply Same. right. now split.
    + apply String.eqb_neq in Bs. right. right. now apply Sell.
  - intro R. f_equal. unfold position_of. rewrite Same; [reflexivity|].
    left. unfold MainLoop.simulated. rewrite R. apply andb_false_r.
  - intros R Sim.
    assert (S : MainLoop.simulated stg od = true).
    { unfold MainLoop.simulated. rewrite R, Sim.
      destruct (String.eqb (KrakenOrders.mode od) "live") eqn:E;
        [|reflexivity].
      apply String.eqb_eq in E. now elim (Dm R). }
    split.
    + intros Sd Pos.
      destruct (Buy S Sd (gtb_of_lt _ Pos)) as [v [F P]].
      exists v. split; [exact F|]. f_equal.
      unfold position_of. rewrite P. cbn [RiskEngine.or_default].
      rewrite get_set_same. cbn [Ledger.base_volume Ledger.entry_price].
      now rewrite has_position_is_positive.
    + intro Sd. f_equal.
      assert (Nb : KrakenOrders.side od <> "buy")
        by (rewrite Sd; discriminate).
      unfold position_of. rewrite (Sell S Nb).
      cbn [RiskEngine.or_default].
      now rewrite (get_pop_same _ p (WF s L)).
Qed.

Lemma the_ledger_follows_simulated_fills_only_witness :
  exists od m bot' v,
    MainLoop.strategy_step Samples.plain_env Samples.calm Samples.exchange
      Samples.rising Samples.dry_run_cfg Samples.settings Samples.fresh_bot
      "XBTUSD"
    = (Py.Ok (MainLoop.Decided od m), bot')
    /\ Py.float_of_str (KrakenOrders.volume od) = Some v
    /\ Ledger.get_position (MainLoop.ledger bot') "XBTUSD"
       = Py.Ok (Py.gtb v 0, v, KrakenOrders.m_last m).
Proof.
  assert (WF : ledger_well_formed (MainLoop.ledger Samples.fresh_bot)).
  { intros s L. injection L as <-. constructor. }
  do 3 eexists.
  match goal with
  | |- exists v, ?E /\ _ =>
      assert (Run : E) by (vm_compute; reflexivity)
  end.
  destruct (the_ledger_follows_simulated_fills_only _ _ _ _ _ _ _ _ _ _ _
              Run WF) as [_ [_ D]].
  destruct (D eq_refl eq_refl) as [Buy _].
  destruct (Buy eq_refl eq_refl) as [v [F P]].
  exists v. split; [exact Run|]. split; [exact F|exact P].
Defined.
